(** * BGA_DATA_Cleaner: a shallow embedding of the cleaning pipeline

    The pipeline is a sequence of pandas scripts (步骤1 .. 步骤7).  Each
    script reads canonical per-cohort tables, transforms them in memory and
    writes them back.  A table on disk and the frame read from it are
    identified here; text is a byte string holding the UTF-8 encoding of
    the Python [str] (substring search on the bytes of valid UTF-8 agrees
    with substring search on code points). *)

From Stdlib Require Import List String Ascii Bool Arith ZArith QArith Lia DecimalString.
From Stdlib Require Import Qminmax Permutation Sorted.
From Stdlib Require Floats Uint63.
Import ListNotations.

(** ** Text primitives *)

Module Text.

Local Open Scope string_scope.
Local Open Scope list_scope.

(** [str.lower()] restricted to the ASCII letters. *)
Definition lower_ascii (c : ascii) : ascii :=
  let n := nat_of_ascii c in
  if (65 <=? n)%nat && (n <=? 90)%nat then ascii_of_nat (n + 32) else c.

Fixpoint lower (s : string) : string :=
  match s with
  | EmptyString => EmptyString
  | String c s' => String (lower_ascii c) (lower s')
  end.

(** [pat in s]: literal substring search. *)
Fixpoint find (pat s : string) : bool :=
  prefix pat s ||
  match s with
  | EmptyString => false
  | String _ s' => find pat s'
  end.

(** What "pat occurs in s" means, independently of the search. *)
Definition occurs (pat s : string) : Prop :=
  exists pre post, s = (pre ++ pat ++ post)%string.

(** Case-insensitive occurrence (ASCII case folding). *)
Definition occurs_ci (pat s : string) : Prop :=
  occurs (lower pat) (lower s).

(** The characters that have a meaning in a Python regular expression. *)
Definition regex_special (c : ascii) : bool :=
  existsb (Ascii.eqb c)
    ["."; "^"; "$"; "*"; "+"; "?"; "{"; "}"; "["; "]"; "\"; "|"; "("; ")"]%char.

Fixpoint regex_literal (pat : string) : bool :=
  match pat with
  | EmptyString => true
  | String c p => negb (regex_special c) && regex_literal p
  end.

(** [Series.str.contains(pat, case=False, na=False)] on a text value, for a
    pattern without regex metacharacters: the compiled pattern then matches
    exactly the occurrences of the literal text, letters compared without
    case. *)
Definition contains_ci (pat s : string) : bool := find (lower pat) (lower s).

(** The white space that [str.strip()] removes: the ASCII control and
    space characters 9-13, 28-32 and the Unicode spaces U+0085, U+00A0,
    U+1680, U+2000-U+200A, U+2028, U+2029, U+202F, U+205F and U+3000, each
    as the bytes of its UTF-8 encoding. *)
Definition bytes (l : list nat) : string :=
  fold_right (fun n s => String (ascii_of_nat n) s) EmptyString l.

Definition WHITESPACE : list string :=
  map bytes
    [ [9]; [10]; [11]; [12]; [13]; [28]; [29]; [30]; [31]; [32];
      [194; 133]; [194; 160]; [225; 154; 128];
      [226; 128; 128]; [226; 128; 129]; [226; 128; 130]; [226; 128; 131];
      [226; 128; 132]; [226; 128; 133]; [226; 128; 134]; [226; 128; 135];
      [226; 128; 136]; [226; 128; 137]; [226; 128; 138];
      [226; 128; 168]; [226; 128; 169]; [226; 128; 175]; [226; 129; 159];
      [227; 128; 128] ]%nat.

Fixpoint reverse (acc s : string) : string :=
  match s with
  | EmptyString => acc
  | String c s' => reverse (String c acc) s'
  end.

(** The number of bytes of the white-space character that [s] starts
    with, 0 when it starts with none. *)
Definition space_prefix (spaces : list string) (s : string) : nat :=
  match List.find (fun w => prefix w s) spaces with
  | Some w => String.length w
  | None => 0
  end.

(** [s.lstrip()], [skip] bytes of a white-space character still to be
    dropped. *)
Fixpoint lstrip_from (spaces : list string) (skip : nat) (s : string) : string :=
  match s with
  | EmptyString => EmptyString
  | String _ s' =>
      match skip with
      | S k => lstrip_from spaces k s'
      | O =>
          match space_prefix spaces s with
          | O => s
          | S k => lstrip_from spaces k s'
          end
      end
  end.

Definition lstrip (s : string) : string := lstrip_from WHITESPACE 0 s.

Definition rstrip (s : string) : string :=
  reverse EmptyString
    (lstrip_from (map (reverse EmptyString) WHITESPACE) 0 (reverse EmptyString s)).

Definition strip (s : string) : string := rstrip (lstrip s).

(** [s.replace(c, '')] for a one-character [c]. *)
Fixpoint remove_char (c : ascii) (s : string) : string :=
  match s with
  | EmptyString => EmptyString
  | String d s' => if Ascii.eqb c d then remove_char c s' else String d (remove_char c s')
  end.

Definition TAB : ascii := ascii_of_nat 9.

(** [len(s)] of a Python [str]: the number of code points, that is of the
    bytes that are not UTF-8 continuation bytes (10xxxxxx). *)
Fixpoint py_len (s : string) : nat :=
  match s with
  | EmptyString => 0
  | String c s' =>
      let n := nat_of_ascii c in
      (if (128 <=? n)%nat && (n <? 192)%nat then 0 else 1) + py_len s'
  end.

(** Decimal digits, zero padded on the left to [width] characters
    (strftime's %Y, %m, %d, %H, %M). *)
Definition digit (n : nat) : ascii := ascii_of_nat (48 + n mod 10).

Fixpoint pad_digits (width : nat) (n : nat) : string :=
  match width with
  | O => EmptyString
  | S w => (pad_digits w (n / 10) ++ String (digit n) EmptyString)%string
  end.

Definition is_digit (c : ascii) : bool :=
  let n := nat_of_ascii c in (48 <=? n)%nat && (n <=? 57)%nat.

(** A run of decimal digits read as a number; [None] on any other byte or
    on the empty string. *)
Fixpoint digits_value (acc : nat) (s : string) : option nat :=
  match s with
  | EmptyString => Some acc
  | String c s' =>
      if is_digit c then digits_value (10 * acc + (nat_of_ascii c - 48)) s' else None
  end.

Definition read_nat (s : string) : option nat :=
  match s with
  | EmptyString => None
  | _ => digits_value 0 s
  end.

End Text.

(** ** Data frames *)

Module Frame.

Local Open Scope string_scope.
Local Open Scope list_scope.

(** A cell of a frame read from a delimited text file. *)
Inductive cell : Type :=
| NaN
| Str (s : string)
| Int (n : Z)
| Flt (x : Q).

(** Equality of cells as pandas uses it for join keys, [isin] and [unique]
    (a missing key matches a missing key, numbers compare by value).
    Against a literal that is not missing it is Python's [==]. *)
Definition cell_eqb (a b : cell) : bool :=
  match a, b with
  | NaN, NaN => true
  | Str s, Str t => String.eqb s t
  | Int n, Int m => Z.eqb n m
  | Flt x, Flt y => Qeq_bool x y
  | Int n, Flt y => Qeq_bool (inject_Z n) y
  | Flt x, Int m => Qeq_bool x (inject_Z m)
  | _, _ => false
  end.

Definition isna (c : cell) : bool :=
  match c with NaN => true | _ => false end.

(** A row is the record of its cells by column name; a frame keeps the
    column order next to its rows. *)
Definition Row : Type := list (string * cell).

Record DataFrame : Type := mkFrame {
  columns : list string;
  rows : list Row
}.

Definition mem (c : string) (l : list string) : bool := existsb (String.eqb c) l.

(** [col in df.columns] *)
Definition has_column (df : DataFrame) (col : string) : bool := mem col (columns df).

(** [row[col]]; the callers check [has_column] first where the source does. *)
Fixpoint get (r : Row) (col : string) : cell :=
  match r with
  | [] => NaN
  | (c, v) :: r' => if String.eqb c col then v else get r' col
  end.

(** [df[col]] as the list of its values. *)
Definition column (df : DataFrame) (col : string) : list cell :=
  map (fun r => get r col) (rows df).

(** [len(df)] *)
Definition len (df : DataFrame) : nat := List.length (rows df).

(** [df[mask]] for a mask computed row by row. *)
Definition select (p : Row -> bool) (df : DataFrame) : DataFrame :=
  mkFrame (columns df) (filter p (rows df)).

(** [df.drop(columns=names)] *)
Definition drop_columns (names : list string) (df : DataFrame) : DataFrame :=
  mkFrame (filter (fun c => negb (mem c names)) (columns df))
          (map (filter (fun cv : string * cell => negb (mem (fst cv) names))) (rows df)).

Fixpoint set (r : Row) (col : string) (v : cell) : Row :=
  match r with
  | [] => [(col, v)]
  | (c, w) :: r' => if String.eqb c col then (c, v) :: r' else (c, w) :: set r' col v
  end.

(** [df[col] = f(row)]: an existing column is overwritten in place, a new
    one is appended on the right. *)
Definition assign (col : string) (f : Row -> cell) (df : DataFrame) : DataFrame :=
  mkFrame (if has_column df col then columns df else columns df ++ [col])
          (map (fun r => set r col (f r)) (rows df)).

(** [df.rename(columns={old: new})] *)
Definition rename_column (old new : string) (df : DataFrame) : DataFrame :=
  let rn := fun c => if String.eqb c old then new else c in
  mkFrame (map rn (columns df))
          (map (map (fun cv : string * cell => (rn (fst cv), snd cv))) (rows df)).

(** [Series.unique()]: the distinct values in order of first appearance. *)
Fixpoint unique_aux (seen : list cell) (l : list cell) : list cell :=
  match l with
  | [] => []
  | v :: l' =>
      if existsb (cell_eqb v) seen then unique_aux seen l'
      else v :: unique_aux (v :: seen) l'
  end.

Definition unique (l : list cell) : list cell := unique_aux [] l.

(** [value in values] / [Series.isin(values)] for one value. *)
Definition isin (values : list cell) (v : cell) : bool := existsb (cell_eqb v) values.

(** [left.merge(right, on=key, how='left')].  A column other than the key
    that is on both sides gets the suffixes [_x] and [_y].  [None] is the
    KeyError of a key column that is missing on one side. *)
Definition merge_left (left right : DataFrame) (key : string) : option DataFrame :=
  if has_column left key && has_column right key then
    let both := fun c => negb (String.eqb c key) && has_column left c && has_column right c in
    let lname := fun c => if both c then (c ++ "_x")%string else c in
    let rname := fun c => if both c then (c ++ "_y")%string else c in
    let rcols := filter (fun c => negb (String.eqb c key)) (columns right) in
    let lrow := fun l : Row => map (fun cv : string * cell => (lname (fst cv), snd cv)) l in
    Some (mkFrame
      (map lname (columns left) ++ map rname rcols)
      (flat_map (fun l =>
         match filter (fun r => cell_eqb (get r key) (get l key)) (rows right) with
         | [] => [lrow l ++ map (fun c => (rname c, NaN)) rcols]
         | ms => map (fun m => lrow l ++ map (fun c => (rname c, get m c)) rcols) ms
         end) (rows left)))
  else None.

(** [1 if patient in patients else 0] *)
Definition flag (patients : list cell) (patient : cell) : cell :=
  Int (if isin patients patient then 1 else 0).

(** [Series.fillna(fill)] on one cell. *)
Definition fillna (fill : cell) (c : cell) : cell :=
  match c with NaN => fill | _ => c end.

(** [Series.astype(str)] / [str(value)].  The text of a float is Python's
    [repr], which is taken as given. *)
Section AsText.
Variable float_str : Q -> string.

Definition astype_str (c : cell) : string :=
  match c with
  | NaN => "nan"
  | Str s => s
  | Int n => NilEmpty.string_of_int (Z.to_int n)
  | Flt x => float_str x
  end.
End AsText.

(** [df[col] = values] for a column of values computed as a whole. *)
Definition assign_values (col : string) (values : list cell) (df : DataFrame) : DataFrame :=
  mkFrame (if has_column df col then columns df else columns df ++ [col])
          (map (fun rv : Row * cell => set (fst rv) col (snd rv)) (combine (rows df) values)).

(** A fallible function applied to every element, failing as a whole. *)
Fixpoint map_opt {A B : Type} (f : A -> option B) (l : list A) : option (list B) :=
  match l with
  | [] => Some []
  | x :: t =>
      match f x, map_opt f t with
      | Some y, Some r => Some (y :: r)
      | _, _ => None
      end
  end.

(** Every row carries exactly the columns of the frame, and no column name
    is repeated (as [read_csv] guarantees). *)
Definition wf (df : DataFrame) : Prop :=
  NoDup (columns df) /\ Forall (fun r => map fst r = columns df) (rows df).

End Frame.

(** ** Timestamps and calendar dates *)

Module Clock.

Local Open Scope Z_scope.

(** A pandas Timestamp without time zone: nanoseconds since
    1970-01-01 00:00:00. *)
Definition Timestamp : Type := Z.

Definition NS_PER_SECOND : Z := 1000000000.
Definition NS_PER_HOUR : Z := 3600 * NS_PER_SECOND.
Definition NS_PER_DAY : Z := 24 * NS_PER_HOUR.

(** [ts.hour] *)
Definition hour (ts : Timestamp) : Z := (ts / NS_PER_HOUR) mod 24.

(** The calendar day of a timestamp, as the number of days since
    1970-01-01. *)
Definition day_number (ts : Timestamp) : Z := ts / NS_PER_DAY.

(** [ts - timedelta(days=n)] *)
Definition minus_days (ts : Timestamp) (n : Z) : Timestamp := ts - n * NS_PER_DAY.

(** [(stop - start).days]: whole days, rounded towards minus infinity. *)
Definition timedelta_days (start stop : Timestamp) : Z := (stop - start) / NS_PER_DAY.

(** Day number of a date of the proleptic Gregorian calendar. *)
Definition days_from_civil (y m d : Z) : Z :=
  let y := if m <=? 2 then y - 1 else y in
  let era := y / 400 in
  let yoe := y - era * 400 in
  let mp := if 2 <? m then m - 3 else m + 9 in
  let doy := (153 * mp + 2) / 5 + d - 1 in
  let doe := yoe * 365 + yoe / 4 - yoe / 100 + doy in
  era * 146097 + doe - 719468.

(** The date (year, month, day) of a day number. *)
Definition civil_from_days (z : Z) : Z * Z * Z :=
  let z := z + 719468 in
  let era := z / 146097 in
  let doe := z - era * 146097 in
  let yoe := (doe - doe / 1460 + doe / 36524 - doe / 146096) / 365 in
  let y := yoe + era * 400 in
  let doy := doe - (365 * yoe + yoe / 4 - yoe / 100) in
  let mp := (5 * doy + 2) / 153 in
  let d := doy - (153 * mp + 2) / 5 + 1 in
  let m := if mp <? 10 then mp + 3 else mp - 9 in
  (if m <=? 2 then y + 1 else y, m, d).

(** [strftime('%Y-%m-%d')] of the day with this number. *)
Definition format_ymd (day : Z) : string :=
  let '(y, m, d) := civil_from_days day in
  (Text.pad_digits 4 (Z.to_nat y) ++ "-" ++ Text.pad_digits 2 (Z.to_nat m) ++ "-"
     ++ Text.pad_digits 2 (Z.to_nat d))%string.

(** [ts.strftime('%Y-%m-%d')] *)
Definition strftime_ymd (ts : Timestamp) : string := format_ymd (day_number ts).

Definition timestamp_of (y m d hh mm ss : Z) : Timestamp :=
  days_from_civil y m d * NS_PER_DAY + (hh * 3600 + mm * 60 + ss) * NS_PER_SECOND.

(** A reader for the two ISO shapes [YYYY-MM-DD] and
    [YYYY-MM-DD HH:MM:SS], the shapes pandas itself writes.  It serves as
    the concrete parser wherever a statement is evaluated on texts. *)
Definition read_field (s : string) (start len : nat) : option Z :=
  option_map Z.of_nat (Text.read_nat (substring start len s)).

Definition sep_at (s : string) (i : nat) (c : ascii) : bool :=
  match String.get i s with
  | Some d => Ascii.eqb c d
  | None => false
  end.

Definition days_in_month (y m : Z) : Z :=
  days_from_civil (if m =? 12 then y + 1 else y) (if m =? 12 then 1 else m + 1) 1
  - days_from_civil y m 1.

Definition iso_date (s : string) : option Z :=
  match read_field s 0 4, read_field s 5 2, read_field s 8 2 with
  | Some y, Some m, Some d =>
      if sep_at s 4 "-" && sep_at s 7 "-" && (1 <=? m) && (m <=? 12) && (1 <=? d)
         && (d <=? days_in_month y m)
      then Some (days_from_civil y m d) else None
  | _, _, _ => None
  end.

Definition iso_datetime (s : string) : option Timestamp :=
  match String.length s with
  | 10%nat => option_map (fun d => d * NS_PER_DAY) (iso_date s)
  | 19%nat =>
      match iso_date (substring 0 10 s), read_field s 11 2, read_field s 14 2, read_field s 17 2 with
      | Some d, Some hh, Some mm, Some ss =>
          if sep_at s 10 " " && sep_at s 13 ":" && sep_at s 16 ":" && (hh <? 24) && (mm <? 60)
             && (ss <? 60)
          then Some (d * NS_PER_DAY + (hh * 3600 + mm * 60 + ss) * NS_PER_SECOND) else None
      | _, _, _, _ => None
      end
  | _ => None
  end.

End Clock.

(** ** float64 arithmetic *)

(** The glucose column is a float64 column; the aggregations 'mean' and
    'std' of pandas and the rounding of numpy are computed in IEEE 754
    binary64 arithmetic, rounding to nearest, ties to even. *)
Module Float64.

Import Floats.
Local Open Scope float_scope.

(** The float64 of a count. *)
Definition of_count (n : nat) : float := of_uint63 (Uint63.of_Z (Z.of_nat n)).

(** An integer as a binary number with the exponent 0, not rounded. *)
Definition of_Z (z : Z) : spec_float :=
  match z with
  | Z0 => S754_zero false
  | Zpos p => S754_finite false p 0
  | Zneg p => S754_finite true p 0
  end.

(** The float64 of a decimal number: the float64 nearest to it, ties to
    even, obtained as the correctly rounded quotient of its numerator by
    its denominator. *)
Definition of_Q (q : Q) : float :=
  SF2Prim (SFdiv prec emax (of_Z (Qnum q)) (of_Z (Zpos (Qden q)))).

(** The aggregation 'mean' of a group (pandas' [group_mean]): the sum of
    the values with Kahan's compensation, divided by their number. *)
Definition kahan_step (st : float * float) (val : float) : float * float :=
  let '(sumx, compensation) := st in
  let y := val - compensation in
  let t := sumx + y in
  let compensation := t - sumx - y in
  let compensation := if is_nan compensation then 0 else compensation in
  (t, compensation).

Definition group_mean (xs : list float) : float :=
  fst (fold_left kahan_step xs (0, 0)) / of_count (List.length xs).

(** The aggregation 'std' of a group (pandas' [group_var] with its
    default [ddof = 1], then the square root): Welford's running mean and
    sum of squared deviations; no result (NaN) for [ddof] values or
    fewer. *)
Definition welford_step (st : float * float * nat) (val : float) : float * float * nat :=
  let '(mean, out, nobs) := st in
  let nobs := S nobs in
  let oldmean := mean in
  let mean := oldmean + (val - oldmean) / of_count nobs in
  let out := out + (val - mean) * (val - oldmean) in
  (mean, out, nobs).

Definition ddof : nat := 1.

Definition group_std (xs : list float) : float :=
  let '(_, out, ct) := fold_left welford_step xs (0, 0, 0%nat) in
  if (ct <=? ddof)%nat then nan else sqrt (out / of_count (ct - ddof)).

(** [rint]: the nearest integer, ties to the even one, with the sign of
    its argument.  Below 2^52 in absolute value it is obtained by adding
    and subtracting 2^52; from there on every float64 is an integer. *)
Definition two52 : float := 4503599627370496.

Definition rint (x : float) : float :=
  if abs x <? two52 then
    if x =? 0 then x
    else if x <? 0 then - ((- x + two52) - two52) else (x + two52) - two52
  else x.

(** [Series.round(2)], numpy's [around]: [rint(x * 100) / 100]. *)
Definition round2 (x : float) : float := rint (x * 100) / 100.

End Float64.

(** ** 步骤7: daily aggregation and labelling *)

Module Step7.

Import Frame.
Local Open Scope string_scope.
Local Open Scope list_scope.

(** One glucose measurement as [process_glucose_data] sees it after the
    conversions of its first lines: [date] is
    [pd.to_datetime(exam_time, errors='coerce').dt.date] as a day number
    ([None] for NaT) and [glucose_value] is [blood_sugar] through
    [pd.to_numeric(errors='coerce')] ([None] for NaN). *)
Record Measurement : Type := mkMeasurement {
  m_admission_key : string;
  m_date : option Z;
  m_glucose_value : option Q
}.

(** The key of a daily group: (admission_key, date). *)
Definition GroupKey : Type := (string * Z)%type.

(** The two [dropna] calls: a record needs a date and a numeric value. *)
Definition valid_records (ms : list Measurement) : list (GroupKey * Q) :=
  flat_map (fun m =>
    match m_date m, m_glucose_value m with
    | Some d, Some v => [((m_admission_key m, d), v)]
    | _, _ => []
    end) ms.

Definition key_compare (a b : GroupKey) : comparison :=
  match String.compare (fst a) (fst b) with
  | Eq => Z.compare (snd a) (snd b)
  | c => c
  end.

Definition key_eqb (a b : GroupKey) : bool :=
  String.eqb (fst a) (fst b) && Z.eqb (snd a) (snd b).

Definition key_leb (a b : GroupKey) : bool :=
  match key_compare a b with Gt => false | _ => true end.

(** [sort_values(['admission_key', 'date'])], a stable sort. *)
Section Sorting.
Context {A : Type} (key : A -> GroupKey).

Fixpoint insert_sorted (x : A) (l : list A) : list A :=
  match l with
  | [] => [x]
  | h :: t => if key_leb (key x) (key h) then x :: l else h :: insert_sorted x t
  end.

Definition sort_values (l : list A) : list A := fold_right insert_sorted [] l.

(** [groupby('admission_key').cumcount()] *)
Fixpoint cumcount_from (seen : list string) (l : list A) : list nat :=
  match l with
  | [] => []
  | x :: t =>
      count_occ string_dec seen (fst (key x))
        :: cumcount_from (fst (key x) :: seen) t
  end.

Definition cumcount (l : list A) : list nat := cumcount_from [] l.

(** [groupby('admission_key')['admission_key'].transform('count')] *)
Definition group_count (l : list A) : list nat :=
  map (fun x => count_occ string_dec (map (fun y => fst (key y)) l) (fst (key x))) l.
End Sorting.

Definition GroupKey_dec (a b : GroupKey) : {a = b} + {a <> b}.
Proof. decide equality; [apply Z.eq_dec | apply string_dec]. Defined.

(** The group keys of a [groupby]: distinct and ascending. *)
Definition group_keys (l : list GroupKey) : list GroupKey :=
  sort_values (fun k => k) (nodup GroupKey_dec l).

(** The values of one group, in the order of the records. *)
Definition group_values (k : GroupKey) (recs : list (GroupKey * Q)) : list Q :=
  map snd (filter (fun kv => key_eqb (fst kv) k) recs).

Definition Qltb (x y : Q) : bool := negb (Qle_bool y x).

(** The aggregations of [.agg]: 'min', 'max', 'mean', 'std', 'count'.
    The minimum and the maximum are values of the group; the mean and the
    standard deviation are float64 results. *)
Definition agg_min (xs : list Q) : Q :=
  match xs with [] => 0%Q | x :: t => fold_left Qmin t x end.

Definition agg_max (xs : list Q) : Q :=
  match xs with [] => 0%Q | x :: t => fold_left Qmax t x end.

Definition agg_mean (xs : list Q) : PrimFloat.float :=
  Float64.group_mean (map Float64.of_Q xs).

Definition agg_std (xs : list Q) : PrimFloat.float :=
  Float64.group_std (map Float64.of_Q xs).

Record DailyGlucose : Type := mkDaily {
  admission_key : string;
  date : Z;
  min_glucose : Q;
  max_glucose : Q;
  mean_glucose : PrimFloat.float;
  std_glucose : PrimFloat.float;
  count_glucose : nat
}.

Definition aggregate (k : GroupKey) (xs : list Q) : DailyGlucose :=
  mkDaily (fst k) (snd k) (agg_min xs) (agg_max xs) (agg_mean xs) (agg_std xs)
          (List.length xs).

(** [df.groupby(['admission_key', 'date']).agg(...).reset_index()] *)
Definition daily_statistics (ms : list Measurement) : list DailyGlucose :=
  let recs := valid_records ms in
  map (fun k => aggregate k (group_values k recs)) (group_keys (map fst recs)).

(** The column cv_glucose = (std / mean * 100).round(2). *)
Section CoefficientOfVariation.

Import Floats.
Local Open Scope float_scope.

Definition cv_glucose (d : DailyGlucose) : float :=
  Float64.round2 (std_glucose d / mean_glucose d * 100).

End CoefficientOfVariation.

Definition daily_key (d : DailyGlucose) : GroupKey := (admission_key d, date d).

(** The table after the self-join on (admission_key, next_date). *)
Record MergedRow : Type := mkMerged {
  m_row : DailyGlucose;
  next_min_glucose : option Q;
  next_max_glucose : option Q
}.

Definition next_date (d : DailyGlucose) : Z := (date d + 1)%Z.

Definition merge_next_day (daily : list DailyGlucose) : list MergedRow :=
  flat_map (fun r =>
    match filter (fun n => key_eqb (daily_key n) (admission_key r, next_date r)) daily with
    | [] => [mkMerged r None None]
    | ms => map (fun n => mkMerged r (Some (min_glucose n)) (Some (max_glucose n))) ms
    end) daily.

Definition HYPOGLYCEMIA : Z := 0.
Definition NORMAL : Z := 1.
Definition HYPERGLYCEMIA : Z := 2.

(** [classify_outcome]; [None] is NaN. *)
Definition classify_outcome (row : MergedRow) : option Z :=
  match next_min_glucose row with
  | None => None
  | Some nmin =>
      if Qltb nmin (39 # 10) then Some HYPOGLYCEMIA
      else match next_max_glucose row with
           | Some nmax => if Qltb (139 # 10) nmax then Some HYPERGLYCEMIA else Some NORMAL
           | None => Some NORMAL
           end
  end.

Record Labeled : Type := mkLabeled {
  daily : DailyGlucose;
  outcome : Z
}.

(** The rows whose outcome is not NaN, without the helper columns. *)
Definition label_rows (merged : list MergedRow) : list Labeled :=
  flat_map (fun m =>
    match classify_outcome m with
    | Some o => [mkLabeled (m_row m) o]
    | None => []
    end) merged.

Definition process_glucose_data (ms : list Measurement) : list Labeled :=
  label_rows (merge_next_day (sort_values daily_key (daily_statistics ms))).

(** A labelled day with the static, laboratory and medication columns that
    [build_timeseries_dataset] joins onto it. *)
Record JoinedRow : Type := mkJoined {
  glucose : Labeled;
  features : Row
}.

Definition joined_key (j : JoinedRow) : GroupKey := daily_key (daily (glucose j)).

Record FinalRow : Type := mkFinal {
  joined : JoinedRow;
  HospDay : nat;
  PREHYPO : Z
}.

Definition final_key (f : FinalRow) : GroupKey := joined_key (joined f).

(** The loop over [iterrows] that sets PREHYPO: a day is marked when an
    earlier day of the same admission had a minimum below 3.9. *)
Definition prehypo (all : list JoinedRow) (j : JoinedRow) : Z :=
  if existsb (fun r =>
       Qltb (min_glucose (daily (glucose r))) (39 # 10)
       && String.eqb (fst (joined_key j)) (fst (joined_key r))
       && Z.ltb (snd (joined_key r)) (snd (joined_key j))) all
  then 1%Z else 0%Z.

Definition add_day_columns (daily_data : list JoinedRow) : list FinalRow :=
  let sorted := sort_values joined_key daily_data in
  map (fun p => mkFinal (fst p) (snd p + 1) (prehypo sorted (fst p)))
      (combine sorted (cumcount joined_key sorted)).

(** Step 7 of [build_timeseries_dataset]: keep the rows with
    [day_seq > 1] and [day_seq < total_days]. *)
Section Trimming.
Context {A : Type} (key : A -> GroupKey).

Definition trim_boundary (daily_data : list A) : list A :=
  let sorted := sort_values key daily_data in
  let day_seq := map S (cumcount key sorted) in
  let total_days := group_count key sorted in
  map fst
    (filter (fun p => (1 <? fst (snd p))%nat && (fst (snd p) <? snd (snd p))%nat)
            (combine sorted (combine day_seq total_days))).
End Trimming.

(** [build_timeseries_dataset] from the joined table on. *)
Definition build_timeseries_dataset (daily_data : list JoinedRow) : list FinalRow :=
  trim_boundary final_key (add_day_columns daily_data).

(** The binary table of [main]: outcome_HYPO is 1 where outcome is 0, the
    old outcome column is dropped and the new one takes its name.  [None]
    is the KeyError of a frame without an outcome column. *)
Definition binarize (x : cell) : cell :=
  if cell_eqb x (Int 0) then Int 1 else Int 0.

Definition hypo_binary_table (df_combined : DataFrame) : option DataFrame :=
  if has_column df_combined "outcome" then
    Some (rename_column "outcome_HYPO" "outcome"
           (drop_columns ["outcome"]
             (assign "outcome_HYPO" (fun r => binarize (get r "outcome")) df_combined)))
  else None.

End Step7.

(** ** 步骤1: the day-boundary ("8-8") rule *)

Module Step1.

Import Frame Clock.
Local Open Scope string_scope.
Local Open Scope list_scope.

Definition exclude_patterns : list string :=
  ["birth_date"; "admission_date"; "discharge_date"; "surgery_dates"].

Section DayBoundary.
(** Python's text of a float and
    [pd.to_datetime(series_of_text, errors='coerce')]: one result per
    element, [None] for NaT. *)
Variable float_str : Q -> string.
Variable to_datetime : list string -> list (option Timestamp).

(** The test of the first loop: is [col] a column of timestamps? *)
Definition is_datetime_col (df : DataFrame) (col : string) : bool :=
  let col_lower := Text.lower col in
  existsb (fun k => Text.find k col_lower) ["time"; "_date"]
  && negb (existsb (fun p => Text.find p col_lower) exclude_patterns)
  && (let sample :=
        firstn 5 (map (astype_str float_str)
                      (filter (fun c => negb (isna c)) (column df col))) in
      (0 <? List.length sample)%nat
      && (existsb (Text.find ":") sample
          || existsb (fun s => (10 <? Text.py_len s)%nat) sample)).

Definition datetime_cols (df : DataFrame) : list string :=
  filter (is_datetime_col df) (columns df).

(** [astype(str).str.replace('\t', '').str.strip()] *)
Definition clean_text (c : cell) : string :=
  Text.strip (Text.remove_char Text.TAB (astype_str float_str c)).

(** Hours 00:00-07:59 belong to the day before; the result is the date
    as text, NaN for NaT. *)
Definition shift_early (ts : Timestamp) : Timestamp :=
  if (hour ts <? 8)%Z then minus_days ts 1 else ts.

Definition normalize (parsed : option Timestamp) : cell :=
  match parsed with
  | Some ts => Str (strftime_ymd (shift_early ts))
  | None => NaN
  end.

(** One round of the second loop. *)
Definition convert_column (df : DataFrame) (col : string) : DataFrame :=
  let texts := map (fun r => clean_text (get r col)) (rows df) in
  assign_values col (map normalize (to_datetime texts)) df.

(** [stats[col] = df[col].notna().sum()] *)
Definition notna_count (df : DataFrame) (col : string) : nat :=
  List.length (filter (fun c => negb (isna c)) (column df col)).

Definition _process_datetime_columns (df : DataFrame)
  : DataFrame * list (string * nat) :=
  let cols := datetime_cols df in
  let df' := fold_left convert_column cols df in
  (df', map (fun col => (col, notna_count df' col)) cols).
End DayBoundary.

End Step1.

(** ** 步骤2: cohort filter *)

Module Step2.

Import Frame.
Local Open Scope string_scope.
Local Open Scope list_scope.

(** The tables of one cohort directory, [sorted(group_dir.glob("*.csv"))]. *)
Definition Files : Type := list (string * DataFrame).

(** The body of the loop for one file: the frame written back and the
    number of deleted records.  A file without admission_key raises
    KeyError, is reported and stays as it is. *)
Definition exclude_from_file (excluded_patients : list cell) (df : DataFrame)
  : DataFrame * nat :=
  if has_column df "admission_key" then
    let df_filtered :=
      select (fun r => negb (isin excluded_patients (get r "admission_key"))) df in
    (df_filtered, (len df - len df_filtered)%nat)
  else (df, 0%nat).

Fixpoint exclude_patients_from_all_files (files : Files) (excluded_patients : list cell)
  : Files * nat :=
  match files with
  | [] => ([], 0%nat)
  | (name, df) :: rest =>
      let (df', deleted) := exclude_from_file excluded_patients df in
      let (rest', total_deleted) := exclude_patients_from_all_files rest excluded_patients in
      ((name, df') :: rest', (deleted + total_deleted)%nat)
  end.

End Step2.

(** ** The merge of a feature table into its source table *)

Module Merge.

Import Frame.
Local Open Scope string_scope.
Local Open Scope list_scope.

Section AddColumns.
(** Python's [int(text)], [None] when it raises. *)
Variable py_int : string -> option Z.

(** [astype(int)] on one cell; a missing value cannot be converted. *)
Definition astype_int (c : cell) : option cell :=
  match c with
  | NaN => None
  | Int n => Some (Int n)
  | Flt x => Some (Int (Z.quot (Qnum x) (Zpos (Qden x))))
  | Str s => option_map Int (py_int s)
  end.

(** [df[col] = df[col].fillna(0).astype(int)] *)
Definition fill_int (col : string) (df : DataFrame) : option DataFrame :=
  option_map (fun vs => assign_values col vs df)
             (map_opt (fun c => astype_int (fillna (Int 0) c)) (column df col)).

Fixpoint fill_int_all (cols : list string) (df : DataFrame) : option DataFrame :=
  match cols with
  | [] => Some df
  | c :: cs =>
      if has_column df c then
        match fill_int c df with
        | Some df' => fill_int_all cs df'
        | None => None
        end
      else fill_int_all cs df
  end.

(** The common body of [add_features_to_original] (步骤3) and
    [add_comorbidities_to_original] (步骤4): drop the feature columns the
    file already has, left-join the feature table on admission_key, fill
    the missing values with 0. *)
Definition add_columns (df_original features_df : DataFrame) : option DataFrame :=
  let feature_cols :=
    filter (fun c => negb (String.eqb c "admission_key")) (columns features_df) in
  let existing_cols := filter (has_column df_original) feature_cols in
  let df_original :=
    match existing_cols with
    | [] => df_original
    | _ => drop_columns existing_cols df_original
    end in
  match merge_left df_original features_df "admission_key" with
  | Some df_merged => fill_int_all feature_cols df_merged
  | None => None
  end.
End AddColumns.

End Merge.

(** ** 步骤4: comorbidity flags *)

Module Step4.

Import Frame.
Local Open Scope string_scope.
Local Open Scope list_scope.

Inductive Logic : Type := AND | OR.

Record Comorbidity : Type := mkComorbidity {
  var_code : string;
  name : string;
  full_name : string;
  logic : Logic;
  keywords : list string
}.

Definition COMORBIDITIES : list Comorbidity :=
  [ mkComorbidity "DPVD" "糖尿病周围血管病变" "Diabetic peripheral vascular disease" AND
      ["糖尿病"; "血管病"];
    mkComorbidity "DPN" "糖尿病周围神经病变" "Diabetic peripheral neuropathy" AND
      ["糖尿病"; "神经病"];
    mkComorbidity "DF" "糖尿病足" "Diabetic foot" AND ["糖尿病"; "足"];
    mkComorbidity "DN" "糖尿病肾病" "Diabetic nephropathy" AND ["糖尿病"; "肾病"];
    mkComorbidity "DR" "糖尿病视网膜病变" "Diabetic retinopathy" AND ["糖尿病"; "视网膜"];
    mkComorbidity "HTN" "高血压" "Hypertension" OR ["高血压"];
    mkComorbidity "HL" "高脂血症" "Hyperlipidemia" OR
      ["高脂血症"; "高胆固醇"; "甘油三酯"; "血脂异常"];
    mkComorbidity "CAD" "冠状动脉粥样硬化性心脏病" "Coronary artery disease" OR
      ["冠状动脉"; "冠心病"; "心肌梗死"; "心绞痛"];
    mkComorbidity "Malignant_tumor" "恶性肿瘤" "Malignant tumor" OR
      ["恶性肿瘤"; "癌"; "肉瘤"; "白血病"; "淋巴瘤"];
    mkComorbidity "CRF" "慢性肾衰竭" "Chronic Renal Failure" OR
      ["慢性肾衰"; "尿毒症"; "慢性肾脏病4期"; "慢性肾脏病5期"; "慢性肾脏病 4期";
       "慢性肾脏病 5期"];
    mkComorbidity "RRT" "肾脏替代治疗" "Renal replacement therapy" OR ["透析"; "肾移植"];
    mkComorbidity "T1DM" "1型糖尿病" "Type 1 Diabetes Mellitus" OR
      ["1型糖尿病"; "I型糖尿病"];
    mkComorbidity "CVA" "脑血管意外" "Cerebrovascular accident" OR
      ["脑卒中"; "脑血管意外"; "脑梗"; "脑出血"; "蛛网膜下腔出血"; "脑缺血"] ].

Section Extraction.
Variable float_str : Q -> string.
Variable py_int : string -> option Z.

(** [df['disease_name'] = df['disease_name'].astype(str).str.strip()] *)
Definition clean_disease_name (df : DataFrame) : DataFrame :=
  assign "disease_name"
    (fun r => Str (Text.strip (astype_str float_str (get r "disease_name")))) df.

(** The text the keywords are searched in. *)
Definition disease_text (r : Row) : string :=
  match get r "disease_name" with
  | Str s => s
  | _ => ""
  end.

(** The mask of one rule on one diagnosis record, built keyword by
    keyword as in the two loops. *)
Definition rule_mask (info : Comorbidity) (text : string) : bool :=
  match logic info with
  | AND => fold_left (fun mask keyword => mask && Text.contains_ci keyword text)
                     (keywords info) true
  | OR => fold_left (fun mask keyword => mask || Text.contains_ci keyword text)
                    (keywords info) false
  end.

(** [set(matched['admission_key'].unique())] *)
Definition patients_with_condition (info : Comorbidity) (df : DataFrame) : list cell :=
  map (fun r => get r "admission_key")
      (filter (fun r => rule_mask info (disease_text r)) (rows df)).

(** [comorbidity_results[patient]] with its key: the row of one admission
    in the feature table. *)
Definition feature_row (df : DataFrame) (patient : cell) : Row :=
  ("admission_key", patient)
    :: map (fun info => (var_code info, flag (patients_with_condition info df) patient))
           COMORBIDITIES.

(** [extract_comorbidities]: one row per admission_key of the file, one
    0/1 column per rule.  [None]: no feature table (a required column is
    missing, or the file has no record at all). *)
Definition extract_comorbidities (file : DataFrame) : option DataFrame :=
  if negb (has_column file "admission_key") then None
  else if negb (has_column file "disease_name") then None
  else
    let df := clean_disease_name file in
    let all_patients := unique (column df "admission_key") in
    match all_patients with
    | [] => None
    | _ =>
        Some (mkFrame ("admission_key" :: map var_code COMORBIDITIES)
                      (map (feature_row df) all_patients))
    end.

Definition add_comorbidities_to_original (df_original comorbidity_df : DataFrame)
  : option DataFrame :=
  Merge.add_columns py_int df_original comorbidity_df.

(** One run of the script on one cohort: the new content of 诊断.csv, or
    [None] when nothing is written. *)
Definition run (file : DataFrame) : option DataFrame :=
  match extract_comorbidities file with
  | Some comorbidity_df => add_comorbidities_to_original file comorbidity_df
  | None => None
  end.
End Extraction.

End Step4.

(** ** 步骤3: medication classes *)

Module Step3.

Import Frame.
Local Open Scope string_scope.
Local Open Scope list_scope.

Record Medication : Type := mkMedication {
  var_name : string;
  keywords : option (list string);
  special_trade_name : option string;
  description : string;
  full_name : string
}.

Definition ORAL_MEDICATIONS : list Medication :=
  [ mkMedication "Metformin"
      (Some ["二甲双胍"; "吡格列酮二甲双胍"; "沙格列汀二甲双胍"; "西格列汀二甲双胍"])
      None "二甲双胍" "Metformin";
    mkMedication "Sulfonylureas" (Some ["格列吡嗪"; "格列美脲"; "格列齐特"])
      None "磺脲类" "Sulfonylureas";
    mkMedication "Glinides" (Some ["瑞格列奈"]) None "格列奈类" "Glinides";
    mkMedication "TZDs" (Some ["吡格列酮"; "吡格列酮二甲双胍"])
      None "噻唑烷二酮类" "Thiazolidinediones";
    mkMedication "AGIs" (Some ["阿卡波糖"; "伏格列波糖"; "米格列醇"])
      None "α-葡萄糖苷酶抑制剂" "Alpha-Glucosidase Inhibitors";
    mkMedication "DPP4i"
      (Some ["利格列汀"; "沙格列汀"; "沙格列汀二甲双胍"; "维格列汀"; "西格列汀";
             "西格列汀二甲双胍"])
      None "二肽基肽酶-4抑制剂" "Dipeptidyl Peptidase-4 Inhibitors";
    mkMedication "SGLT2i" (Some ["达格列净"; "卡格列净"; "恩格列净"])
      (Some "艾托格列净(捷诺妥)") "钠-葡萄糖协同转运蛋白2抑制剂"
      "Sodium-Glucose Cotransporter 2 Inhibitors" ].

Definition Rapid_insulin : Medication :=
  mkMedication "Rapid_insulin" (Some ["赖脯胰岛素"; "重组人胰岛素r"; "门冬胰岛素"])
    None "餐时胰岛素" "Rapid-acting insulin".

Definition Basal_insulin : Medication :=
  mkMedication "Basal_insulin"
    (Some ["地特胰岛素"; "德谷胰岛素"; "甘精胰岛素"; "精蛋白重组人胰岛素n"; "重组甘精胰岛素"])
    None "基础胰岛素" "Basal insulin".

Definition Dual_insulin : Medication :=
  mkMedication "Dual_insulin" None (Some "德谷门冬双胰岛素(诺和佳（畅充）)")
    "双胰岛素" "Dual insulin".

Definition Premixed_insulin : Medication :=
  mkMedication "Premixed_insulin"
    (Some ["30/70混合重组人胰岛素"; "精蛋白生物合成人胰岛素30r"; "精蛋白重组人胰岛素(50/50)";
           "精蛋白锌重组人胰岛素70/30"; "精蛋白锌重组赖脯胰岛素25r";
           "精蛋白锌重组赖脯胰岛素50r"; "门冬胰岛素30"])
    None "预混胰岛素" "Premixed insulin".

Definition INSULIN_MEDICATIONS : list Medication :=
  [Rapid_insulin; Basal_insulin; Dual_insulin; Premixed_insulin].

Definition INSULIN_INJECTION_SUBCUTANEOUS : list string :=
  ["皮下注射"; "皮内注射"; "肌肉注射"].

Definition trade_name_col : string := "trade_name".
Definition common_name_col : string := "common_name".
Definition inn_name_col : string := "inn_name".
Definition admin_method_col : string := "drug_administration_method".

Definition premix_exclusion : list string := ["25r"; "50r"; "30"; "70/30"; "(50/50)"].

Definition keywords_of (info : Medication) : list string :=
  match keywords info with Some ks => ks | None => [] end.

Section Extraction.
(** Python's text of a float, [int(text)], and
    [re.search(pattern, text, re.IGNORECASE)] as
    [Series.str.contains(pattern, case=False, na=False)] applies it to a
    text value (several keywords of the tables carry parentheses, which
    are regex syntax). *)
Variable float_str : Q -> string.
Variable py_int : string -> option Z.
Variable re_search : string -> string -> bool.

(** The text of a cell of one of the four name columns (they hold text
    after the cleaning loop) under [.astype(str)] / [.str]. *)
Definition text (r : Row) (col : string) : string := astype_str float_str (get r col).

(** [df[col] = df[col].astype(str).str.strip()] for the columns present. *)
Definition clean_names (df : DataFrame) : DataFrame :=
  fold_left (fun df col =>
    if has_column df col
    then assign col (fun r => Str (Text.strip (astype_str float_str (get r col)))) df
    else df)
    [trade_name_col; common_name_col; inn_name_col; admin_method_col] df.

(** [df[df['order_status'] != '已撤销']], or the whole frame when there
    is no order_status column. *)
Definition valid_orders (df : DataFrame) : DataFrame :=
  if has_column df "order_status"
  then select (fun r => negb (cell_eqb (get r "order_status") (Str "已撤销"))) df
  else df.

(** [set(df_valid[mask]['admission_key'].unique())] *)
Definition keys_where (mask : Row -> bool) (df_valid : DataFrame) : list cell :=
  map (fun r => get r "admission_key") (filter mask (rows df_valid)).

(** The loop over the keywords of a class, searched in inn_name. *)
Definition keyword_patients (info : Medication) (df_valid : DataFrame) : list cell :=
  flat_map (fun keyword =>
    if has_column df_valid inn_name_col
    then keys_where (fun r => re_search keyword (text r inn_name_col)) df_valid
    else []) (keywords_of info).

(** The special rule of SGLT2i: 艾托格列净 in trade_name or common_name. *)
Definition special_matched_set (df_valid : DataFrame) : list cell :=
  (if has_column df_valid trade_name_col
   then keys_where (fun r => re_search "艾托格列净" (text r trade_name_col)) df_valid
   else [])
  ++ (if has_column df_valid common_name_col
      then keys_where (fun r => re_search "艾托格列净" (text r common_name_col)) df_valid
      else []).

(** The report of the special rule reads all four name columns; it runs
    only when the rule matched somebody. *)
Definition special_report_ok (df_valid : DataFrame) : bool :=
  match special_matched_set df_valid with
  | [] => true
  | _ => has_column df_valid trade_name_col && has_column df_valid common_name_col
         && has_column df_valid inn_name_col && has_column df_valid admin_method_col
  end.

Definition is_sglt2i (info : Medication) : bool :=
  String.eqb (var_name info) "SGLT2i"
  && match special_trade_name info with Some _ => true | None => false end.

Definition oral_patients (info : Medication) (df_valid : DataFrame) : list cell :=
  keyword_patients info df_valid
  ++ (if is_sglt2i info then special_matched_set df_valid else []).

(** 3.1: the keywords of the rapid-acting class without the premixed
    markers, and plain insulin injected under the skin or into muscle. *)
Definition rapid_patients (df_valid : DataFrame) : list cell :=
  flat_map (fun keyword =>
    if has_column df_valid inn_name_col
    then keys_where (fun r =>
           fold_left (fun mask exclusion =>
                        mask && negb (re_search exclusion (text r inn_name_col)))
                     premix_exclusion
                     (re_search keyword (text r inn_name_col))) df_valid
    else []) (keywords_of Rapid_insulin)
  ++ (if has_column df_valid inn_name_col && has_column df_valid common_name_col
         && has_column df_valid admin_method_col
      then keys_where (fun r =>
             cell_eqb (get r inn_name_col) (Str "胰岛素")
             && re_search "胰岛素注射液" (text r common_name_col)
             && existsb (fun m => cell_eqb (get r admin_method_col) (Str m))
                        INSULIN_INJECTION_SUBCUTANEOUS) df_valid
      else []).

(** 3.3: plain insulin whose common name is the dual-insulin product. *)
Definition dual_patients (df_valid : DataFrame) : list cell :=
  if has_column df_valid inn_name_col && has_column df_valid common_name_col
  then keys_where (fun r =>
         cell_eqb (get r inn_name_col) (Str "胰岛素")
         && match special_trade_name Dual_insulin with
            | Some pat => re_search pat (text r common_name_col)
            | None => false
            end) df_valid
  else [].

Definition column_order : list string :=
  "admission_key" :: map var_name ORAL_MEDICATIONS ++ map var_name INSULIN_MEDICATIONS.

(** [features[patient]] with its key: the row of one admission in the
    feature table. *)
Definition feature_row (df_valid : DataFrame) (patient : cell) : Row :=
  ("admission_key", patient)
    :: map (fun info => (var_name info, flag (oral_patients info df_valid) patient))
           ORAL_MEDICATIONS
    ++ [ (var_name Rapid_insulin, flag (rapid_patients df_valid) patient);
         (var_name Basal_insulin, flag (keyword_patients Basal_insulin df_valid) patient);
         (var_name Dual_insulin, flag (dual_patients df_valid) patient);
         (var_name Premixed_insulin,
          flag (keyword_patients Premixed_insulin df_valid) patient) ].

(** [extract_medication_features]: the feature table, one row per
    admission_key of the whole file.  [None]: the function raises (no
    admission_key column, a file without records, or the report of the
    special rule on a file that lacks one of the name columns). *)
Definition extract_medication_features (file : DataFrame) : option DataFrame :=
  if negb (has_column file "admission_key") then None
  else
    let df := clean_names file in
    let df_valid := valid_orders df in
    let patients := unique (column df "admission_key") in
    match patients with
    | [] => None
    | _ =>
        if negb (special_report_ok df_valid) then None
        else
          Some (mkFrame column_order (map (feature_row df_valid) patients))
    end.

Definition add_features_to_original (df_original features_df : DataFrame)
  : option DataFrame :=
  Merge.add_columns py_int df_original features_df.

(** One run of the script on one cohort: the new content of 药品医嘱.csv,
    or [None] when nothing is written. *)
Definition run (file : DataFrame) : option DataFrame :=
  match extract_medication_features file with
  | Some features_df => add_features_to_original file features_df
  | None => None
  end.
End Extraction.

End Step3.

(** ** 步骤6: fasting and nutrition windows *)

Module Step6.

Import Frame Clock.
Local Open Scope string_scope.
Local Open Scope list_scope.

Definition required_cols : list string :=
  ["admission_key"; "order_item_name"; "prescribed_time"; "start_time"; "stop_time"].

Definition nutrition_keywords : list string := ["肠内"; "肠外"; "营养"].

(** ['; '.join(periods)] *)
Fixpoint join (sep : string) (l : list string) : string :=
  match l with
  | [] => ""
  | [s] => s
  | s :: t => (s ++ sep ++ join sep t)%string
  end.

Section Extraction.
(** Python's text of a float and the scalar [pd.to_datetime(value)]:
    [None] when it raises or gives NaT. *)
Variable float_str : Q -> string.
Variable to_datetime : cell -> option Timestamp.

(** [calculate_time_diff_hours]; [None] is the Python None. *)
Definition calculate_time_diff_hours (start_time stop_time : cell) : option Z :=
  if isna start_time || isna stop_time then None
  else
    match to_datetime start_time, to_datetime stop_time with
    | Some start, Some stop =>
        let diff_days := timedelta_days start stop in
        Some (diff_days * 24)%Z
    | _, _ => None
    end.

Definition order_text (r : Row) : string :=
  astype_str float_str (get r "order_item_name").

Definition fasting_mask (r : Row) : bool := Text.contains_ci "禁食" (order_text r).

(** The alternation 肠内|肠外|营养, without the fasting records. *)
Definition nutrition_mask (r : Row) : bool :=
  existsb (fun k => Text.contains_ci k (order_text r)) nutrition_keywords
  && negb (fasting_mask r).

(** [df_fasting[df_fasting['time_diff_hours'] <= 24]]: a record without
    a computable difference does not pass the comparison. *)
Definition duration_ok (r : Row) : bool :=
  match calculate_time_diff_hours (get r "start_time") (get r "stop_time") with
  | Some h => (h <=? 24)%Z
  | None => false
  end.

Definition valid_fasting (df : DataFrame) : list Row :=
  filter duration_ok (filter fasting_mask (rows df)).

(** The window of a fasting record: 08:00 of the day it was prescribed
    to 08:00 of the next day, as text. *)
Definition fasting_period (prescribed : Timestamp) : string :=
  (format_ymd (day_number prescribed) ++ " 08:00 - "
     ++ format_ymd (day_number prescribed + 1) ++ " 08:00")%string.

Definition nutrition_period (r : Row) : string :=
  (astype_str float_str (get r "start_time") ++ " - "
     ++ astype_str float_str (get r "stop_time"))%string.

(** [fasting_by_patient[patient_key]] and
    [nutrition_by_patient[patient_key]]. *)
Definition fasting_by_patient (windows : list (cell * string)) (patient : cell)
  : list string :=
  map snd (filter (fun kp => cell_eqb (fst kp) patient) windows).

Definition nutrition_by_patient (df : DataFrame) (patient : cell) : list string :=
  map nutrition_period
      (filter (fun r => cell_eqb (get r "admission_key") patient)
              (filter nutrition_mask (rows df))).

Definition has_any (periods : list string) : cell :=
  Int (match periods with [] => 0 | _ => 1 end).

(** One element of [results]. *)
Definition result_row (df : DataFrame) (windows : list (cell * string))
           (patient_key : cell) : Row :=
  let fasting_periods := fasting_by_patient windows patient_key in
  let nutrition_periods := nutrition_by_patient df patient_key in
  [ ("admission_key", patient_key);
    ("Fasting", has_any fasting_periods);
    ("Fasting_periods", Str (join "; " fasting_periods));
    ("Nutrition", has_any nutrition_periods);
    ("Nutrition_periods", Str (join "; " nutrition_periods)) ].

(** [extract_fasting_nutrition].  [None]: no result (a required column
    is missing; or the function raises: the prescribed time of a kept
    fasting record cannot be read, or the file has no record). *)
Definition extract_fasting_nutrition (df : DataFrame) : option DataFrame :=
  if negb (forallb (has_column df) required_cols) then None
  else
    match map_opt (fun r =>
            option_map (fun ts => (get r "admission_key", fasting_period ts))
                       (to_datetime (get r "prescribed_time")))
            (valid_fasting df) with
    | None => None
    | Some windows =>
        match unique (column df "admission_key") with
        | [] => None
        | all_patients =>
            Some (mkFrame
              ["admission_key"; "Fasting"; "Fasting_periods"; "Nutrition";
               "Nutrition_periods"]
              (map (result_row df windows) all_patients))
        end
    end.
End Extraction.

End Step6.

(** ** 步骤1: the admission key and the column clean-up *)

Module Columns.

Import Frame.
Local Open Scope string_scope.
Local Open Scope list_scope.

(** [df[cols]] for a list of column names. *)
Definition take_columns (cols : list string) (df : DataFrame) : DataFrame :=
  mkFrame cols (map (fun r => map (fun c => (c, get r c)) cols) (rows df)).

(** The three lines that put admission_key first; [df.columns[0]] is
    read only when the frame has the column. *)
Definition admission_key_first (df : DataFrame) : DataFrame :=
  if has_column df "admission_key"
     && negb (String.eqb (hd "" (columns df)) "admission_key")
  then
    let cols :=
      "admission_key"
        :: filter (fun col => negb (String.eqb col "admission_key")) (columns df) in
    take_columns cols df
  else df.

Section AdmissionKey.
(** Python's text of a float. *)
Variable float_str : Q -> string.

(** [process_admission_key]: the table written back, [None] when the
    function reports 缺少必需列 and writes nothing. *)
Definition process_admission_key (df : DataFrame) : option DataFrame :=
  if negb (has_column df "patient_sn") || negb (has_column df "time_quantum") then None
  else
    let df :=
      assign "admission_key"
        (fun r => Str (astype_str float_str (get r "patient_sn") ++ "_"
                         ++ astype_str float_str (get r "time_quantum"))) df in
    let drop_cols := ["patient_sn"; "time_quantum"; "group_name"] in
    let df := drop_columns (filter (has_column df) drop_cols) df in
    let cols :=
      "admission_key"
        :: filter (fun col => negb (String.eqb col "admission_key")) (columns df) in
    Some (take_columns cols df).
End AdmissionKey.

Definition COLUMNS_TO_DROP : list string :=
  [ "patient_sn"; "分组名称"; "time_quantum"; "时间段"; "group_name";
    "test_gender_time_quantum1"; "test_出生日期_time_quantum1"; "test_death_time_quantum1";
    "test_性别_时间段1"; "test_出生日期_时间段1"; "test_是否死亡_时间段1";
    "低血糖_gender_time_quantum1"; "低血糖_出生日期_time_quantum1";
    "低血糖_death_time_quantum1";
    "低血糖_性别_时间段1"; "低血糖_出生日期_时间段1"; "低血糖_是否死亡_时间段1" ].

(** ['药品医嘱' in file_path.name or '药品' in file_path.name] *)
Definition is_drug_file (name : string) : bool :=
  Text.find "药品医嘱" name || Text.find "药品" name.

(** [df.isna().all()] for one column. *)
Definition all_na (df : DataFrame) (col : string) : bool := forallb isna (column df col).

(** [if cols: df = df.drop(columns=cols)] *)
Definition drop_if_any (cols : list string) (df : DataFrame) : DataFrame :=
  match cols with
  | [] => df
  | _ => drop_columns cols df
  end.

(** [clean_columns]: the table the file holds afterwards, and the
    numbers of the returned tuple: columns before, columns after, columns
    deleted. *)
Definition clean_columns (name : string) (df : DataFrame) : DataFrame * (nat * nat * nat) :=
  let orig_cols := List.length (columns df) in
  if is_drug_file name then
    let df := admission_key_first df in
    (df, (orig_cols, List.length (columns df), 0%nat))
  else
    let cols_to_drop := filter (has_column df) COLUMNS_TO_DROP in
    let df := drop_if_any cols_to_drop df in
    let empty_cols := filter (all_na df) (columns df) in
    let df := drop_if_any empty_cols df in
    let df := admission_key_first df in
    (df, (orig_cols, List.length (columns df),
          (orig_cols - List.length (columns df))%nat)).

End Columns.

(** ** 步骤1: the campus of a department *)

Module Campus.

Import Frame.
Local Open Scope string_scope.
Local Open Scope list_scope.

(** The pattern [[（(]([^)）]+)[)）]]: an opening bracket, a group of one
    or more characters that are not closing brackets, a closing bracket.
    The full-width brackets are three bytes each in UTF-8, and the bytes
    of a character occur in a UTF-8 text only where the character stands,
    so that the brackets are found on the bytes as on the characters. *)
Definition OPENING : list string := ["（"; "("].
Definition CLOSING : list string := [")"; "）"].

(** The number of bytes of the character of [class] that [s] starts
    with, 0 when it starts with none. *)
Definition class_prefix (class : list string) (s : string) : nat :=
  match List.find (fun w => prefix w s) class with
  | Some w => String.length w
  | None => 0
  end.

Fixpoint drop (n : nat) (s : string) : string :=
  match n, s with
  | S k, String _ s' => drop k s'
  | _, _ => s
  end.

(** [[^)）]*] followed by [[)）]] at the start of [s]: the text before
    the first closing bracket. *)
Fixpoint before_closing (s : string) : option string :=
  match s with
  | EmptyString => None
  | String c s' =>
      match class_prefix CLOSING s with
      | O => option_map (String c) (before_closing s')
      | _ => Some EmptyString
      end
  end.

(** The group of a match of the pattern that starts at the start of
    [s]; the group has at least one character. *)
Definition match_at (s : string) : option string :=
  match class_prefix OPENING s with
  | O => None
  | n =>
      match before_closing (drop n s) with
      | Some (String c g) => Some (String c g)
      | _ => None
      end
  end.

(** [re.search(pattern, s).group(1)]: the group of the leftmost match. *)
Fixpoint search (s : string) : option string :=
  match match_at s with
  | Some g => Some g
  | None =>
      match s with
      | EmptyString => None
      | String _ s' => search s'
      end
  end.

Section Extract.
(** Python's text of a float. *)
Variable float_str : Q -> string.

(** [_extract_campus]; [None] is the Python None. *)
Definition _extract_campus (dept_str : cell) : option string :=
  if isna dept_str then None
  else
    let s := Text.remove_char Text.TAB (Text.strip (astype_str float_str dept_str)) in
    option_map Text.strip (search s).

(** Step 1e2 of the main block on 住院.csv: the table the file holds
    afterwards. *)
Definition add_campus (df : DataFrame) : DataFrame :=
  if negb (has_column df "visit_department") then df
  else if has_column df "Campus" then df
  else
    assign "Campus"
      (fun r => match _extract_campus (get r "visit_department") with
                | Some campus => Str campus
                | None => NaN
                end) df.
End Extract.

End Campus.

(** ** 步骤2: who is excluded *)

Module Cohort.

Import Frame Step2.
Local Open Scope string_scope.
Local Open Scope list_scope.

Definition DIAGNOSIS_EXCLUSION : list string := ["妊娠糖尿病"; "死亡"].

Definition DEPARTMENT_EXCLUSION : list string :=
  [ "CCU病房（心血管内科）（外滩）"; "CCU（月湖）";
    "EICU（月湖）"; "EICU（海曙）"; "监护病房（外滩）";
    "重症医学科（外滩）"; "重症医学科（方桥）";
    "重症监护一（月湖）"; "重症监护一（海曙）";
    "重症监护二（月湖）"; "重症监护二（海曙）" ].

(** The files whose department columns are searched, with these columns. *)
Definition files_to_check : list (string * list string) :=
  [ ("非药品医嘱.csv", ["prescribed_department_name"]);
    ("住院.csv", ["visit_department"; "discharge_department"]) ].

(** [group_dir / file_name]: the table of that name, [None] when the
    file does not exist. *)
Fixpoint lookup (file_name : string) (files : Files) : option DataFrame :=
  match files with
  | [] => None
  | (name, df) :: rest => if String.eqb name file_name then Some df else lookup file_name rest
  end.

Section Exclusion.
(** Python's text of a float, and [re.search(pattern, text, re.IGNORECASE)]
    as [Series.str.contains(pattern, case=False, na=False)] applies it to a
    text value. *)
Variable float_str : Q -> string.
Variable re_search : string -> string -> bool.

(** [df[col].astype(str).str.contains(keyword, case=False, na=False)] on
    one record. *)
Definition contains (col keyword : string) (r : Row) : bool :=
  re_search keyword (astype_str float_str (get r col)).

(** [set(df[mask]['admission_key'].unique())] for that mask.  A Python
    set is held as the list of its elements; the script uses the sets
    through membership only. *)
Definition matching_patients (df : DataFrame) (col keyword : string) : list cell :=
  map (fun r => get r "admission_key") (filter (contains col keyword) (rows df)).

(** [find_excluded_patients]; [None] is the KeyError of a diagnosis table
    without admission_key. *)
Definition find_excluded_patients (df : DataFrame) : option (list cell) :=
  if has_column df "admission_key" then
    Some (flat_map (fun keyword =>
            if has_column df "disease_name"
            then matching_patients df "disease_name" keyword
            else [])
          DIAGNOSIS_EXCLUSION)
  else None.

(** The body of the loop of [find_icu_patients] for one file that
    exists.  Without a department column the file is passed over; with
    one, the admission_key column is read (KeyError when it is missing). *)
Definition file_icu_patients (df : DataFrame) (dept_column_names : list string)
  : option (list cell) :=
  match filter (has_column df) dept_column_names with
  | [] => Some []
  | existing_dept_cols =>
      if has_column df "admission_key" then
        Some (flat_map (fun dept_col =>
                flat_map (fun excluded_dept => matching_patients df dept_col excluded_dept)
                         DEPARTMENT_EXCLUSION)
              existing_dept_cols)
      else None
  end.

Fixpoint icu_patients_of (files : Files) (checks : list (string * list string))
  : option (list cell) :=
  match checks with
  | [] => Some []
  | (file_name, dept_column_names) :: rest =>
      match lookup file_name files with
      | None => icu_patients_of files rest
      | Some df =>
          match file_icu_patients df dept_column_names with
          | None => None
          | Some file_icu =>
              option_map (fun icu => file_icu ++ icu) (icu_patients_of files rest)
          end
      end
  end.

Definition find_icu_patients (files : Files) : option (list cell) :=
  icu_patients_of files files_to_check.

(** The script on one cohort directory: the tables it leaves.  Without
    诊断.csv nothing is done; [None] when the script raises. *)
Definition cohort_filter (files : Files) : option Files :=
  match lookup "诊断.csv" files with
  | None => Some files
  | Some diagnosis =>
      match find_excluded_patients diagnosis with
      | None => None
      | Some excluded_diagnosis =>
          match find_icu_patients files with
          | None => None
          | Some excluded_icu =>
              let all_excluded := excluded_diagnosis ++ excluded_icu in
              Some (fst (exclude_patients_from_all_files files all_excluded))
          end
      end
  end.
End Exclusion.

End Cohort.

(** * Properties *)

(** ** Text *)

Module TextFacts.

Import Text.
Local Open Scope string_scope.

Lemma prefix_append (p s : string) : prefix p s = true <-> exists post, s = p ++ post.
Proof.
  revert s. induction p as [|c p IH]; intros s.
  - split; [intros _; now exists s | intros _; destruct s; reflexivity].
  - destruct s as [|d s]; simpl.
    + split; [discriminate | intros [post H]; discriminate].
    + destruct (Ascii.ascii_dec c d) as [-> | Hne].
      * rewrite IH. split; intros [post H]; exists post; [now rewrite H | now injection H].
      * split; [discriminate | intros [post H]; injection H; congruence].
Qed.

Lemma find_nil (pat : string) : find pat "" = prefix pat "" || false.
Proof. reflexivity. Qed.

Lemma find_cons (pat : string) (c : ascii) (s : string) :
  find pat (String c s) = prefix pat (String c s) || find pat s.
Proof. reflexivity. Qed.

(** The search finds exactly the occurrences. *)
Lemma find_occurs (pat s : string) : find pat s = true <-> occurs pat s.
Proof.
  unfold occurs. split.
  - induction s as [|c s IH].
    + rewrite find_nil, orb_true_iff. intros [H | H]; [|discriminate].
      apply prefix_append in H. destruct H as [post H]. now exists "", post.
    + rewrite find_cons, orb_true_iff. intros [H | H].
      * apply prefix_append in H. destruct H as [post H]. now exists "", post.
      * destruct (IH H) as [pre [post Hs]]. exists (String c pre), post. simpl. now rewrite Hs.
  - intros [pre [post H]]. revert s H. induction pre as [|c pre IH]; intros s H.
    + simpl in H. assert (Hp : prefix pat s = true) by (apply prefix_append; now exists post).
      destruct s; [rewrite find_nil | rewrite find_cons]; rewrite Hp; reflexivity.
    + simpl in H. subst s. rewrite find_cons, (IH _ eq_refl). apply orb_true_r.
Qed.

Lemma contains_ci_occurs (pat s : string) : contains_ci pat s = true <-> occurs_ci pat s.
Proof. apply find_occurs. Qed.

End TextFacts.

(** ** Frames *)

Module FrameFacts.

Import Frame.
Local Open Scope list_scope.

Lemma mem_In (c : string) (l : list string) : mem c l = true <-> In c l.
Proof.
  unfold mem. rewrite existsb_exists. split.
  - intros [x [Hx He]]. apply String.eqb_eq in He. now subst.
  - intros H. exists c. split; [exact H | apply String.eqb_refl].
Qed.

Lemma mem_false (c : string) (l : list string) : mem c l = false <-> ~ In c l.
Proof.
  rewrite <- mem_In. destruct (mem c l); split; congruence.
Qed.

(** Reading a cell of a row put together from two parts. *)
Lemma get_app (a b : Row) (c : string) :
  get (a ++ b) c = if mem c (map fst a) then get a c else get b c.
Proof.
  induction a as [|[n v] a IH]; simpl; [reflexivity|].
  rewrite (String.eqb_sym n c). destruct (String.eqb c n); simpl; [reflexivity | exact IH].
Qed.

Lemma get_absent (r : Row) (c : string) : ~ In c (map fst r) -> get r c = NaN.
Proof.
  induction r as [|[n v] r IH]; simpl; intros H; [reflexivity|].
  destruct (String.eqb n c) eqn:E.
  - apply String.eqb_eq in E. exfalso. apply H. now left.
  - apply IH. intros Hin. apply H. now right.
Qed.

(** Dropping cells by name does not change the cells that stay. *)
Lemma get_filter_keep (p : string -> bool) (r : Row) (c : string) :
  p c = true -> get (filter (fun cv : string * cell => p (fst cv)) r) c = get r c.
Proof.
  intros Hp. induction r as [|[n v] r IH]; simpl; [reflexivity|].
  destruct (String.eqb n c) eqn:E.
  - apply String.eqb_eq in E. subst n. rewrite Hp. simpl. now rewrite String.eqb_refl.
  - destruct (p n); simpl; [rewrite E|]; exact IH.
Qed.

Lemma filter_names (p : string -> bool) (r : Row) :
  map fst (filter (fun cv : string * cell => p (fst cv)) r) = filter p (map fst r).
Proof.
  induction r as [|[n v] r IH]; simpl; [reflexivity|].
  destruct (p n); simpl; now rewrite IH.
Qed.

Lemma get_set_same (r : Row) (c : string) (v : cell) : get (set r c v) c = v.
Proof.
  induction r as [|[n w] r IH]; simpl.
  - now rewrite String.eqb_refl.
  - destruct (String.eqb n c) eqn:E; simpl; rewrite E; [reflexivity | exact IH].
Qed.

Lemma get_set_other (r : Row) (c c' : string) (v : cell) :
  c' <> c -> get (set r c v) c' = get r c'.
Proof.
  intros Hne. induction r as [|[n w] r IH]; simpl.
  - destruct (String.eqb c c') eqn:E; [|reflexivity].
    apply String.eqb_eq in E. congruence.
  - destruct (String.eqb n c) eqn:E; simpl.
    + apply String.eqb_eq in E. subst n.
      destruct (String.eqb c c') eqn:E'; [|reflexivity].
      apply String.eqb_eq in E'. congruence.
    + destruct (String.eqb n c'); [reflexivity | exact IH].
Qed.

Lemma set_names_present (r : Row) (c : string) (v : cell) :
  In c (map fst r) -> map fst (set r c v) = map fst r.
Proof.
  induction r as [|[n w] r IH]; simpl; intros H; [destruct H|].
  destruct (String.eqb n c) eqn:E; simpl; [reflexivity|].
  f_equal. apply IH. destruct H as [H | H]; [|exact H].
  apply String.eqb_neq in E. congruence.
Qed.

Lemma set_absent (r : Row) (c : string) (v : cell) :
  ~ In c (map fst r) -> set r c v = r ++ [(c, v)].
Proof.
  induction r as [|[n w] r IH]; simpl; intros H; [reflexivity|].
  destruct (String.eqb n c) eqn:E.
  - apply String.eqb_eq in E. exfalso. apply H. now left.
  - f_equal. apply IH. intros Hin. apply H. now right.
Qed.

(** Renaming a column moves its cells to the new name. *)
Lemma get_rename_other (old new : string) (r : Row) (c : string) :
  c <> old -> c <> new ->
  get (map (fun cv : string * cell =>
              (if String.eqb (fst cv) old then new else fst cv, snd cv)) r) c
  = get r c.
Proof.
  intros Ho Hn. induction r as [|[n v] r IH]; simpl; [reflexivity|].
  destruct (String.eqb n old) eqn:E.
  - apply String.eqb_eq in E. subst n.
    destruct (String.eqb new c) eqn:E1; [apply String.eqb_eq in E1; congruence|].
    destruct (String.eqb old c) eqn:E2; [apply String.eqb_eq in E2; congruence|].
    exact IH.
  - destruct (String.eqb n c); [reflexivity | exact IH].
Qed.

Lemma get_rename_new (old new : string) (r : Row) :
  ~ In new (map fst r) ->
  get (map (fun cv : string * cell =>
              (if String.eqb (fst cv) old then new else fst cv, snd cv)) r) new
  = get r old.
Proof.
  induction r as [|[n v] r IH]; simpl; intros H; [reflexivity|].
  destruct (String.eqb n old) eqn:E.
  - now rewrite String.eqb_refl.
  - destruct (String.eqb n new) eqn:E1.
    + apply String.eqb_eq in E1. exfalso. apply H. now left.
    + apply IH. intros Hin. apply H. now right.
Qed.

Lemma get_rename_old (old new : string) (r : Row) :
  old <> new ->
  get (map (fun cv : string * cell =>
              (if String.eqb (fst cv) old then new else fst cv, snd cv)) r) old
  = NaN.
Proof.
  intros Hne. apply get_absent. rewrite map_map. simpl.
  intros Hin. apply in_map_iff in Hin. destruct Hin as [[n v] [Hn _]]. simpl in Hn.
  destruct (String.eqb n old) eqn:E; [congruence|].
  apply String.eqb_neq in E. congruence.
Qed.

(** [cell_eqb] is an equivalence. *)
Lemma cell_eqb_refl (a : cell) : cell_eqb a a = true.
Proof.
  destruct a; simpl; auto using String.eqb_refl, Z.eqb_refl.
  apply Qeq_bool_iff. reflexivity.
Qed.

Lemma cell_eqb_sym (a b : cell) : cell_eqb a b = cell_eqb b a.
Proof.
  destruct a, b; simpl; auto using String.eqb_sym, Z.eqb_sym;
    match goal with
    | |- Qeq_bool ?x ?y = Qeq_bool ?y ?x =>
        destruct (Qeq_bool x y) eqn:E1, (Qeq_bool y x) eqn:E2; try reflexivity;
        [ apply Qeq_bool_iff in E1; symmetry in E1; apply Qeq_bool_iff in E1; congruence
        | apply Qeq_bool_iff in E2; symmetry in E2; apply Qeq_bool_iff in E2; congruence ]
    end.
Qed.

(** The number a numeric cell stands for. *)
Definition number (a : cell) : option Q :=
  match a with
  | Int n => Some (inject_Z n)
  | Flt x => Some x
  | _ => None
  end.

Lemma cell_eqb_number (a b : cell) (x y : Q) :
  number a = Some x -> number b = Some y -> cell_eqb a b = Qeq_bool x y.
Proof.
  destruct a, b; simpl; try discriminate; intros [= <-] [= <-]; try reflexivity.
  destruct (Z.eqb n n0) eqn:E.
  - apply Z.eqb_eq in E. subst. symmetry. apply Qeq_bool_iff. reflexivity.
  - symmetry. destruct (Qeq_bool (inject_Z n) (inject_Z n0)) eqn:E'; [|reflexivity].
    apply Qeq_bool_iff in E'. unfold Qeq in E'. simpl in E'.
    apply Z.eqb_neq in E. lia.
Qed.

Lemma cell_eqb_trans (a b c : cell) :
  cell_eqb a b = true -> cell_eqb b c = true -> cell_eqb a c = true.
Proof.
  destruct (number a) as [x|] eqn:Ha, (number b) as [y|] eqn:Hb, (number c) as [z|] eqn:Hc.
  - rewrite (cell_eqb_number a b x y Ha Hb), (cell_eqb_number b c y z Hb Hc),
      (cell_eqb_number a c x z Ha Hc), !Qeq_bool_iff.
    apply Qeq_trans.
  - destruct a, b, c; simpl in *; try discriminate; intros; discriminate.
  - destruct a, b, c; simpl in *; try discriminate; intros; discriminate.
  - destruct a, b, c; simpl in *; try discriminate; intros; discriminate.
  - destruct a, b, c; simpl in *; try discriminate; intros; discriminate.
  - destruct a, b, c; simpl in *; try discriminate; intros; discriminate.
  - destruct a, b, c; simpl in *; try discriminate; intros; discriminate.
  - destruct a, b, c; simpl in *; try discriminate; try (intros; discriminate);
      try (intros; reflexivity).
    rewrite !String.eqb_eq. congruence.
Qed.

(** The elements [unique] lists are new with respect to [seen]. *)
Lemma unique_aux_fresh (l : list cell) :
  forall seen q, In q (unique_aux seen l) ->
                 forall s, In s seen -> cell_eqb q s = false.
Proof.
  induction l as [|x l IH]; intros seen q Hq s Hs; [destruct Hq|].
  simpl in Hq. destruct (existsb (cell_eqb x) seen) eqn:E.
  - now apply (IH seen).
  - destruct Hq as [<- | Hq].
    + destruct (cell_eqb x s) eqn:E'; [|reflexivity].
      assert (existsb (cell_eqb x) seen = true) by (apply existsb_exists; now exists s).
      congruence.
    + apply (IH (x :: seen) q Hq). now right.
Qed.

(** Every value of the list has exactly one representative in [unique]. *)
Lemma unique_aux_match (l : list cell) :
  forall seen v,
    In v l -> (forall s, In s seen -> cell_eqb s v = false) ->
    exists p, filter (fun q => cell_eqb q v) (unique_aux seen l) = [p].
Proof.
  induction l as [|x l IH]; intros seen v Hv Hseen; [destruct Hv|].
  simpl. destruct (existsb (cell_eqb x) seen) eqn:E.
  - apply (IH seen); [|exact Hseen].
    destruct Hv as [-> | Hv]; [|exact Hv].
    apply existsb_exists in E. destruct E as [s [Hs He]].
    rewrite cell_eqb_sym, (Hseen s Hs) in He. discriminate.
  - simpl. destruct (cell_eqb x v) eqn:Exv.
    + exists x. f_equal.
      assert (Hnone : forall q, In q (unique_aux (x :: seen) l) -> cell_eqb q v = false).
      { intros q Hq. destruct (cell_eqb q v) eqn:Eqv; [|reflexivity].
        pose proof (unique_aux_fresh l (x :: seen) q Hq x (or_introl eq_refl)) as Hqx.
        rewrite (cell_eqb_trans q v x Eqv) in Hqx; [discriminate|].
        now rewrite cell_eqb_sym. }
      induction (unique_aux (x :: seen) l) as [|q qs IHq]; [reflexivity|].
      simpl. rewrite (Hnone q (or_introl eq_refl)). apply IHq.
      intros q' Hq'. apply Hnone. now right.
    + apply (IH (x :: seen)).
      * destruct Hv as [-> | Hv]; [|exact Hv]. rewrite cell_eqb_refl in Exv. discriminate.
      * intros s [<- | Hs]; [exact Exv | now apply Hseen].
Qed.

Lemma unique_match (l : list cell) (v : cell) :
  In v l -> exists p, filter (fun q => cell_eqb q v) (unique l) = [p].
Proof.
  intros Hv. apply unique_aux_match; [exact Hv | intros s []].
Qed.

Lemma unique_aux_incl (l : list cell) :
  forall seen q, In q (unique_aux seen l) -> In q l.
Proof.
  induction l as [|x l IH]; intros seen q Hq; [destruct Hq|].
  simpl in Hq. destruct (existsb (cell_eqb x) seen).
  - right. now apply (IH seen).
  - destruct Hq as [<- | Hq]; [now left | right; now apply (IH (x :: seen))].
Qed.

Lemma unique_nonempty (l : list cell) : l <> [] -> unique l <> [].
Proof.
  destruct l as [|x l]; [congruence|]. intros _. unfold unique. simpl. discriminate.
Qed.

(** Writing a cell back to where it was read leaves the row as it is. *)
Lemma set_get_same (r : Row) (c : string) :
  In c (map fst r) -> set r c (get r c) = r.
Proof.
  induction r as [|[n v] r IH]; simpl; intros H; [destruct H|].
  destruct (String.eqb n c) eqn:E; [reflexivity|].
  f_equal. apply IH. destruct H as [H | H]; [|exact H].
  apply String.eqb_neq in E. congruence.
Qed.

Lemma combine_map_self {A B C : Type} (f : A -> B) (g : A * B -> C) (l : list A) :
  map g (combine l (map f l)) = map (fun x => g (x, f x)) l.
Proof.
  induction l as [|x l IH]; simpl; [reflexivity | now rewrite IH].
Qed.

Lemma map_opt_some {A B : Type} (f : A -> option B) (g : A -> B) (l : list A) :
  (forall x, In x l -> f x = Some (g x)) -> map_opt f l = Some (map g l).
Proof.
  induction l as [|x l IH]; intros H; simpl; [reflexivity|].
  rewrite (H x (or_introl eq_refl)), IH; [reflexivity|].
  intros y Hy. apply H. now right.
Qed.

Lemma map_id_in {A : Type} (f : A -> A) (l : list A) :
  (forall x, In x l -> f x = x) -> map f l = l.
Proof.
  induction l as [|x l IH]; intros H; simpl; [reflexivity|].
  rewrite (H x (or_introl eq_refl)), IH; [reflexivity|].
  intros y Hy. apply H. now right.
Qed.

Lemma filter_all {A : Type} (p : A -> bool) (l : list A) :
  (forall x, In x l -> p x = true) -> filter p l = l.
Proof.
  induction l as [|x l IH]; intros H; simpl; [reflexivity|].
  rewrite (H x (or_introl eq_refl)), IH; [reflexivity|].
  intros y Hy. apply H. now right.
Qed.

Lemma filter_none {A : Type} (p : A -> bool) (l : list A) :
  (forall x, In x l -> p x = false) -> filter p l = [].
Proof.
  induction l as [|x l IH]; intros H; simpl; [reflexivity|].
  rewrite (H x (or_introl eq_refl)), IH; [reflexivity|].
  intros y Hy. apply H. now right.
Qed.

End FrameFacts.

(** ** float64 arithmetic *)

Module Float64Facts.
Import Floats Float64.
Local Open Scope float_scope.
Set Warnings "-inexact-float".

Lemma is_nan_spec (x : float) : is_nan x = true <-> Prim2SF x = S754_nan.
Proof.
  unfold is_nan. rewrite eqb_spec. destruct (Prim2SF x) as [s| s | | s m e] eqn:E; simpl.
  - split; discriminate.
  - destruct s; split; discriminate.
  - split; reflexivity.
  - unfold SFeqb, SFcompare. rewrite Z.compare_refl.
    rewrite Pos.compare_cont_refl. destruct s; simpl; split; discriminate.
Qed.

Lemma nan_div (x y : float) : is_nan x = true -> is_nan (x / y) = true.
Proof.
  rewrite !is_nan_spec, div_spec. intros ->. reflexivity.
Qed.

Lemma nan_mul (x y : float) : is_nan x = true -> is_nan (x * y) = true.
Proof.
  rewrite !is_nan_spec, mul_spec. intros ->. reflexivity.
Qed.

Lemma nan_rint (x : float) : is_nan x = true -> rint x = x.
Proof.
  intros H. apply is_nan_spec in H. unfold rint.
  rewrite ltb_spec, abs_spec, H. reflexivity.
Qed.

Lemma nan_round2 (x : float) : is_nan x = true -> is_nan (round2 x) = true.
Proof.
  intros H. unfold round2. apply nan_div.
  rewrite nan_rint; now apply nan_mul.
Qed.

Lemma welford_count (xs : list float) (st : float * float * nat) :
  snd (fold_left welford_step xs st) = (List.length xs + snd st)%nat.
Proof.
  revert st. induction xs as [|x xs IH]; intros [[m o] n]; [reflexivity|].
  simpl fold_left. rewrite IH. simpl. lia.
Qed.

Lemma group_std_single (x : float) : group_std [x] = nan.
Proof. reflexivity. Qed.

Lemma group_std_two (xs : list float) :
  (2 <= List.length xs)%nat ->
  group_std xs
  = sqrt (snd (fst (fold_left welford_step xs (0, 0, 0%nat)))
          / of_count (List.length xs - 1)).
Proof.
  intros Hn. unfold group_std.
  pose proof (welford_count xs (0, 0, 0%nat)) as Hc.
  destruct (fold_left welford_step xs (0, 0, 0%nat)) as [[m o] ct].
  simpl in Hc. subst ct. rewrite Nat.add_0_r. unfold ddof.
  destruct (List.length xs <=? 1)%nat eqn:E; [apply Nat.leb_le in E; lia|].
  reflexivity.
Qed.

Lemma round_not_negative (m e : Z) (l : location) :
  SFltb (binary_round_aux prec emax false m e l) (S754_zero false) = false.
Proof.
  unfold binary_round_aux.
  destruct (shr_fexp prec emax m e l) as [mrs e1].
  destruct (shr_fexp prec emax _ e1 loc_Exact) as [mrs2 e2].
  destruct (shr_m mrs2); [reflexivity | | reflexivity].
  destruct (e2 <=? emax - prec)%Z; reflexivity.
Qed.

Lemma sqrt_not_negative (x : float) : (sqrt x <? 0) = false.
Proof.
  rewrite ltb_spec, sqrt_spec.
  change (Prim2SF 0) with (S754_zero false).
  destruct (Prim2SF x) as [s | s | | s m e]; simpl.
  - destruct s; reflexivity.
  - destruct s; reflexivity.
  - reflexivity.
  - destruct s; [reflexivity|].
    destruct (SFsqrt_core_binary prec emax (Z.pos m) e) as [[mz ez] lz].
    apply round_not_negative.
Qed.

(** Ties go to the even integer, and [round2] rounds the product by 100,
    which is itself a rounded float64 product. *)
Lemma rint_ties :
  (rint 0.5, rint 1.5, rint 2.5, rint (-2.5), rint (-0.3), rint (-0))
  = (0, 2, 2, -2, -0, -0).
Proof. vm_compute. reflexivity. Qed.

Lemma round2_ties :
  (round2 0.125, round2 0.375, round2 2.675) = (0.12, 0.38, 2.68).
Proof. vm_compute. reflexivity. Qed.

End Float64Facts.


(** ** Daily aggregation and labelling (步骤7) *)

Module Step7Facts.

Import Frame Step7.
Local Open Scope list_scope.

Section SortFacts.
Context {A : Type} (key : A -> GroupKey).

Lemma insert_sorted_perm (x : A) (l : list A) :
  Permutation (insert_sorted key x l) (x :: l).
Proof.
  induction l as [|h t IH]; simpl.
  - apply Permutation_refl.
  - destruct (key_leb (key x) (key h)).
    + apply Permutation_refl.
    + eapply Permutation_trans; [apply perm_skip, IH | apply perm_swap].
Qed.

Lemma sort_values_perm (l : list A) : Permutation (sort_values key l) l.
Proof.
  induction l as [|x t IH]; simpl.
  - constructor.
  - eapply Permutation_trans; [apply insert_sorted_perm | now apply perm_skip].
Qed.

Lemma sort_values_in (l : list A) (x : A) : In x (sort_values key l) <-> In x l.
Proof.
  split; apply Permutation_in;
    [apply sort_values_perm | apply Permutation_sym, sort_values_perm].
Qed.
End SortFacts.

Lemma key_eqb_eq (a b : GroupKey) : key_eqb a b = true <-> a = b.
Proof.
  destruct a as [s d], b as [s' d']; unfold key_eqb; simpl.
  rewrite andb_true_iff, String.eqb_eq, Z.eqb_eq.
  split; [intros [-> ->]; reflexivity | intros [= -> ->]; auto].
Qed.

(** What the three branches of [classify_outcome] say about a next day. *)
Definition expected_label (next : DailyGlucose) (o : Z) : Prop :=
  (min_glucose next < 39 # 10 /\ o = HYPOGLYCEMIA)%Q
  \/ (~ min_glucose next < 39 # 10 /\ 139 # 10 < max_glucose next /\ o = HYPERGLYCEMIA)%Q
  \/ (~ min_glucose next < 39 # 10 /\ ~ 139 # 10 < max_glucose next /\ o = NORMAL)%Q.

Lemma Qltb_lt (x y : Q) : Qltb x y = true <-> (x < y)%Q.
Proof.
  unfold Qltb. rewrite negb_true_iff. split.
  - intros H. apply Qnot_le_lt. intros Hle. apply Qle_bool_iff in Hle. congruence.
  - intros H. destruct (Qle_bool y x) eqn:E; [|reflexivity].
    apply Qle_bool_iff in E. exfalso. exact (Qlt_not_le _ _ H E).
Qed.

Lemma Qltb_nlt (x y : Q) : Qltb x y = false <-> ~ (x < y)%Q.
Proof.
  rewrite <- Qltb_lt. destruct (Qltb x y); split; congruence.
Qed.

Lemma classify_outcome_next (r n : DailyGlucose) (o : Z) :
  classify_outcome (mkMerged r (Some (min_glucose n)) (Some (max_glucose n))) = Some o
  <-> expected_label n o.
Proof.
  unfold classify_outcome, expected_label; simpl.
  destruct (Qltb (min_glucose n) (39 # 10)) eqn:Hmin.
  - apply Qltb_lt in Hmin. split.
    + intros [= <-]. left; auto.
    + intros [[_ ->] | [[H _] | [H _]]]; [reflexivity | contradiction | contradiction].
  - apply Qltb_nlt in Hmin.
    destruct (Qltb (139 # 10) (max_glucose n)) eqn:Hmax.
    + apply Qltb_lt in Hmax. split.
      * intros [= <-]. right; left; auto.
      * intros [[H _] | [[_ [_ ->]] | [_ [H _]]]];
          [contradiction | reflexivity | contradiction].
    + apply Qltb_nlt in Hmax. split.
      * intros [= <-]. right; right; auto.
      * intros [[H _] | [[_ [H _]] | [_ [_ ->]]]];
          [contradiction | contradiction | reflexivity].
Qed.

(** The rows of the self-join: a day without a next day keeps empty
    next-day columns, a day with one carries its extremes. *)
Lemma in_merge_next_day (daily : list DailyGlucose) (m : MergedRow) :
  In m (merge_next_day daily) <->
  exists r, In r daily /\
    ((m = mkMerged r None None /\
      forall n, In n daily -> daily_key n <> (admission_key r, next_date r))
     \/ exists n, In n daily /\ daily_key n = (admission_key r, next_date r)
                  /\ m = mkMerged r (Some (min_glucose n)) (Some (max_glucose n))).
Proof.
  unfold merge_next_day. rewrite in_flat_map. split.
  - intros [r [Hr Hm]]. exists r. split; [exact Hr|].
    destruct (filter _ daily) as [|n0 ms] eqn:Hf.
    + left. destruct Hm as [<- | []]. split; [reflexivity|].
      intros n Hn Hk.
      assert (Hin : In n (filter (fun n => key_eqb (daily_key n) (admission_key r, next_date r)) daily))
        by (apply filter_In; split; [exact Hn | now apply key_eqb_eq]).
      rewrite Hf in Hin. exact Hin.
    + right. apply in_map_iff in Hm. destruct Hm as [n [<- Hn]].
      rewrite <- Hf in Hn. apply filter_In in Hn. destruct Hn as [Hn Hk].
      exists n. repeat split; [exact Hn | now apply key_eqb_eq].
  - intros [r [Hr [[-> Hno] | [n [Hn [Hk ->]]]]]]; exists r; (split; [exact Hr|]).
    + destruct (filter _ daily) as [|n0 ms] eqn:Hf; [now left|].
      exfalso. assert (Hin : In n0 (n0 :: ms)) by now left.
      rewrite <- Hf in Hin. apply filter_In in Hin. destruct Hin as [Hin Hk].
      apply key_eqb_eq in Hk. exact (Hno n0 Hin Hk).
    + assert (Hin : In n (filter (fun n => key_eqb (daily_key n) (admission_key r, next_date r)) daily))
        by (apply filter_In; split; [exact Hn | now apply key_eqb_eq]).
      destruct (filter _ daily) as [|n0 ms] eqn:Hf; [destruct Hin|].
      apply in_map_iff. exists n. split; [reflexivity | exact Hin].
Qed.

Lemma in_label_rows (merged : list MergedRow) (r : DailyGlucose) (o : Z) :
  In (mkLabeled r o) (label_rows merged) <->
  exists m, In m merged /\ m_row m = r /\ classify_outcome m = Some o.
Proof.
  unfold label_rows. rewrite in_flat_map. split.
  - intros [m [Hm Hin]]. exists m. split; [exact Hm|].
    destruct (classify_outcome m) as [o'|]; [|destruct Hin].
    destruct Hin as [[= <- <-] | []]. auto.
  - intros [m [Hm [<- Hc]]]. exists m. split; [exact Hm|].
    rewrite Hc. now left.
Qed.

(** The daily table has one row per (admission_key, date). *)
Lemma daily_statistics_keys (ms : list Measurement) :
  NoDup (map daily_key (daily_statistics ms)).
Proof.
  unfold daily_statistics. rewrite map_map.
  rewrite (map_ext _ (fun k => k)) by (intros [k d]; reflexivity).
  rewrite map_id. unfold group_keys.
  apply (Permutation_NoDup (Permutation_sym (sort_values_perm _ _))).
  apply NoDup_nodup.
Qed.

Lemma NoDup_map_inj {A B : Type} (f : A -> B) (l : list A) (x y : A) :
  NoDup (map f l) -> In x l -> In y l -> f x = f y -> x = y.
Proof.
  induction l as [|a l IH]; simpl; intros Hnd Hx Hy Hf; [destruct Hx|].
  inversion Hnd as [|? ? Hna Hnd']; subst.
  destruct Hx as [-> | Hx], Hy as [-> | Hy]; auto.
  - exfalso. apply Hna. rewrite Hf. now apply in_map.
  - exfalso. apply Hna. rewrite <- Hf. now apply in_map.
Qed.

(** The glucose values of the example of section 8, days 2024-03-01 and
    2024-03-02 of admission E1. *)
Definition example_E1 : list Measurement :=
  [ mkMeasurement "E1" (Some (Clock.days_from_civil 2024 3 1)) (Some (5 # 1));
    mkMeasurement "E1" (Some (Clock.days_from_civil 2024 3 1)) (Some (10 # 1));
    mkMeasurement "E1" (Some (Clock.days_from_civil 2024 3 2)) (Some (35 # 10));
    mkMeasurement "E1" (Some (Clock.days_from_civil 2024 3 2)) (Some (14 # 1)) ].

(** C1.  A day [r] of the daily glucose table is in the output of
    [process_glucose_data] with label [o] exactly when the table has a row
    [n] for the same admission_key on the next calendar date and [o] is
    Hypoglycemia if the minimum of [n] is below 3.9, otherwise
    Hyperglycemia if its maximum is above 13.9, otherwise Normal; a day
    without such a next row is therefore not in the output.  The table has
    one row per (admission_key, date), so that the next row, and with it
    the label, is unique.  On the example (2024-03-01: min 5.0, max 10.0;
    2024-03-02: min 3.5, max 14.0) the only output row is 2024-03-01,
    labelled Hypoglycemia. *)
Theorem C1_next_day_outcome :
  (forall (ms : list Measurement) (r : DailyGlucose) (o : Z),
      In (mkLabeled r o) (process_glucose_data ms) <->
      In r (daily_statistics ms) /\
      exists n, In n (daily_statistics ms) /\
                admission_key n = admission_key r /\ date n = (date r + 1)%Z /\
                expected_label n o)
  /\ (forall (ms : list Measurement) (n n' : DailyGlucose),
        In n (daily_statistics ms) -> In n' (daily_statistics ms) ->
        admission_key n = admission_key n' -> date n = date n' -> n = n')
  /\ map (fun l => (admission_key (daily l), Clock.format_ymd (date (daily l)),
                    Qred (min_glucose (daily l)), Qred (max_glucose (daily l)), outcome l))
         (process_glucose_data example_E1)
     = [("E1"%string, "2024-03-01"%string, 5 # 1, 10 # 1, HYPOGLYCEMIA)].
Proof.
  split; [|split; [|vm_compute; reflexivity]].
  2:{ intros ms n n' Hn Hn' Hk Hd.
      apply (NoDup_map_inj daily_key (daily_statistics ms));
        [apply daily_statistics_keys | exact Hn | exact Hn' |].
      unfold daily_key. now rewrite Hk, Hd. }
  intros ms r o. unfold process_glucose_data.
  rewrite in_label_rows. split.
  - intros [m [Hm [Hr Hc]]].
    apply in_merge_next_day in Hm.
    destruct Hm as [r' [Hr' [[-> _] | [n [Hn [Hk ->]]]]]].
    + discriminate Hc.
    + simpl in Hr. subst r'.
      apply sort_values_in in Hr'. apply sort_values_in in Hn.
      split; [exact Hr'|]. exists n. split; [exact Hn|].
      unfold daily_key, next_date in Hk. injection Hk as Hk1 Hk2.
      repeat split; [exact Hk1 | exact Hk2 | now apply (classify_outcome_next r)].
  - intros [Hr [n [Hn [Hk1 [Hk2 Hl]]]]].
    exists (mkMerged r (Some (min_glucose n)) (Some (max_glucose n))).
    split; [|split; [reflexivity | now apply classify_outcome_next]].
    apply in_merge_next_day. exists r.
    split; [now apply sort_values_in|].
    right. exists n. split; [now apply sort_values_in|].
    split; [|reflexivity].
    unfold daily_key, next_date. now rewrite Hk1, Hk2.
Qed.


(** *** Boundary trimming *)

Section TrimFacts.
Context {A : Type} (key : A -> GroupKey).

(** The rows of one admission_key, in table order. *)
Definition rows_of (k : string) (l : list A) : list A :=
  filter (fun x => String.eqb (fst (key x)) k) l.

(** The filter of [trim_boundary] with the running counts made explicit:
    [seen] holds the keys of the rows above, [total] the group sizes. *)
Definition keep_from (seen : list string) (total : string -> nat) (l : list A) : list A :=
  map fst
    (filter (fun p => (1 <? fst (snd p))%nat && (fst (snd p) <? snd (snd p))%nat)
            (combine l (combine (map S (cumcount_from key seen l))
                                (map (fun x => total (fst (key x))) l)))).

Lemma keep_from_cons (seen : list string) (total : string -> nat) (x : A) (l : list A) :
  keep_from seen total (x :: l) =
  (if (1 <? S (count_occ string_dec seen (fst (key x))))%nat
      && (S (count_occ string_dec seen (fst (key x))) <? total (fst (key x)))%nat
   then [x] else [])
  ++ keep_from (fst (key x) :: seen) total l.
Proof.
  unfold keep_from; simpl.
  destruct (_ && _); reflexivity.
Qed.

Lemma removelast_cons (x : A) (l : list A) :
  removelast (x :: l) = match l with [] => [] | _ => x :: removelast l end.
Proof. destruct l; reflexivity. Qed.

Lemma rows_of_cons (k : string) (x : A) (l : list A) :
  rows_of k (x :: l) =
  if String.eqb (fst (key x)) k then x :: rows_of k l else rows_of k l.
Proof. reflexivity. Qed.

Lemma rows_of_app (k : string) (l l' : list A) :
  rows_of k (l ++ l') = rows_of k l ++ rows_of k l'.
Proof. apply filter_app. Qed.

Lemma keep_from_rows (k : string) (total : string -> nat) (l : list A) :
  forall seen,
    total k = (count_occ string_dec seen k + List.length (rows_of k l))%nat ->
    rows_of k (keep_from seen total l) =
    if (count_occ string_dec seen k =? 0)%nat
    then tl (removelast (rows_of k l)) else removelast (rows_of k l).
Proof.
  induction l as [|x t IH]; intros seen Htot.
  - simpl. destruct (_ =? 0)%nat; reflexivity.
  - rewrite keep_from_cons, rows_of_app, rows_of_cons.
    rewrite rows_of_cons in Htot.
    destruct (String.eqb (fst (key x)) k) eqn:Hk.
    + pose proof Hk as Hkb. apply String.eqb_eq in Hk. rewrite Hk.
      rewrite (IH (k :: seen)).
      2:{ simpl in *. destruct (string_dec k k) as [_|Hne]; [lia | congruence]. }
      simpl count_occ. destruct (string_dec k k) as [_|Hne]; [|congruence].
      rewrite Htot, removelast_cons.
      set (c := count_occ string_dec seen k).
      destruct (rows_of k t) as [|y ys] eqn:HX.
      * replace (S c <? c + List.length [x])%nat with false
          by (symmetry; apply Nat.ltb_ge; simpl; lia).
        rewrite andb_false_r. simpl. destruct (c =? 0)%nat; reflexivity.
      * replace (S c <? c + List.length (x :: y :: ys))%nat with true
          by (symmetry; apply Nat.ltb_lt; simpl; lia).
        rewrite andb_true_r.
        destruct c as [|c']; simpl; [reflexivity|].
        rewrite Hkb. reflexivity.
    + assert (Hne : fst (key x) <> k) by (now apply String.eqb_neq).
      assert (Hnil : rows_of k (if (1 <? S (count_occ string_dec seen (fst (key x))))%nat
                            && (S (count_occ string_dec seen (fst (key x)))
                                  <? total (fst (key x)))%nat
                         then [x] else []) = []).
      { destruct (_ && _); [rewrite rows_of_cons, Hk|]; reflexivity. }
      rewrite Hnil. simpl app.
      rewrite (IH (fst (key x) :: seen)).
      * simpl count_occ. destruct (string_dec (fst (key x)) k); [congruence | reflexivity].
      * simpl count_occ. destruct (string_dec (fst (key x)) k); [congruence | exact Htot].
Qed.

Lemma count_occ_rows_of (k : string) (l : list A) :
  count_occ string_dec (map (fun y => fst (key y)) l) k = List.length (rows_of k l).
Proof.
  induction l as [|x t IH]; simpl; [reflexivity|].
  destruct (string_dec (fst (key x)) k) as [->|Hne].
  - rewrite String.eqb_refl. simpl. now rewrite IH.
  - apply String.eqb_neq in Hne. rewrite Hne. exact IH.
Qed.

Lemma tl_removelast (l : list A) : tl (removelast l) = removelast (tl l).
Proof.
  destruct l as [|x [|y t]]; reflexivity.
Qed.

Lemma length_removelast_tl (l : list A) :
  List.length (removelast (tl l)) = (List.length l - 2)%nat.
Proof.
  destruct l as [|x t]; [reflexivity|]. simpl tl.
  replace (List.length (x :: t) - 2)%nat with (List.length t - 1)%nat by (simpl; lia).
  induction t as [|y t IH]; [reflexivity|].
  destruct t as [|z t]; [reflexivity|].
  change (removelast (y :: z :: t)) with (y :: removelast (z :: t)).
  simpl List.length in *. rewrite IH. lia.
Qed.

Lemma trim_boundary_rows (k : string) (l : list A) :
  rows_of k (trim_boundary key l) = removelast (tl (rows_of k (sort_values key l))).
Proof.
  unfold trim_boundary.
  change (rows_of k (keep_from [] (fun k' =>
            count_occ string_dec (map (fun y => fst (key y)) (sort_values key l)) k')
            (sort_values key l))
          = removelast (tl (rows_of k (sort_values key l)))).
  rewrite keep_from_rows.
  - simpl. apply tl_removelast.
  - simpl. apply count_occ_rows_of.
Qed.

Lemma rows_of_length_perm (k : string) (l l' : list A) :
  Permutation l l' -> List.length (rows_of k l) = List.length (rows_of k l').
Proof.
  intros H. induction H; simpl.
  - reflexivity.
  - destruct (String.eqb _ k); simpl; congruence.
  - destruct (String.eqb (fst (key x)) k), (String.eqb (fst (key y)) k); reflexivity.
  - congruence.
Qed.
End TrimFacts.


Lemma key_leb_total (a b : GroupKey) : key_leb a b = false -> key_leb b a = true.
Proof.
  unfold key_leb, key_compare. destruct a as [s d], b as [s' d']; simpl.
  pose proof (String.compare_antisym s s') as Hs.
  pose proof (Z.compare_antisym d' d) as Hz.
  destruct (String.compare s s'), (String.compare s' s); simpl in Hs;
    try discriminate Hs; simpl; try discriminate; try reflexivity.
  destruct (Z.compare d d'), (Z.compare d' d); simpl in Hz;
    try discriminate Hz; simpl; try discriminate; reflexivity.
Qed.

Section SortedFacts.
Context {A : Type} (key : A -> GroupKey).

(** Ascending by (admission_key, date). *)
Definition ascending : list A -> Prop :=
  Sorted (fun a b => key_leb (key a) (key b) = true).

Lemma insert_sorted_ascending (x : A) (l : list A) :
  ascending l -> ascending (insert_sorted key x l).
Proof.
  unfold ascending. induction l as [|h t IH]; intros Hs; simpl.
  - repeat constructor.
  - destruct (key_leb (key x) (key h)) eqn:E.
    + constructor; [exact Hs | constructor; exact E].
    + inversion Hs as [|? ? Ht Hh]; subst.
      constructor; [apply IH; exact Ht|].
      destruct t as [|h' t']; simpl.
      * constructor. now apply key_leb_total.
      * destruct (key_leb (key x) (key h')).
        -- constructor. now apply key_leb_total.
        -- inversion Hh; subst. constructor. assumption.
Qed.

Lemma sort_values_ascending (l : list A) : ascending (sort_values key l).
Proof.
  induction l as [|x t IH]; simpl.
  - constructor.
  - now apply insert_sorted_ascending.
Qed.

(** Sorting a table that is already in order leaves it as it is. *)
Lemma sort_values_ascending_id (l : list A) : ascending l -> sort_values key l = l.
Proof.
  unfold ascending. induction l as [|x t IH]; intros Hs; [reflexivity|].
  inversion Hs as [|? ? Ht Hh]; subst. simpl. rewrite (IH Ht).
  destruct t as [|h t']; [reflexivity|]. simpl.
  inversion Hh as [|? ? E]; subst. now rewrite E.
Qed.
End SortedFacts.

Lemma ascending_map {A B : Type} (keyA : A -> GroupKey) (keyB : B -> GroupKey)
      (f : A -> B) (l : list A) :
  (forall x, keyB (f x) = keyA x) -> ascending keyA l -> ascending keyB (map f l).
Proof.
  intros Hk. unfold ascending. induction l as [|x t IH]; intros Hs; simpl.
  - constructor.
  - inversion Hs as [|? ? Ht Hh]; subst. constructor; [now apply IH|].
    destruct t as [|h t']; simpl; constructor.
    inversion Hh; subst. now rewrite !Hk.
Qed.

Lemma ascending_combine {A B : Type} (key : A -> GroupKey) (l : list A) :
  forall c : list B,
    ascending key l -> ascending (fun p : A * B => key (fst p)) (combine l c).
Proof.
  unfold ascending. induction l as [|x t IH]; intros c Hs; simpl.
  - constructor.
  - destruct c as [|y c']; [constructor|].
    inversion Hs as [|? ? Ht Hh]; subst. constructor; [now apply IH|].
    destruct t as [|h t']; simpl; [constructor|].
    destruct c' as [|y' c'']; constructor.
    inversion Hh; subst. assumption.
Qed.

Lemma cumcount_from_length {A : Type} (key : A -> GroupKey) (l : list A) :
  forall seen, List.length (cumcount_from key seen l) = List.length l.
Proof.
  induction l as [|x t IH]; intros seen; simpl; [reflexivity | now rewrite IH].
Qed.

Lemma map_fst_combine {A B : Type} (l : list A) :
  forall c : list B, List.length c = List.length l -> map fst (combine l c) = l.
Proof.
  induction l as [|x t IH]; intros [|y c] H; simpl in *; try discriminate; [reflexivity|].
  f_equal. apply IH. now injection H.
Qed.

(** The table with HospDay and PREHYPO holds the joined rows in sorted
    order. *)
Lemma add_day_columns_joined (daily_data : list JoinedRow) :
  map joined (add_day_columns daily_data) = sort_values joined_key daily_data.
Proof.
  unfold add_day_columns. rewrite map_map. simpl.
  change (map (fun x : JoinedRow * nat => fst x)
              (combine (sort_values joined_key daily_data)
                       (cumcount joined_key (sort_values joined_key daily_data))))
    with (map fst (combine (sort_values joined_key daily_data)
                       (cumcount joined_key (sort_values joined_key daily_data)))).
  apply map_fst_combine. apply cumcount_from_length.
Qed.

Lemma add_day_columns_ascending (daily_data : list JoinedRow) :
  ascending final_key (add_day_columns daily_data).
Proof.
  unfold add_day_columns.
  apply (ascending_map (fun p : JoinedRow * nat => joined_key (fst p))).
  - reflexivity.
  - apply ascending_combine. apply sort_values_ascending.
Qed.

Lemma rows_of_map {A B : Type} (keyA : A -> GroupKey) (keyB : B -> GroupKey)
      (f : A -> B) (k : string) (l : list A) :
  (forall x, keyB (f x) = keyA x) ->
  rows_of keyB k (map f l) = map f (rows_of keyA k l).
Proof.
  intros Hk. induction l as [|x t IH]; simpl; [reflexivity|].
  rewrite Hk. destruct (String.eqb (fst (keyA x)) k); simpl; now rewrite IH.
Qed.

Lemma map_tl {A B : Type} (f : A -> B) (l : list A) : map f (tl l) = tl (map f l).
Proof. destruct l; reflexivity. Qed.

Lemma map_removelast {A B : Type} (f : A -> B) (l : list A) :
  map f (removelast l) = removelast (map f l).
Proof.
  induction l as [|x t IH]; [reflexivity|].
  destruct t as [|y t']; [reflexivity|].
  change (removelast (x :: y :: t')) with (x :: removelast (y :: t')).
  change (map f (x :: removelast (y :: t'))) with (f x :: map f (removelast (y :: t'))).
  rewrite IH. reflexivity.
Qed.

(** The days of one admission that [build_timeseries_dataset] keeps: its
    days in date order without the first and the last. *)
Lemma build_timeseries_dataset_rows (daily_data : list JoinedRow) (k : string) :
  map joined (rows_of final_key k (build_timeseries_dataset daily_data))
  = removelast (tl (rows_of joined_key k (sort_values joined_key daily_data))).
Proof.
  unfold build_timeseries_dataset.
  rewrite trim_boundary_rows.
  rewrite (sort_values_ascending_id final_key _ (add_day_columns_ascending daily_data)).
  rewrite map_removelast, map_tl.
  rewrite <- (rows_of_map final_key joined_key joined k) by reflexivity.
  now rewrite add_day_columns_joined.
Qed.

(** Three joined days of admission E1 and two of admission E2, out of
    order. *)
Definition example_day (k : string) (d : Z) : JoinedRow :=
  mkJoined (mkLabeled (mkDaily k d (5 # 1) (10 # 1) (Float64.of_Q (15 # 2))
                                PrimFloat.nan 1) NORMAL) [].

Definition example_trim : list JoinedRow :=
  [ example_day "E1" 3; example_day "E2" 1; example_day "E1" 1; example_day "E2" 2;
    example_day "E1" 2 ].

(** C3.  Boundary trimming keeps, for every admission_key, its rows in
    day order without the first and the last one: an admission with [n]
    rows keeps [n - 2] of them (none when [n] is 1 or 2, cut-off
    subtraction), and one with exactly three days [a], [b], [c] keeps
    exactly the middle day [b]. *)
Theorem C3_boundary_trimming :
  forall (daily_data : list JoinedRow) (k : string),
    let days := rows_of joined_key k (sort_values joined_key daily_data) in
    let kept := rows_of final_key k (build_timeseries_dataset daily_data) in
    map joined kept = removelast (tl days)
    /\ List.length kept = (List.length (rows_of joined_key k daily_data) - 2)%nat
    /\ (forall a b c, days = [a; b; c] -> map joined kept = [b])
    /\ ((List.length (rows_of joined_key k daily_data) <= 2)%nat -> kept = []).
Proof.
  intros daily_data k days kept.
  assert (H1 : map joined kept = removelast (tl days))
    by apply build_timeseries_dataset_rows.
  assert (H2 : List.length kept = (List.length (rows_of joined_key k daily_data) - 2)%nat).
  { rewrite <- (length_map joined kept), H1, length_removelast_tl.
    unfold days.
    now rewrite (rows_of_length_perm joined_key k _ _ (sort_values_perm joined_key daily_data)). }
  repeat split; [exact H1 | exact H2 | |].
  - intros a b c Hd. rewrite H1, Hd. reflexivity.
  - intros Hle. apply length_zero_iff_nil. lia.
Qed.

(** On the example, admission E1 (three days) keeps day 2 and admission
    E2 (two days) keeps nothing. *)
Lemma C3_boundary_trimming_witness :
  map joined (rows_of final_key "E1" (build_timeseries_dataset example_trim))
  = [example_day "E1" 2]
  /\ rows_of final_key "E2" (build_timeseries_dataset example_trim) = [].
Proof.
  split.
  - destruct (C3_boundary_trimming example_trim "E1") as [_ [_ [H _]]].
    apply (H (example_day "E1" 1) (example_day "E1" 2) (example_day "E1" 3)).
    vm_compute. reflexivity.
  - destruct (C3_boundary_trimming example_trim "E2") as [_ [_ [_ H]]].
    apply H. vm_compute. lia.
Defined.


(** *** Daily statistics *)

Lemma in_daily_statistics (ms : list Measurement) (d : DailyGlucose) :
  In d (daily_statistics ms) <->
  exists k, In k (map fst (valid_records ms))
            /\ d = aggregate k (group_values k (valid_records ms)).
Proof.
  unfold daily_statistics, group_keys. rewrite in_map_iff. split.
  - intros [k [Hd Hk]]. exists k. split; [|now symmetry].
    apply sort_values_in in Hk. now apply nodup_In in Hk.
  - intros [k [Hk ->]]. exists k. split; [reflexivity|].
    apply sort_values_in. now apply nodup_In.
Qed.

Lemma group_values_nonempty (k : GroupKey) (recs : list (GroupKey * Q)) :
  In k (map fst recs) -> group_values k recs <> [].
Proof.
  intros Hk. apply in_map_iff in Hk. destruct Hk as [[k' v] [Hk Hin]].
  simpl in Hk. subst k'. unfold group_values. intros Hnil.
  assert (H : In v (map snd (filter (fun kv : GroupKey * Q => key_eqb (fst kv) k) recs))).
  { apply in_map_iff. exists (k, v). split; [reflexivity|].
    apply filter_In. split; [exact Hin|]. now apply key_eqb_eq. }
  rewrite Hnil in H. exact H.
Qed.

Lemma Qmin_cases (x y : Q) : Qmin x y = x \/ Qmin x y = y.
Proof.
  unfold Qmin, GenericMinMax.gmin. destruct (x ?= y)%Q; auto.
Qed.

Lemma Qmax_cases (x y : Q) : Qmax x y = x \/ Qmax x y = y.
Proof.
  unfold Qmax, GenericMinMax.gmax. destruct (x ?= y)%Q; auto.
Qed.

Lemma fold_Qmin_spec (t : list Q) :
  forall x, In (fold_left Qmin t x) (x :: t)
            /\ forall y, In y (x :: t) -> (fold_left Qmin t x <= y)%Q.
Proof.
  induction t as [|z t IH]; intros x; simpl.
  - split; [now left|]. intros y [<- | []]. apply Qle_refl.
  - destruct (IH (Qmin x z)) as [Hin Hle]. split.
    + destruct Hin as [Hin | Hin]; [|now right; right].
      rewrite <- Hin. destruct (Qmin_cases x z) as [-> | ->]; [now left | now right; left].
    + intros y [<- | [<- | Hy]].
      * eapply Qle_trans; [apply Hle; now left | apply Q.le_min_l].
      * eapply Qle_trans; [apply Hle; now left | apply Q.le_min_r].
      * apply Hle. now right.
Qed.

Lemma fold_Qmax_spec (t : list Q) :
  forall x, In (fold_left Qmax t x) (x :: t)
            /\ forall y, In y (x :: t) -> (y <= fold_left Qmax t x)%Q.
Proof.
  induction t as [|z t IH]; intros x; simpl.
  - split; [now left|]. intros y [<- | []]. apply Qle_refl.
  - destruct (IH (Qmax x z)) as [Hin Hle]. split.
    + destruct Hin as [Hin | Hin]; [|now right; right].
      rewrite <- Hin. destruct (Qmax_cases x z) as [-> | ->]; [now left | now right; left].
    + intros y [<- | [<- | Hy]].
      * eapply Qle_trans; [apply Q.le_max_l | apply Hle; now left].
      * eapply Qle_trans; [apply Q.le_max_r | apply Hle; now left].
      * apply Hle. now right.
Qed.

Lemma agg_min_spec (xs : list Q) :
  xs <> [] -> In (agg_min xs) xs /\ forall y, In y xs -> (agg_min xs <= y)%Q.
Proof.
  destruct xs as [|x t]; [congruence|]. intros _. apply fold_Qmin_spec.
Qed.

Lemma agg_max_spec (xs : list Q) :
  xs <> [] -> In (agg_max xs) xs /\ forall y, In y xs -> (y <= agg_max xs)%Q.
Proof.
  destruct xs as [|x t]; [congruence|]. intros _. apply fold_Qmax_spec.
Qed.

Section DailyStatistics.

Import Floats.
Set Warnings "-inexact-float".

Lemma std_glucose_single (k : GroupKey) (x : Q) :
  is_nan (std_glucose (aggregate k [x])) = true
  /\ is_nan (cv_glucose (aggregate k [x])) = true.
Proof.
  split; [reflexivity|].
  unfold cv_glucose. apply Float64Facts.nan_round2, Float64Facts.nan_mul,
    Float64Facts.nan_div. reflexivity.
Qed.

Lemma std_glucose_sample (k : GroupKey) (xs : list Q) :
  (2 <= List.length xs)%nat ->
  std_glucose (aggregate k xs)
  = sqrt (snd (fst (fold_left Float64.welford_step (map Float64.of_Q xs)
                              (0%float, 0%float, 0%nat)))
          / Float64.of_count (List.length xs - 1))%float.
Proof.
  intros Hn. simpl std_glucose. unfold agg_std.
  rewrite Float64Facts.group_std_two by (now rewrite length_map).
  now rewrite length_map.
Qed.

(** Two measurements of one day: 5.0 and 7.0. *)
Definition example_pair : list Measurement :=
  [ mkMeasurement "E1" (Some (Clock.days_from_civil 2024 3 1)) (Some (5 # 1));
    mkMeasurement "E1" (Some (Clock.days_from_civil 2024 3 1)) (Some (7 # 1)) ].

(** Modelled from the spec: the population standard deviation of section
    4.4, the square root of the sum of the squared deviations from the
    mean divided by the number of values, in float64 arithmetic. *)
Definition population_std (xs : list float) : float :=
  let n := Float64.of_count (List.length xs) in
  let m := (fold_left add xs 0 / n)%float in
  sqrt (fold_left (fun acc x => acc + (x - m) * (x - m))%float xs 0%float / n)%float.

(** C4, counterexample.  For the day with the two values 5.0 and 7.0 the
    column std_glucose is 1.4142135623730951, the sample standard
    deviation (the sum of squares 2 divided by [n - 1 = 1]), where the
    population standard deviation of the two values is 1; and the column
    cv_glucose is 23.57, where std / mean * 100 is 23.570226039551585. *)
Theorem C4_population_std_counterexample :
  exists d, In d (daily_statistics example_pair)
            /\ group_values (daily_key d) (valid_records example_pair) = [5 # 1; 7 # 1]
            /\ std_glucose d = 1.4142135623730951%float
            /\ population_std (map Float64.of_Q [5 # 1; 7 # 1]) = 1%float
            /\ std_glucose d <> population_std (map Float64.of_Q [5 # 1; 7 # 1])
            /\ cv_glucose d = 23.57%float
            /\ (std_glucose d / mean_glucose d * 100)%float = 23.570226039551585%float
            /\ cv_glucose d <> (std_glucose d / mean_glucose d * 100)%float.
Proof.
  exists (aggregate ("E1"%string, Clock.days_from_civil 2024 3 1) [5 # 1; 7 # 1]).
  split; [vm_compute; left; reflexivity|].
  split; [vm_compute; reflexivity|].
  split; [vm_compute; reflexivity|].
  split; [vm_compute; reflexivity|].
  split.
  { intros H. apply (f_equal (fun x => eqb x 1%float)) in H.
    vm_compute in H. discriminate H. }
  split; [vm_compute; reflexivity|].
  split; [vm_compute; reflexivity|].
  intros H. apply (f_equal (fun x => eqb x 23.57%float)) in H.
  vm_compute in H. discriminate H.
Qed.

(** C4, amended.  For every row of the daily table, computed from the
    values [xs] of its (admission_key, date) group: [xs] is not empty; the
    count is its length; the minimum and the maximum are values of the
    group that bound all of them; the mean is the compensated float64 sum
    of the values divided by the count; the standard deviation is the
    sample one: missing (NaN) for a single value, as is then the
    coefficient of variation, and otherwise the square root, never
    negative, of the running sum of squared deviations divided by
    [n - 1]; the coefficient of variation is std / mean * 100 rounded to
    two decimals.  All three are float64 results: the day with 5.0 and
    7.0 has the mean 6, the standard deviation 1.4142135623730951 and the
    coefficient 23.57; the mean of 0.1, 0.2 and 0.3 is
    0.19999999999999998; the day with 15.9, 16.0 and 16.1 has the mean
    16, the standard deviation 0.1000000000000012 and the coefficient
    0.63. *)
Theorem C4_daily_statistics :
  forall (ms : list Measurement) (d : DailyGlucose),
    In d (daily_statistics ms) ->
    let xs := group_values (daily_key d) (valid_records ms) in
    let fs := map Float64.of_Q xs in
    xs <> []
    /\ count_glucose d = List.length xs
    /\ (In (min_glucose d) xs /\ forall x, In x xs -> (min_glucose d <= x)%Q)
    /\ (In (max_glucose d) xs /\ forall x, In x xs -> (x <= max_glucose d)%Q)
    /\ mean_glucose d
       = (fst (fold_left Float64.kahan_step fs (0, 0))
          / Float64.of_count (List.length xs))%float
    /\ (List.length xs = 1%nat ->
        is_nan (std_glucose d) = true /\ is_nan (cv_glucose d) = true)
    /\ ((2 <= List.length xs)%nat ->
        std_glucose d
        = sqrt (snd (fst (fold_left Float64.welford_step fs (0%float, 0%float, 0%nat)))
                / Float64.of_count (List.length xs - 1))%float
        /\ (std_glucose d <? 0)%float = false)
    /\ cv_glucose d = Float64.round2 (std_glucose d / mean_glucose d * 100)%float
    /\ (xs = [5 # 1; 7 # 1] ->
        mean_glucose d = 6%float
        /\ std_glucose d = 1.4142135623730951%float
        /\ cv_glucose d = 23.57%float)
    /\ (xs = [1 # 10; 1 # 5; 3 # 10] ->
        mean_glucose d = 0.19999999999999998%float)
    /\ (xs = [159 # 10; 16 # 1; 161 # 10] ->
        mean_glucose d = 16%float
        /\ std_glucose d = 0.1000000000000012%float
        /\ cv_glucose d = 0.63%float).
Proof.
  intros ms d Hd xs fs.
  apply in_daily_statistics in Hd. destruct Hd as [k [Hk Hd]].
  assert (Hkey : daily_key d = k) by (subst d; destruct k; reflexivity).
  unfold fs, xs. rewrite Hkey.
  set (ys := group_values k (valid_records ms)) in *.
  assert (Hne : ys <> []) by (now apply group_values_nonempty).
  subst d.
  split; [exact Hne|]. split; [reflexivity|].
  split; [now apply agg_min_spec|]. split; [now apply agg_max_spec|].
  split.
  { simpl mean_glucose. unfold agg_mean, Float64.group_mean.
    now rewrite length_map. }
  split.
  { intros Hn. destruct ys as [|y [|y' ys']]; try discriminate Hn.
    apply std_glucose_single. }
  split.
  { intros Hn. rewrite (std_glucose_sample k ys Hn).
    split; [reflexivity | apply Float64Facts.sqrt_not_negative]. }
  split; [reflexivity|].
  split; [|split]; intros ->; vm_compute; repeat split; reflexivity.
Qed.

(** The day with the values 5.0 and 7.0: count 2, minimum 5, maximum 7,
    mean 6, standard deviation 1.4142135623730951, coefficient of
    variation 23.57. *)
Lemma C4_daily_statistics_witness :
  exists d, In d (daily_statistics example_pair)
            /\ count_glucose d = 2%nat
            /\ min_glucose d = 5 # 1 /\ max_glucose d = 7 # 1
            /\ mean_glucose d = 6%float
            /\ std_glucose d = 1.4142135623730951%float
            /\ cv_glucose d = 23.57%float.
Proof.
  exists (aggregate ("E1"%string, Clock.days_from_civil 2024 3 1) [5 # 1; 7 # 1]).
  assert (Hin : In (aggregate ("E1"%string, Clock.days_from_civil 2024 3 1) [5 # 1; 7 # 1])
                   (daily_statistics example_pair))
    by (vm_compute; left; reflexivity).
  destruct (C4_daily_statistics example_pair _ Hin)
    as [_ [Hc [_ [_ [_ [_ [_ [_ [Hpair _]]]]]]]]].
  destruct (Hpair eq_refl) as [Hmean [Hstd Hcv]].
  split; [exact Hin|]. split; [exact Hc|].
  split; [reflexivity|]. split; [reflexivity|].
  split; [exact Hmean|]. split; [exact Hstd | exact Hcv].
Defined.

End DailyStatistics.

(** *** The binary table *)

Lemma mem_iff_eq (c : string) (l l' : list string) :
  (In c l <-> In c l') -> mem c l = mem c l'.
Proof.
  intros H. destruct (mem c l) eqn:E, (mem c l') eqn:E'; try reflexivity.
  - apply FrameFacts.mem_In in E. apply H in E. apply FrameFacts.mem_In in E. congruence.
  - apply FrameFacts.mem_In in E'. apply H in E'. apply FrameFacts.mem_In in E'. congruence.
Qed.

(** What [hypo_binary_table] does to one row. *)
Definition binary_row (r : Row) : Row :=
  map (fun cv : string * cell =>
         (if String.eqb (fst cv) "outcome_HYPO" then "outcome"%string else fst cv, snd cv))
      (filter (fun cv : string * cell => negb (mem (fst cv) ["outcome"%string]))
              (set r "outcome_HYPO" (binarize (get r "outcome")))).

Lemma binary_row_outcome (r : Row) :
  get (binary_row r) "outcome" = binarize (get r "outcome").
Proof.
  unfold binary_row. rewrite FrameFacts.get_rename_new.
  - rewrite (FrameFacts.get_filter_keep (fun n => negb (mem n ["outcome"%string])))
      by reflexivity.
    apply FrameFacts.get_set_same.
  - rewrite (FrameFacts.filter_names (fun n => negb (mem n ["outcome"%string]))).
    intros Hin. apply filter_In in Hin. destruct Hin as [_ H]. discriminate H.
Qed.

Lemma binary_row_other (r : Row) (c : string) :
  ~ In "outcome_HYPO"%string (map fst r) -> c <> "outcome"%string ->
  get (binary_row r) c = get r c.
Proof.
  intros Habs Hc. unfold binary_row.
  destruct (string_dec c "outcome_HYPO") as [-> | Hne].
  - rewrite FrameFacts.get_rename_old by discriminate.
    symmetry. now apply FrameFacts.get_absent.
  - rewrite FrameFacts.get_rename_other by assumption.
    rewrite (FrameFacts.get_filter_keep (fun n => negb (mem n ["outcome"%string]))).
    + now apply FrameFacts.get_set_other.
    + simpl. destruct (String.eqb c "outcome") eqn:E; [|reflexivity].
      apply String.eqb_eq in E. congruence.
Qed.

Lemma binarize_spec (x : cell) :
  (binarize x = Int 1 <-> cell_eqb x (Int 0) = true)
  /\ (binarize x = Int 0 <-> cell_eqb x (Int 0) = false).
Proof.
  unfold binarize. destruct (cell_eqb x (Int 0)); split; split; congruence.
Qed.

(** A three-class table with one day of each class. *)
Definition example_combined : DataFrame :=
  mkFrame ["admission_key"; "date"; "min_glucose"; "outcome"; "group"]%string
    [ [("admission_key", Str "E1"); ("date", Str "2024-03-02"); ("min_glucose", Flt (52 # 10));
       ("outcome", Flt 0); ("group", Str "Health")];
      [("admission_key", Str "E1"); ("date", Str "2024-03-03"); ("min_glucose", Flt (35 # 10));
       ("outcome", Flt 1); ("group", Str "Health")];
      [("admission_key", Str "E7"); ("date", Str "2024-05-09"); ("min_glucose", Flt (61 # 10));
       ("outcome", Flt (2 # 1)); ("group", Str "HYPO")] ]%string.

(** C10.  For a three-class table (a frame with an outcome column, and
    without a column called outcome_HYPO, the name of the temporary
    column), the binary table exists, has the same number of rows and the
    same set of columns; every column other than outcome holds the same
    values in the same order; and its outcome column holds, row by row,
    1 where the three-class outcome is 0 (Hypoglycemia) and 0 everywhere
    else. *)
Theorem C10_binary_table :
  forall df_combined : DataFrame,
    wf df_combined ->
    has_column df_combined "outcome" = true ->
    has_column df_combined "outcome_HYPO" = false ->
    exists df_hypo,
      hypo_binary_table df_combined = Some df_hypo
      /\ len df_hypo = len df_combined
      /\ (forall c, has_column df_hypo c = has_column df_combined c)
      /\ (forall c, c <> "outcome"%string -> column df_hypo c = column df_combined c)
      /\ column df_hypo "outcome" = map binarize (column df_combined "outcome")
      /\ (forall x, (binarize x = Int 1 <-> cell_eqb x (Int 0) = true)
                    /\ (binarize x = Int 0 <-> cell_eqb x (Int 0) = false)).
Proof.
  intros df [Hnd Hrows] Hout Hhypo.
  unfold hypo_binary_table. rewrite Hout.
  eexists. split; [reflexivity|].
  assert (Hr : rows (rename_column "outcome_HYPO" "outcome"
                 (drop_columns ["outcome"%string]
                    (assign "outcome_HYPO" (fun r => binarize (get r "outcome")) df)))
               = map binary_row (rows df)).
  { unfold rename_column, drop_columns, assign; simpl. rewrite !map_map. reflexivity. }
  apply FrameFacts.mem_In in Hout. apply FrameFacts.mem_false in Hhypo.
  split; [unfold len; rewrite Hr; apply length_map|].
  split.
  { intros c. unfold has_column at 1. apply mem_iff_eq.
    unfold rename_column, drop_columns, assign; simpl.
    replace (has_column df "outcome_HYPO") with false
      by (symmetry; now apply FrameFacts.mem_false).
    rewrite in_map_iff. split.
    - intros [n [Hn Hin]]. apply filter_In in Hin. destruct Hin as [Hin Hp].
      apply in_app_iff in Hin. destruct Hin as [Hin | [<- | []]].
      + destruct (String.eqb n "outcome_HYPO") eqn:E.
        * apply String.eqb_eq in E. subst n. contradiction.
        * now subst c.
      + simpl in Hn. now subst c.
    - intros Hc. destruct (string_dec c "outcome") as [-> | Hne].
      + exists "outcome_HYPO"%string. split; [reflexivity|].
        apply filter_In. split; [apply in_app_iff; right; now left | reflexivity].
      + exists c. split.
        * destruct (String.eqb c "outcome_HYPO") eqn:E; [|reflexivity].
          apply String.eqb_eq in E. subst c. contradiction.
        * apply filter_In. split; [apply in_app_iff; now left|].
          simpl. destruct (String.eqb c "outcome") eqn:E; [|reflexivity].
          apply String.eqb_eq in E. congruence. }
  split.
  { intros c Hc. unfold column. rewrite Hr, map_map.
    apply map_ext_in. intros r Hin.
    apply binary_row_other; [|exact Hc].
    rewrite Forall_forall in Hrows. now rewrite (Hrows r Hin). }
  split; [|exact binarize_spec].
  unfold column. rewrite Hr, !map_map.
  apply map_ext. intros r. apply binary_row_outcome.
Qed.

(** On the example the binary outcomes are 1, 0, 0 and the dates are
    unchanged. *)
Lemma C10_binary_table_witness :
  exists df_hypo,
    hypo_binary_table example_combined = Some df_hypo
    /\ column df_hypo "outcome" = [Int 1; Int 0; Int 0]
    /\ column df_hypo "date" = column example_combined "date".
Proof.
  assert (Hwf : wf example_combined).
  { split.
    - repeat constructor; simpl; intuition discriminate.
    - repeat constructor. }
  destruct (C10_binary_table example_combined Hwf eq_refl eq_refl)
    as [df_hypo [H1 [_ [_ [H2 [H3 _]]]]]].
  exists df_hypo. split; [exact H1|]. split.
  - rewrite H3. reflexivity.
  - apply H2. discriminate.
Defined.

End Step7Facts.

(** ** Cohort filter (步骤2) *)

Module Step2Facts.

Import Frame Step2.
Local Open Scope list_scope.

Lemma filter_idem {A : Type} (p : A -> bool) (l : list A) :
  filter p (filter p l) = filter p l.
Proof.
  induction l as [|x t IH]; simpl; [reflexivity|].
  destruct (p x) eqn:E; simpl; [rewrite E; f_equal|]; exact IH.
Qed.

(** Filtering a file that was filtered with the same keys changes nothing
    and deletes nothing. *)
Lemma exclude_from_file_again (excluded_patients : list cell) (df : DataFrame) :
  exclude_from_file excluded_patients (fst (exclude_from_file excluded_patients df))
  = (fst (exclude_from_file excluded_patients df), 0%nat).
Proof.
  unfold exclude_from_file.
  destruct (has_column df "admission_key") eqn:E; simpl.
  - unfold has_column in *. simpl. rewrite E.
    unfold select, len; simpl. rewrite filter_idem. f_equal. lia.
  - now rewrite E.
Qed.

(** No row of an excluded admission is left after the first pass. *)
Lemma exclude_from_file_rows (excluded_patients : list cell) (df : DataFrame) (r : Row) :
  has_column df "admission_key" = true ->
  (In r (rows (fst (exclude_from_file excluded_patients df)))
   <-> In r (rows df) /\ isin excluded_patients (get r "admission_key") = false).
Proof.
  intros E. unfold exclude_from_file. rewrite E. simpl.
  rewrite filter_In, negb_true_iff. reflexivity.
Qed.

(** Some files of a cohort; the second has no admission_key column. *)
Definition example_files : Files :=
  [ ("诊断.csv"%string,
     mkFrame ["admission_key"; "disease_name"]%string
       [ [("admission_key", Str "P1_1"); ("disease_name", Str "妊娠糖尿病")];
         [("admission_key", Str "P2_1"); ("disease_name", Str "高血压")];
         [("admission_key", Str "P1_1"); ("disease_name", Str "高血压")] ]%string);
    ("说明.csv"%string, mkFrame ["note"]%string [ [("note"%string, Str "x")] ]);
    ("血糖.csv"%string,
     mkFrame ["admission_key"; "blood_sugar"]%string
       [ [("admission_key", Str "P2_1"); ("blood_sugar", Flt (52 # 10))];
         [("admission_key", Str "P1_1"); ("blood_sugar", Flt (41 # 10))] ]%string) ].

(** C9.  After [exclude_patients_from_all_files] has removed the rows of
    an exclusion set from the tables of a cohort, running it again with
    the same set deletes 0 rows and leaves every table as it is.  On the
    example the first pass deletes 3 rows and the second none. *)
Theorem C9_cohort_filter_rerun :
  (forall (files : Files) (excluded_patients : list cell),
      exclude_patients_from_all_files
        (fst (exclude_patients_from_all_files files excluded_patients)) excluded_patients
      = (fst (exclude_patients_from_all_files files excluded_patients), 0%nat))
  /\ snd (exclude_patients_from_all_files example_files [Str "P1_1"]) = 3%nat
  /\ snd (exclude_patients_from_all_files
            (fst (exclude_patients_from_all_files example_files [Str "P1_1"]))
            [Str "P1_1"]) = 0%nat.
Proof.
  split; [|split; vm_compute; reflexivity].
  intros files excluded. induction files as [|[name df] rest IH]; [reflexivity|].
  simpl.
  destruct (exclude_from_file excluded df) as [df' deleted] eqn:E1.
  destruct (exclude_patients_from_all_files rest excluded) as [rest' total] eqn:E2.
  simpl in *.
  pose proof (exclude_from_file_again excluded df) as Hf. rewrite E1 in Hf. simpl in Hf.
  rewrite Hf, IH. reflexivity.
Qed.

End Step2Facts.


(** ** Comorbidity flags (步骤4) *)

Module Step4Facts.

Import Frame Step4.
Local Open Scope list_scope.

Lemma fold_and (f : string -> bool) (l : list string) :
  forall b, fold_left (fun mask keyword => mask && f keyword) l b = b && forallb f l.
Proof.
  induction l as [|k l IH]; intros b; simpl.
  - now rewrite andb_true_r.
  - rewrite IH. now rewrite andb_assoc.
Qed.

Lemma fold_or (f : string -> bool) (l : list string) :
  forall b, fold_left (fun mask keyword => mask || f keyword) l b = b || existsb f l.
Proof.
  induction l as [|k l IH]; intros b; simpl.
  - now rewrite orb_false_r.
  - rewrite IH. now rewrite orb_assoc.
Qed.

(** The mask of an AND rule selects the texts that contain every keyword,
    the mask of an OR rule those that contain one. *)
Lemma rule_mask_and (info : Comorbidity) (text : string) :
  logic info = AND ->
  (rule_mask info text = true
   <-> forall keyword, In keyword (keywords info) -> Text.occurs_ci keyword text).
Proof.
  intros Hl. unfold rule_mask. rewrite Hl, fold_and. simpl.
  rewrite forallb_forall. split; intros H k Hk.
  - apply TextFacts.contains_ci_occurs. now apply H.
  - apply TextFacts.contains_ci_occurs. now apply H.
Qed.

Lemma rule_mask_or (info : Comorbidity) (text : string) :
  logic info = OR ->
  (rule_mask info text = true
   <-> exists keyword, In keyword (keywords info) /\ Text.occurs_ci keyword text).
Proof.
  intros Hl. unfold rule_mask. rewrite Hl, fold_or. simpl.
  rewrite existsb_exists. split; intros [k [Hk H]]; exists k; (split; [exact Hk|]);
    now apply TextFacts.contains_ci_occurs.
Qed.

(** No keyword of the table carries regex syntax, so that the search of
    [str.contains] is the search for the text itself. *)
Lemma COMORBIDITIES_literal :
  forallb (fun info => forallb Text.regex_literal (keywords info)) COMORBIDITIES = true.
Proof. vm_compute. reflexivity. Qed.

(** The column of a rule in a row of the feature table. *)
Lemma feature_row_get (g : Comorbidity -> cell) (patient : cell) (info : Comorbidity) :
  In info COMORBIDITIES ->
  get (("admission_key"%string, patient)
         :: map (fun i => (var_code i, g i)) COMORBIDITIES) (var_code info)
  = g info.
Proof.
  intros H. unfold COMORBIDITIES in H.
  repeat (destruct H as [<- | H]; [reflexivity|]). destruct H.
Qed.

Lemma isin_true (values : list cell) (v : cell) :
  isin values v = true <-> exists x, In x values /\ cell_eqb v x = true.
Proof. apply existsb_exists. Qed.

Section ExtractionFacts.
Variable float_str : Q -> string.

(** The diagnosis text of a record after the cleaning step. *)
Definition cleaned_text (r : Row) : string :=
  Text.strip (astype_str float_str (get r "disease_name")).

Lemma clean_disease_name_rows (file : DataFrame) :
  rows (clean_disease_name float_str file)
  = map (fun r => set r "disease_name" (Str (cleaned_text r))) (rows file).
Proof. reflexivity. Qed.

(** The admissions a rule selects: those with a record whose cleaned text
    passes the mask. *)
Lemma patients_with_condition_spec (info : Comorbidity) (file : DataFrame) (x : cell) :
  In x (patients_with_condition info (clean_disease_name float_str file)) <->
  exists r, In r (rows file) /\ x = get r "admission_key"
            /\ rule_mask info (cleaned_text r) = true.
Proof.
  unfold patients_with_condition. rewrite clean_disease_name_rows, in_map_iff. split.
  - intros [r' [Hx Hin]]. apply filter_In in Hin. destruct Hin as [Hin Hm].
    apply in_map_iff in Hin. destruct Hin as [r [<- Hr]].
    exists r. split; [exact Hr|]. split.
    + rewrite <- Hx. apply FrameFacts.get_set_other. discriminate.
    + unfold disease_text in Hm. now rewrite FrameFacts.get_set_same in Hm.
  - intros [r [Hr [-> Hm]]].
    exists (set r "disease_name" (Str (cleaned_text r))). split.
    + apply FrameFacts.get_set_other. discriminate.
    + apply filter_In. split; [apply in_map_iff; now exists r|].
      unfold disease_text. now rewrite FrameFacts.get_set_same.
Qed.

(** The rows of the feature table. *)
Lemma extract_comorbidities_rows (file features : DataFrame) (frow : Row) :
  extract_comorbidities float_str file = Some features ->
  In frow (rows features) ->
  exists patient,
    In patient (unique (column (clean_disease_name float_str file) "admission_key"))
    /\ frow = feature_row (clean_disease_name float_str file) patient.
Proof.
  unfold extract_comorbidities.
  destruct (negb (has_column file "admission_key")); [discriminate|].
  destruct (negb (has_column file "disease_name")); [discriminate|].
  destruct (unique _) as [|p ps] eqn:Hu; [discriminate|].
  intros [= <-] Hin.
  change (In frow (map (feature_row (clean_disease_name float_str file)) (p :: ps))) in Hin.
  apply in_map_iff in Hin.
  destruct Hin as [patient [<- Hp]]. now exists patient.
Qed.

Lemma flag_cases (patients : list cell) (patient : cell) :
  (flag patients patient = Int 1 <-> isin patients patient = true)
  /\ (flag patients patient <> Int 1 -> flag patients patient = Int 0).
Proof.
  unfold flag. destruct (isin patients patient); split; try split;
    intros; try reflexivity; try discriminate; congruence.
Qed.

(** The flag of a rule in the feature table: 1 for the admissions with a
    record that passes the mask, 0 for the others. *)
Lemma feature_flag_spec (info : Comorbidity) (file features : DataFrame) (frow : Row) :
  In info COMORBIDITIES ->
  extract_comorbidities float_str file = Some features ->
  In frow (rows features) ->
  (get frow (var_code info) = Int 1 <->
   exists r, In r (rows file)
             /\ cell_eqb (get frow "admission_key") (get r "admission_key") = true
             /\ rule_mask info (cleaned_text r) = true)
  /\ (get frow (var_code info) <> Int 1 -> get frow (var_code info) = Int 0).
Proof.
  intros Hinfo Hex Hin.
  destruct (extract_comorbidities_rows file features frow Hex Hin) as [patient [_ ->]].
  unfold feature_row.
  rewrite (feature_row_get
             (fun i => flag (patients_with_condition i (clean_disease_name float_str file))
                            patient) patient info Hinfo).
  change (get (("admission_key"%string, patient) :: _) "admission_key") with patient.
  destruct (flag_cases (patients_with_condition info (clean_disease_name float_str file))
                       patient) as [H1 H0].
  split; [|exact H0].
  rewrite H1, isin_true. split.
  - intros [x [Hx He]]. apply patients_with_condition_spec in Hx.
    destruct Hx as [r [Hr [-> Hm]]]. now exists r.
  - intros [r [Hr [He Hm]]]. exists (get r "admission_key"). split; [|exact He].
    apply patients_with_condition_spec. now exists r.
Qed.
End ExtractionFacts.

(** The rule DN (diabetic nephropathy) and a diagnosis table with one
    record for each of three admissions. *)
Definition rule_DN : Comorbidity :=
  mkComorbidity "DN" "糖尿病肾病" "Diabetic nephropathy" AND ["糖尿病"; "肾病"]%string.

Definition example_diagnoses : DataFrame :=
  mkFrame ["admission_key"; "disease_name"]%string
    [ [("admission_key", Str "P1_1"); ("disease_name", Str "2型糖尿病")];
      [("admission_key", Str "P2_1"); ("disease_name", Str " 2型糖尿病肾病 ")];
      [("admission_key", Str "P3_1"); ("disease_name", Str "肾病综合征，糖尿病")] ]%string.

(** C6.  For every rule of the table with AND composition: the rule
    selects a record exactly when every keyword of the rule occurs in the
    record's (cleaned) diagnosis text, letters compared without case,
    whatever the order and the positions of the keywords; the 0/1 column
    of the rule is 1 for the admissions that have such a record and 0 for
    the others.  For the rule that requires 糖尿病 and 肾病: a record with
    糖尿病 only is not selected and its admission gets 0; records with
    both, in either order, are selected and their admissions get 1. *)
Theorem C6_and_composition :
  (forall (float_str : Q -> string) (info : Comorbidity),
      In info COMORBIDITIES -> logic info = AND ->
      (forall text,
          rule_mask info text = true
          <-> forall keyword, In keyword (keywords info) -> Text.occurs_ci keyword text)
      /\ (forall file features frow,
            extract_comorbidities float_str file = Some features ->
            In frow (rows features) ->
            (get frow (var_code info) = Int 1 <->
             exists r, In r (rows file)
                       /\ cell_eqb (get frow "admission_key") (get r "admission_key") = true
                       /\ forall keyword, In keyword (keywords info) ->
                                          Text.occurs_ci keyword (cleaned_text float_str r))
            /\ (get frow (var_code info) <> Int 1 -> get frow (var_code info) = Int 0)))
  /\ (In rule_DN COMORBIDITIES
      /\ rule_mask rule_DN "2型糖尿病" = false
      /\ rule_mask rule_DN "2型糖尿病肾病" = true
      /\ rule_mask rule_DN "肾病综合征，糖尿病" = true
      /\ option_map (fun features => (column features "admission_key", column features "DN"))
                    (extract_comorbidities (fun _ => ""%string) example_diagnoses)
         = Some ([Str "P1_1"; Str "P2_1"; Str "P3_1"], [Int 0; Int 1; Int 1])).
Proof.
  split.
  - intros float_str info Hinfo Hand. split.
    + intros text. now apply rule_mask_and.
    + intros file features frow Hex Hin.
      destruct (feature_flag_spec float_str info file features frow Hinfo Hex Hin)
        as [H1 H0].
      split; [|exact H0].
      rewrite H1. split; intros [r [Hr [He Hm]]]; exists r; (split; [exact Hr|]);
        (split; [exact He|]); now apply (rule_mask_and info).
  - split; [vm_compute; tauto|]. repeat split; vm_compute; reflexivity.
Qed.

(** The theorem at the rule DN: the record "肾病综合征，糖尿病" carries both
    keywords, hence is selected. *)
Lemma C6_and_composition_witness :
  rule_mask rule_DN "肾病综合征，糖尿病" = true.
Proof.
  destruct C6_and_composition as [H [Hin _]].
  destruct (H (fun _ => ""%string) rule_DN Hin eq_refl) as [Hmask _].
  apply Hmask. intros keyword Hk.
  apply TextFacts.contains_ci_occurs.
  destruct Hk as [<- | [<- | []]]; vm_compute; reflexivity.
Defined.

End Step4Facts.


(** ** Adding feature columns to a table *)

Module MergeFacts.

Import Frame Merge FrameFacts.
Local Open Scope list_scope.

(** The join key. *)
Abbreviation key := ("admission_key"%string) (only parsing).

(** The feature table of an extraction pass: one row per admission, one
    0/1 column per item; an item is the name of the column and the list of
    the admissions it marks. *)
Definition feature_cells (items : list (string * list cell)) (patient : cell) : Row :=
  map (fun it => (fst it, flag (snd it) patient)) items.

Definition feature_frame (items : list (string * list cell)) (patients : list cell)
  : DataFrame :=
  mkFrame (key :: map fst items)
          (map (fun patient => (key, patient) :: feature_cells items patient) patients).

(** The row of [patients] that a key value joins with. *)
Definition representative (patients : list cell) (v : cell) : cell :=
  hd NaN (filter (fun q => cell_eqb q v) patients).

(** A row of the table after the pass: its own cells without those named
    like a feature, then the features of its admission. *)
Definition keep_other (fcols : list string) (l : Row) : Row :=
  filter (fun cv : string * cell => negb (mem (fst cv) fcols)) l.

Definition merged_row (items : list (string * list cell)) (patients : list cell) (l : Row)
  : Row :=
  keep_other (map fst items) l
  ++ feature_cells items (representative patients (get l key)).

Definition merged_frame (items : list (string * list cell)) (patients : list cell)
           (file : DataFrame) : DataFrame :=
  mkFrame (filter (fun c => negb (mem c (map fst items))) (columns file) ++ map fst items)
          (map (merged_row items patients) (rows file)).

Lemma frame_eta (df : DataFrame) : mkFrame (columns df) (rows df) = df.
Proof. destruct df; reflexivity. Qed.

Lemma drop_columns_nil (df : DataFrame) : drop_columns [] df = df.
Proof.
  unfold drop_columns. simpl.
  rewrite (filter_all _ (columns df)) by reflexivity.
  rewrite (map_id_in _ (rows df)); [apply frame_eta|].
  intros r _. now apply filter_all.
Qed.

(** Dropping the feature columns a well-formed file has is dropping every
    cell named like a feature. *)
Lemma drop_existing (fcols : list string) (file : DataFrame) :
  wf file ->
  match filter (has_column file) fcols with
  | [] => file
  | _ => drop_columns (filter (has_column file) fcols) file
  end
  = mkFrame (filter (fun c => negb (mem c fcols)) (columns file))
            (map (keep_other fcols) (rows file)).
Proof.
  intros [_ Hrows].
  assert (Hmem : forall c, In c (columns file) ->
                   mem c (filter (has_column file) fcols) = mem c fcols).
  { intros c Hc. destruct (mem c fcols) eqn:E.
    - apply mem_In. apply filter_In. split; [now apply mem_In|].
      now apply mem_In.
    - apply mem_false. intros Hin. apply filter_In in Hin.
      apply mem_false in E. tauto. }
  assert (Hd : drop_columns (filter (has_column file) fcols) file
               = mkFrame (filter (fun c => negb (mem c fcols)) (columns file))
                         (map (keep_other fcols) (rows file))).
  { unfold drop_columns. f_equal.
    - apply filter_ext_in. intros c Hc. now rewrite Hmem.
    - apply map_ext_in. intros r Hr. unfold keep_other.
      apply filter_ext_in. intros [n v] Hin. simpl.
      rewrite Hmem; [reflexivity|].
      rewrite Forall_forall in Hrows. rewrite <- (Hrows r Hr).
      apply in_map_iff. now exists (n, v). }
  destruct (filter (has_column file) fcols) eqn:E; [|exact Hd].
  rewrite <- Hd. symmetry. apply drop_columns_nil.
Qed.

Lemma keep_other_names (fcols : list string) (l : Row) (n : string) :
  In n (map fst (keep_other fcols l)) <-> In n (map fst l) /\ ~ In n fcols.
Proof.
  unfold keep_other. rewrite (filter_names (fun c => negb (mem c fcols))), filter_In.
  rewrite negb_true_iff, mem_false. reflexivity.
Qed.

Lemma get_keep_other (fcols : list string) (l : Row) (c : string) :
  ~ In c fcols -> get (keep_other fcols l) c = get l c.
Proof.
  intros H. unfold keep_other.
  apply (get_filter_keep (fun n => negb (mem n fcols))).
  apply negb_true_iff. now apply mem_false.
Qed.

(** Reading the features back by name gives the feature cells. *)
Lemma feature_cells_get (g : string * list cell -> cell) (items : list (string * list cell)) :
  NoDup (map fst items) ->
  map (fun c => (c, get (map (fun it => (fst it, g it)) items) c)) (map fst items)
  = map (fun it => (fst it, g it)) items.
Proof.
  induction items as [|it items IH]; intros Hnd; [reflexivity|].
  inversion Hnd as [|? ? Hnotin Hnd']; subst. simpl.
  rewrite String.eqb_refl. f_equal.
  etransitivity; [|apply (IH Hnd')]. apply map_ext_in. intros c Hc.
  destruct (String.eqb (fst it) c) eqn:E; [|reflexivity].
  apply String.eqb_eq in E. subst c. contradiction.
Qed.

Lemma feature_cells_names (items : list (string * list cell)) (p : cell) :
  map fst (feature_cells items p) = map fst items.
Proof. unfold feature_cells. rewrite map_map. reflexivity. Qed.

Lemma feature_cells_int (items : list (string * list cell)) (p : cell) (c : string) :
  In c (map fst items) -> exists n, get (feature_cells items p) c = Int n.
Proof.
  unfold feature_cells. induction items as [|it items IH]; intros H; [destruct H|].
  simpl. destruct (String.eqb (fst it) c) eqn:E.
  - unfold flag. eexists. reflexivity.
  - apply IH. destruct H as [H | H]; [|exact H]. apply String.eqb_neq in E. congruence.
Qed.

Lemma filter_map_comm {A B : Type} (f : B -> bool) (g : A -> B) (l : list A) :
  filter f (map g l) = map g (filter (fun x => f (g x)) l).
Proof.
  induction l as [|x l IH]; simpl; [reflexivity|].
  destruct (f (g x)); simpl; now rewrite IH.
Qed.

Lemma flat_map_singleton {A B : Type} (f : A -> list B) (g : A -> B) (l : list A) :
  (forall x, In x l -> f x = [g x]) -> flat_map f l = map g l.
Proof.
  induction l as [|x l IH]; intros H; simpl; [reflexivity|].
  rewrite (H x (or_introl eq_refl)), IH; [reflexivity|].
  intros y Hy. apply H. now right.
Qed.

Lemma flat_map_agree {A B : Type} (f g : A -> list B) (l : list A) :
  (forall x, In x l -> f x = g x) -> flat_map f l = flat_map g l.
Proof.
  induction l as [|x l IH]; intros H; simpl; [reflexivity|].
  rewrite (H x (or_introl eq_refl)), IH; [reflexivity|].
  intros y Hy. apply H. now right.
Qed.

(** A left join of two tables that share no column but the key: nothing
    is renamed. *)
Lemma merge_left_disjoint (left right : DataFrame) (k : string) :
  has_column left k = true -> has_column right k = true ->
  (forall c, c <> k -> has_column left c = true -> has_column right c = false) ->
  (forall l n, In l (rows left) -> In n (map fst l) -> has_column left n = true) ->
  merge_left left right k =
  Some (mkFrame
    (columns left ++ filter (fun c => negb (String.eqb c k)) (columns right))
    (flat_map (fun l =>
       match filter (fun r => cell_eqb (get r k) (get l k)) (rows right) with
       | [] => [l ++ map (fun c => (c, NaN))
                         (filter (fun c => negb (String.eqb c k)) (columns right))]
       | ms => map (fun m => l ++ map (fun c => (c, get m c))
                                      (filter (fun c => negb (String.eqb c k)) (columns right)))
                   ms
       end) (rows left))).
Proof.
  intros Hl Hr Hdisj Hnames. unfold merge_left. rewrite Hl, Hr. simpl andb. cbv iota.
  assert (Hboth : forall c, (has_column left c = true \/ has_column right c = true) ->
            negb (String.eqb c k) && has_column left c && has_column right c = false).
  { intros c _. destruct (String.eqb c k) eqn:E; [reflexivity|]. simpl.
    apply String.eqb_neq in E.
    destruct (has_column left c) eqn:E1; [|reflexivity]. simpl. now apply Hdisj. }
  assert (Hlname : forall l : Row,
            (forall n, In n (map fst l) -> has_column left n = true) ->
            map (fun cv : string * cell =>
                   (if negb (String.eqb (fst cv) k) && has_column left (fst cv)
                       && has_column right (fst cv)
                    then String.append (fst cv) "_x" else fst cv, snd cv)) l = l).
  { intros l Hn. apply map_id_in. intros [n v] Hin. simpl.
    rewrite Hboth; [reflexivity|]. left. apply Hn. apply in_map_iff. now exists (n, v). }
  assert (Hrn : forall (g : string -> cell),
            map (fun c => (if negb (String.eqb c k) && has_column left c && has_column right c
                           then String.append c "_y" else c, g c))
                (filter (fun c => negb (String.eqb c k)) (columns right))
            = map (fun c => (c, g c))
                  (filter (fun c => negb (String.eqb c k)) (columns right))).
  { intros g. apply map_ext_in. intros c Hc. apply filter_In in Hc.
    rewrite Hboth; [reflexivity|]. right. now apply mem_In. }
  f_equal. f_equal.
  - f_equal.
    + apply map_id_in. intros c Hc. rewrite Hboth; [reflexivity|]. left. now apply mem_In.
    + apply map_id_in. intros c Hc. apply filter_In in Hc.
      rewrite Hboth; [reflexivity|]. right. now apply mem_In.
  - apply flat_map_agree. intros l Hin.
    rewrite (Hlname l (fun n Hn => Hnames l n Hin Hn)).
    destruct (filter _ (rows right)) as [|m ms].
    + now rewrite Hrn.
    + apply map_ext. intros m'. now rewrite Hrn.
Qed.

Section Closed.
Variable py_int : string -> option Z.

(** Filling a column that holds integers in every row changes nothing. *)
Lemma fill_int_id (c : string) (df : DataFrame) :
  has_column df c = true ->
  (forall r, In r (rows df) -> In c (map fst r) /\ exists n, get r c = Int n) ->
  fill_int py_int c df = Some df.
Proof.
  intros Hc Hrows. unfold fill_int.
  rewrite (map_opt_some _ (fun x => x)).
  - rewrite map_id. simpl. f_equal. unfold assign_values, column. rewrite Hc.
    rewrite (combine_map_self (fun r => get r c)
               (fun rv : Row * cell => set (fst rv) c (snd rv))).
    simpl. rewrite (map_id_in _ (rows df)); [apply frame_eta|].
    intros r Hr. apply set_get_same. now apply Hrows.
  - intros x Hx. unfold column in Hx. apply in_map_iff in Hx.
    destruct Hx as [r [<- Hr]]. destruct (Hrows r Hr) as [_ [n ->]]. reflexivity.
Qed.

Lemma fill_int_all_id (cols : list string) (df : DataFrame) :
  (forall c, In c cols ->
     has_column df c = true
     /\ forall r, In r (rows df) -> In c (map fst r) /\ exists n, get r c = Int n) ->
  fill_int_all py_int cols df = Some df.
Proof.
  induction cols as [|c cols IH]; intros H; simpl; [reflexivity|].
  destruct (H c (or_introl eq_refl)) as [Hc Hr].
  rewrite Hc, (fill_int_id c df Hc Hr). apply IH.
  intros c' Hc'. apply H. now right.
Qed.

Lemma feature_cols_of_frame (items : list (string * list cell)) (patients : list cell) :
  ~ In key (map fst items) ->
  filter (fun c => negb (String.eqb c "admission_key"))
         (columns (feature_frame items patients))
  = map fst items.
Proof.
  intros Hk. simpl. apply filter_all. intros c Hc.
  apply negb_true_iff. apply String.eqb_neq. intros ->. contradiction.
Qed.

(** The table that one pass writes, when every record of the file joins
    with exactly one row of the feature table. *)
Lemma add_columns_closed (items : list (string * list cell)) (patients : list cell)
      (file : DataFrame) :
  wf file ->
  has_column file key = true ->
  NoDup (map fst items) ->
  ~ In key (map fst items) ->
  (forall l, In l (rows file) ->
     exists p, filter (fun q => cell_eqb q (get l key)) patients = [p]) ->
  add_columns py_int file (feature_frame items patients)
  = Some (merged_frame items patients file).
Proof.
  intros Hwf Hkey Hnd Hk Hone.
  unfold add_columns. cbv zeta.
  rewrite (feature_cols_of_frame items patients Hk).
  rewrite (drop_existing (map fst items) file Hwf).
  set (fcols := map fst items) in *.
  set (base := mkFrame (filter (fun c => negb (mem c fcols)) (columns file))
                       (map (keep_other fcols) (rows file))).
  assert (Hbk : has_column base key = true).
  { apply mem_In. apply filter_In. split; [now apply mem_In|].
    apply negb_true_iff. now apply mem_false. }
  assert (Hfk : has_column (feature_frame items patients) key = true) by reflexivity.
  assert (Hfc : forall c, c <> key -> has_column (feature_frame items patients) c = mem c fcols).
  { intros c Hc. unfold has_column, feature_frame, mem. simpl.
    apply String.eqb_neq in Hc. now rewrite Hc. }
  rewrite (merge_left_disjoint base (feature_frame items patients) key Hbk Hfk).
  - rewrite (feature_cols_of_frame items patients Hk). fold fcols.
    assert (Hrows :
      flat_map (fun l =>
         match filter (fun r => cell_eqb (get r key) (get l key))
                      (rows (feature_frame items patients)) with
         | [] => [l ++ map (fun c => (c, NaN)) fcols]
         | ms => map (fun m => l ++ map (fun c => (c, get m c)) fcols) ms
         end) (rows base)
      = map (merged_row items patients) (rows file)).
    { unfold base. cbn [rows]. rewrite flat_map_concat_map, map_map, <- flat_map_concat_map.
      apply flat_map_singleton. intros l Hl.
      unfold feature_frame. cbn [rows].
      rewrite (filter_map_comm (fun r => cell_eqb (get r key) (get (keep_other fcols l) key))).
      cbn [get]. change (String.eqb key key) with true. cbv iota.
      rewrite (get_keep_other fcols l key Hk).
      destruct (Hone l Hl) as [p Hp]. rewrite Hp. cbn [map].
      unfold merged_row, representative. fold fcols. rewrite Hp. cbn [hd].
      f_equal. f_equal.
      transitivity (map (fun c => (c, get (feature_cells items p) c)) fcols).
      - apply map_ext_in. intros c Hc. f_equal. cbn [get].
        destruct (String.eqb key c) eqn:E; [|reflexivity].
        apply String.eqb_eq in E. subst c. contradiction.
      - unfold feature_cells, fcols.
        apply (feature_cells_get (fun it => flag (snd it) p) items Hnd). }
    rewrite Hrows.
    change (mkFrame (columns base ++ fcols) (map (merged_row items patients) (rows file)))
      with (merged_frame items patients file).
    apply fill_int_all_id. intros c Hc. split.
    + apply mem_In. apply in_app_iff. now right.
    + intros r Hr. cbn [rows merged_frame] in Hr. apply in_map_iff in Hr.
      destruct Hr as [l [<- Hl]]. unfold merged_row. split.
      * rewrite map_app, feature_cells_names. apply in_app_iff. now right.
      * rewrite get_app.
        assert (Hm : mem c (map fst (keep_other (map fst items) l)) = false).
        { apply mem_false. intros Hin. apply keep_other_names in Hin. tauto. }
        rewrite Hm. now apply feature_cells_int.
  - intros c Hc Hb. rewrite (Hfc c Hc). apply mem_false. intros Hin.
    apply mem_In in Hb. unfold base in Hb. cbn [columns] in Hb.
    apply filter_In in Hb. destruct Hb as [_ Hb].
    apply negb_true_iff, mem_false in Hb. contradiction.
  - intros l n Hl Hn. unfold base in Hl. cbn [rows] in Hl. apply in_map_iff in Hl.
    destruct Hl as [l0 [<- Hl0]]. apply keep_other_names in Hn. destruct Hn as [Hn Hnf].
    apply mem_In. unfold base. cbn [columns]. apply filter_In. split.
    + destruct Hwf as [_ Hrows]. rewrite Forall_forall in Hrows. now rewrite <- (Hrows l0 Hl0).
    + apply negb_true_iff. now apply mem_false.
Qed.
End Closed.

(** *** Running a pass on its own output *)

Lemma get_merged_row (items : list (string * list cell)) (patients : list cell)
      (l : Row) (c : string) :
  ~ In c (map fst items) -> get (merged_row items patients l) c = get l c.
Proof.
  intros Hc. unfold merged_row. rewrite get_app.
  destruct (mem c (map fst (keep_other (map fst items) l))) eqn:E.
  - now apply get_keep_other.
  - apply mem_false in E. rewrite get_absent by (now rewrite feature_cells_names).
    symmetry. apply get_absent. intros Hin. apply E. apply keep_other_names. tauto.
Qed.

Lemma keep_other_idem (fcols : list string) (l : Row) :
  keep_other fcols (keep_other fcols l) = keep_other fcols l.
Proof.
  unfold keep_other. apply filter_all. intros cv Hin. apply filter_In in Hin. tauto.
Qed.

Lemma keep_other_merged_row (items : list (string * list cell)) (patients : list cell)
      (l : Row) :
  keep_other (map fst items) (merged_row items patients l) = keep_other (map fst items) l.
Proof.
  unfold merged_row, keep_other at 1. rewrite filter_app.
  fold (keep_other (map fst items) (keep_other (map fst items) l)).
  rewrite keep_other_idem.
  rewrite (filter_none _ (feature_cells _ _)); [apply app_nil_r|].
  intros [n v] Hin. simpl. apply negb_false_iff. apply mem_In.
  rewrite <- (feature_cells_names items (representative patients (get l "admission_key"))).
  apply in_map_iff. now exists (n, v).
Qed.

(** Merging the same features into the merged table gives the merged
    table. *)
Lemma merged_frame_idem (items : list (string * list cell)) (patients : list cell)
      (file : DataFrame) :
  ~ In key (map fst items) ->
  merged_frame items patients (merged_frame items patients file)
  = merged_frame items patients file.
Proof.
  intros Hk. unfold merged_frame at 1 3. cbn [columns rows merged_frame]. f_equal.
  - f_equal. rewrite filter_app.
    rewrite (filter_none _ (map fst items)).
    + rewrite app_nil_r. apply filter_all. intros c Hc. apply filter_In in Hc. tauto.
    + intros c Hc. apply negb_false_iff. now apply mem_In.
  - rewrite map_map. apply map_ext. intros l.
    unfold merged_row at 1. rewrite keep_other_merged_row.
    now rewrite (get_merged_row items patients l key Hk).
Qed.

Lemma NoDup_filter {A : Type} (p : A -> bool) (l : list A) : NoDup l -> NoDup (filter p l).
Proof.
  induction 1 as [|x l Hx Hnd IH]; simpl; [constructor|].
  destruct (p x); [|exact IH]. constructor; [|exact IH].
  intros Hin. apply filter_In in Hin. tauto.
Qed.

Lemma merged_frame_wf (items : list (string * list cell)) (patients : list cell)
      (file : DataFrame) :
  wf file -> NoDup (map fst items) -> wf (merged_frame items patients file).
Proof.
  intros [Hnd Hrows] Hitems. split.
  - cbn [columns merged_frame]. apply NoDup_app.
    + now apply NoDup_filter.
    + exact Hitems.
    + intros c Hc Hin. apply filter_In in Hc. destruct Hc as [_ Hc].
      apply negb_true_iff, mem_false in Hc. contradiction.
  - cbn [rows columns merged_frame]. apply Forall_forall. intros r Hr.
    apply in_map_iff in Hr. destruct Hr as [l [<- Hl]].
    unfold merged_row. rewrite map_app, feature_cells_names. f_equal.
    unfold keep_other. rewrite (filter_names (fun c => negb (mem c (map fst items)))).
    rewrite Forall_forall in Hrows. now rewrite (Hrows l Hl).
Qed.

(** Two rows that hold the same cells outside the feature columns, and two
    frames that are the same outside the feature columns. *)
Definition same_off (fcols : list string) (r r' : Row) : Prop :=
  forall c, ~ In c fcols -> get r c = get r' c.

Definition agree (fcols : list string) (df df' : DataFrame) : Prop :=
  (forall c, ~ In c fcols -> has_column df c = has_column df' c)
  /\ Forall2 (same_off fcols) (rows df) (rows df').

Lemma Forall2_map_right {A B : Type} (R : A -> B -> Prop) (f : A -> B) (l : list A) :
  (forall x, In x l -> R x (f x)) -> Forall2 R l (map f l).
Proof.
  induction l as [|x l IH]; intros H; simpl; constructor.
  - apply H. now left.
  - apply IH. intros y Hy. apply H. now right.
Qed.

Lemma agree_merged (items : list (string * list cell)) (patients : list cell)
      (file : DataFrame) :
  agree (map fst items) file (merged_frame items patients file).
Proof.
  split.
  - intros c Hc. unfold has_column. cbn [columns merged_frame].
    apply Step7Facts.mem_iff_eq. rewrite in_app_iff, filter_In, negb_true_iff, mem_false.
    tauto.
  - cbn [rows merged_frame]. apply Forall2_map_right. intros l _ c Hc.
    symmetry. now apply get_merged_row.
Qed.

Section Agreement.
Variable fcols : list string.

Lemma agree_assign (c : string) (f : Row -> cell) (df df' : DataFrame) :
  agree fcols df df' ->
  (forall r r', same_off fcols r r' -> f r = f r') ->
  agree fcols (assign c f df) (assign c f df').
Proof.
  intros [Hcols Hrows] Hf. split.
  - intros c0 Hc0. unfold has_column, assign. cbn [columns].
    fold (has_column df c) (has_column df' c).
    destruct (in_dec string_dec c fcols) as [Hin | Hnin].
    + assert (Hne : String.eqb c0 c = false) by (apply String.eqb_neq; congruence).
      assert (Hsnoc : forall l, mem c0 (l ++ [c]) = mem c0 l).
      { intros l. unfold mem. rewrite existsb_app. simpl. rewrite Hne. now rewrite !orb_false_r. }
      destruct (has_column df c), (has_column df' c); rewrite ?Hsnoc; apply (Hcols c0 Hc0).
    + rewrite <- (Hcols c Hnin). destruct (has_column df c).
      * apply (Hcols c0 Hc0).
      * unfold mem. rewrite !existsb_app. f_equal. apply (Hcols c0 Hc0).
  - unfold assign. cbn [rows]. induction Hrows as [|r r' l l' Hr Hl IH]; simpl; constructor.
    + intros c0 Hc0. rewrite (Hf r r' Hr).
      destruct (string_dec c0 c) as [-> | Hne].
      * now rewrite !get_set_same.
      * rewrite !get_set_other by assumption. now apply Hr.
    + exact IH.
Qed.

Lemma agree_select (p : Row -> bool) (df df' : DataFrame) :
  agree fcols df df' ->
  (forall r r', same_off fcols r r' -> p r = p r') ->
  agree fcols (select p df) (select p df').
Proof.
  intros [Hcols Hrows] Hp. split; [exact Hcols|].
  unfold select. cbn [rows]. induction Hrows as [|r r' l l' Hr Hl IH]; simpl; [constructor|].
  rewrite <- (Hp r r' Hr). destruct (p r); [constructor; assumption | exact IH].
Qed.

Lemma agree_map {B : Type} (g : Row -> B) (l l' : list Row) :
  Forall2 (same_off fcols) l l' ->
  (forall r r', same_off fcols r r' -> g r = g r') ->
  map g l = map g l'.
Proof.
  intros H Hg. induction H as [|r r' l l' Hr Hl IH]; simpl; [reflexivity|].
  now rewrite (Hg r r' Hr), IH.
Qed.

Lemma agree_filter (p : Row -> bool) (l l' : list Row) :
  Forall2 (same_off fcols) l l' ->
  (forall r r', same_off fcols r r' -> p r = p r') ->
  Forall2 (same_off fcols) (filter p l) (filter p l').
Proof.
  intros H Hp. induction H as [|r r' l l' Hr Hl IH]; simpl; [constructor|].
  rewrite <- (Hp r r' Hr). destruct (p r); [constructor; assumption | exact IH].
Qed.

Lemma agree_column (c : string) (df df' : DataFrame) :
  agree fcols df df' -> ~ In c fcols -> column df c = column df' c.
Proof.
  intros [_ Hrows] Hc. unfold column. apply agree_map; [exact Hrows|].
  intros r r' Hr. now apply Hr.
Qed.
End Agreement.

End MergeFacts.


(** ** Running the extraction passes twice (步骤3, 步骤4) *)

Module RerunFacts.

Import Frame Merge FrameFacts MergeFacts.
Local Open Scope list_scope.

Fixpoint distinct (l : list string) : bool :=
  match l with
  | [] => true
  | x :: t => negb (mem x t) && distinct t
  end.

Lemma distinct_NoDup (l : list string) : distinct l = true -> NoDup l.
Proof.
  induction l as [|x t IH]; simpl; intros H; [constructor|].
  apply andb_true_iff in H. destruct H as [Hx Ht].
  constructor; [|now apply IH].
  apply negb_true_iff in Hx. now apply mem_false.
Qed.

Lemma column_assign_other (c c' : string) (f : Row -> cell) (df : DataFrame) :
  c' <> c -> column (assign c f df) c' = column df c'.
Proof.
  intros Hne. unfold column, assign. cbn [rows]. rewrite map_map.
  apply map_ext. intros r. now apply get_set_other.
Qed.

Lemma one_match_of_unique (file : DataFrame) (l : Row) :
  In l (rows file) ->
  exists p, filter (fun q => cell_eqb q (get l key)) (unique (column file key)) = [p].
Proof.
  intros Hl. apply unique_match. unfold column. apply in_map_iff. now exists l.
Qed.

(** *** 步骤4 *)

Section Comorbidities.
Import Step4.
Variable float_str : Q -> string.
Variable py_int : string -> option Z.

Definition fcols4 : list string := map var_code COMORBIDITIES.

Definition items4 (file : DataFrame) : list (string * list cell) :=
  map (fun info => (var_code info,
                    patients_with_condition info (clean_disease_name float_str file)))
      COMORBIDITIES.

Definition patients4 (file : DataFrame) : list cell :=
  unique (column (clean_disease_name float_str file) key).

Lemma items4_names (file : DataFrame) : map fst (items4 file) = fcols4.
Proof. unfold items4, fcols4. rewrite map_map. reflexivity. Qed.

Lemma fcols4_NoDup : NoDup fcols4.
Proof. apply distinct_NoDup. vm_compute. reflexivity. Qed.

Lemma fcols4_not_key : ~ In key fcols4.
Proof. apply mem_false. vm_compute. reflexivity. Qed.

Lemma fcols4_not_disease_name : ~ In "disease_name"%string fcols4.
Proof. apply mem_false. vm_compute. reflexivity. Qed.

Lemma patients4_column (file : DataFrame) : patients4 file = unique (column file key).
Proof.
  unfold patients4, clean_disease_name. rewrite column_assign_other by discriminate.
  reflexivity.
Qed.

(** The feature table of the pass is a feature frame. *)
Lemma extract_comorbidities_frame (file features : DataFrame) :
  extract_comorbidities float_str file = Some features ->
  features = feature_frame (items4 file) (patients4 file).
Proof.
  unfold extract_comorbidities.
  destruct (negb (has_column file "admission_key")); [discriminate|].
  destruct (negb (has_column file "disease_name")); [discriminate|].
  destruct (unique _) as [|p ps] eqn:Hu; [discriminate|].
  intros [= <-]. unfold feature_frame, patients4. rewrite Hu. reflexivity.
Qed.

Lemma extract_comorbidities_defined (file : DataFrame) :
  has_column file "admission_key" = true ->
  has_column file "disease_name" = true ->
  rows file <> [] ->
  exists features, extract_comorbidities float_str file = Some features.
Proof.
  intros Hk Hd Hne. unfold extract_comorbidities. rewrite Hk, Hd. simpl.
  destruct (unique _) as [|p ps] eqn:Hu; [|eexists; reflexivity].
  exfalso. revert Hu. apply unique_nonempty.
  unfold column, clean_disease_name, assign. cbn [rows]. rewrite map_map.
  destruct (rows file); [congruence | discriminate].
Qed.

(** The pass reads nothing of the feature columns. *)
Lemma extract_comorbidities_agree (file file' : DataFrame) :
  agree fcols4 file file' ->
  extract_comorbidities float_str file' = extract_comorbidities float_str file.
Proof.
  intros Hag. pose proof Hag as [Hcols _].
  assert (Hclean : agree fcols4 (clean_disease_name float_str file)
                                (clean_disease_name float_str file')).
  { apply agree_assign; [exact Hag|]. intros r r' Hr.
    now rewrite (Hr "disease_name"%string fcols4_not_disease_name). }
  unfold extract_comorbidities.
  rewrite <- (Hcols key fcols4_not_key), <- (Hcols "disease_name"%string fcols4_not_disease_name).
  rewrite <- (agree_column fcols4 key _ _ Hclean fcols4_not_key).
  assert (Hrow : forall p, feature_row (clean_disease_name float_str file') p
                           = feature_row (clean_disease_name float_str file) p).
  { intros p. unfold feature_row. f_equal. apply map_ext. intros info. f_equal. f_equal.
    unfold patients_with_condition. symmetry.
    destruct Hclean as [_ Hrows].
    apply (agree_map fcols4).
    - apply agree_filter; [exact Hrows|]. intros r r' Hr. unfold disease_text.
      now rewrite (Hr "disease_name"%string fcols4_not_disease_name).
    - intros r r' Hr. apply (Hr key fcols4_not_key). }
  destruct (negb (has_column file "admission_key")); [reflexivity|].
  destruct (negb (has_column file "disease_name")); [reflexivity|].
  destruct (unique _) as [|p ps]; [reflexivity|].
  f_equal. f_equal. apply map_ext. exact Hrow.
Qed.

(** The file after one run. *)
Lemma run4_closed (file features : DataFrame) :
  wf file ->
  extract_comorbidities float_str file = Some features ->
  run float_str py_int file
  = Some (merged_frame (items4 file) (patients4 file) file).
Proof.
  intros Hwf Hex. unfold run, add_comorbidities_to_original. rewrite Hex.
  rewrite (extract_comorbidities_frame file features Hex).
  apply add_columns_closed.
  - exact Hwf.
  - unfold extract_comorbidities in Hex.
    destruct (has_column file "admission_key"); [reflexivity | discriminate].
  - rewrite items4_names. apply fcols4_NoDup.
  - rewrite items4_names. apply fcols4_not_key.
  - intros l Hl. rewrite patients4_column. now apply one_match_of_unique.
Qed.

(** Running the pass on the file it wrote gives that file again. *)
Lemma run4_rerun (file file1 : DataFrame) :
  wf file ->
  run float_str py_int file = Some file1 ->
  run float_str py_int file1 = Some file1.
Proof.
  intros Hwf Hrun.
  destruct (extract_comorbidities float_str file) as [features|] eqn:Hex.
  2:{ unfold run in Hrun. rewrite Hex in Hrun. discriminate. }
  rewrite (run4_closed file features Hwf Hex) in Hrun. injection Hrun as <-.
  set (file1 := merged_frame (items4 file) (patients4 file) file).
  assert (Hag : agree fcols4 file file1).
  { unfold file1. rewrite <- (items4_names file). apply agree_merged. }
  assert (Hex1 : extract_comorbidities float_str file1 = Some features)
    by (now rewrite (extract_comorbidities_agree file file1 Hag)).
  assert (Hwf1 : wf file1).
  { apply merged_frame_wf; [exact Hwf|]. rewrite items4_names. apply fcols4_NoDup. }
  rewrite (run4_closed file1 features Hwf1 Hex1).
  f_equal.
  assert (Hi : items4 file1 = items4 file).
  { unfold items4.
    apply map_ext. intros info. f_equal.
    unfold patients_with_condition.
    assert (Hclean : agree fcols4 (clean_disease_name float_str file)
                                  (clean_disease_name float_str file1)).
    { apply agree_assign; [exact Hag|]. intros r r' Hr.
      now rewrite (Hr "disease_name"%string fcols4_not_disease_name). }
    destruct Hclean as [_ Hrows]. symmetry.
    apply (agree_map fcols4).
    - apply agree_filter; [exact Hrows|]. intros r r' Hr. unfold disease_text.
      now rewrite (Hr "disease_name"%string fcols4_not_disease_name).
    - intros r r' Hr. apply (Hr key fcols4_not_key). }
  assert (Hp : patients4 file1 = patients4 file).
  { rewrite !patients4_column. f_equal. symmetry.
    apply (agree_column fcols4); [exact Hag | apply fcols4_not_key]. }
  rewrite Hi, Hp. unfold file1. apply merged_frame_idem.
  rewrite items4_names. apply fcols4_not_key.
Qed.
End Comorbidities.

(** *** 步骤3 *)

Section Medications.
Import Step3.
Variable float_str : Q -> string.
Variable py_int : string -> option Z.
Variable re_search : string -> string -> bool.

Definition fcols3 : list string :=
  map var_name ORAL_MEDICATIONS ++ map var_name INSULIN_MEDICATIONS.

(** The valid orders of a file, names cleaned. *)
Definition valid_of (file : DataFrame) : DataFrame :=
  valid_orders (clean_names float_str file).

Definition items3 (file : DataFrame) : list (string * list cell) :=
  map (fun info => (var_name info, oral_patients float_str re_search info (valid_of file)))
      ORAL_MEDICATIONS
  ++ [ (var_name Rapid_insulin, rapid_patients float_str re_search (valid_of file));
       (var_name Basal_insulin,
        keyword_patients float_str re_search Basal_insulin (valid_of file));
       (var_name Dual_insulin, dual_patients float_str re_search (valid_of file));
       (var_name Premixed_insulin,
        keyword_patients float_str re_search Premixed_insulin (valid_of file)) ].

Definition patients3 (file : DataFrame) : list cell :=
  unique (column (clean_names float_str file) key).

Lemma items3_names (file : DataFrame) : map fst (items3 file) = fcols3.
Proof. reflexivity. Qed.

Lemma fcols3_NoDup : NoDup fcols3.
Proof. apply distinct_NoDup. vm_compute. reflexivity. Qed.

Lemma fcols3_not_key : ~ In key fcols3.
Proof. apply mem_false. vm_compute. reflexivity. Qed.

Lemma fcols3_not_status : ~ In "order_status"%string fcols3.
Proof. apply mem_false. vm_compute. reflexivity. Qed.

Lemma fcols3_not_trade : ~ In trade_name_col fcols3.
Proof. apply mem_false. vm_compute. reflexivity. Qed.

Lemma fcols3_not_common : ~ In common_name_col fcols3.
Proof. apply mem_false. vm_compute. reflexivity. Qed.

Lemma fcols3_not_inn : ~ In inn_name_col fcols3.
Proof. apply mem_false. vm_compute. reflexivity. Qed.

Lemma fcols3_not_admin : ~ In admin_method_col fcols3.
Proof. apply mem_false. vm_compute. reflexivity. Qed.

(** One round of the cleaning loop. *)
Definition clean_one (df : DataFrame) (col : string) : DataFrame :=
  if has_column df col
  then assign col (fun r => Str (Text.strip (astype_str float_str (get r col)))) df
  else df.

Lemma clean_names_unfold (file : DataFrame) :
  clean_names float_str file
  = clean_one (clean_one (clean_one (clean_one file trade_name_col) common_name_col)
                         inn_name_col) admin_method_col.
Proof. reflexivity. Qed.

Lemma clean_one_column (df : DataFrame) (col c : string) :
  c <> col -> column (clean_one df col) c = column df c.
Proof.
  intros Hne. unfold clean_one. destruct (has_column df col); [|reflexivity].
  now apply column_assign_other.
Qed.

Lemma clean_one_len (df : DataFrame) (col : string) :
  List.length (rows (clean_one df col)) = List.length (rows df).
Proof.
  unfold clean_one. destruct (has_column df col); [|reflexivity].
  unfold assign. cbn [rows]. apply length_map.
Qed.

Lemma clean_names_column (file : DataFrame) (c : string) :
  c <> trade_name_col -> c <> common_name_col -> c <> inn_name_col ->
  c <> admin_method_col ->
  column (clean_names float_str file) c = column file c.
Proof.
  intros H1 H2 H3 H4. rewrite clean_names_unfold.
  now rewrite !clean_one_column.
Qed.

Lemma patients3_column (file : DataFrame) : patients3 file = unique (column file key).
Proof.
  unfold patients3. rewrite clean_names_column; [reflexivity | discriminate ..].
Qed.

Lemma clean_one_agree (fcols : list string) (df df' : DataFrame) (col : string) :
  ~ In col fcols -> agree fcols df df' -> agree fcols (clean_one df col) (clean_one df' col).
Proof.
  intros Hc Hag. unfold clean_one. pose proof Hag as [Hcols _].
  rewrite <- (Hcols col Hc). destruct (has_column df col); [|exact Hag].
  apply agree_assign; [exact Hag|]. intros r r' Hr. now rewrite (Hr col Hc).
Qed.

Lemma valid_of_agree (file file' : DataFrame) :
  agree fcols3 file file' -> agree fcols3 (valid_of file) (valid_of file').
Proof.
  intros Hag. unfold valid_of, valid_orders.
  assert (Hclean : agree fcols3 (clean_names float_str file) (clean_names float_str file')).
  { rewrite !clean_names_unfold.
    apply clean_one_agree; [apply fcols3_not_admin|].
    apply clean_one_agree; [apply fcols3_not_inn|].
    apply clean_one_agree; [apply fcols3_not_common|].
    apply clean_one_agree; [apply fcols3_not_trade | exact Hag]. }
  pose proof Hclean as [Hcols _].
  rewrite <- (Hcols "order_status"%string fcols3_not_status).
  destruct (has_column (clean_names float_str file) "order_status"); [|exact Hclean].
  apply agree_select; [exact Hclean|]. intros r r' Hr.
  now rewrite (Hr "order_status"%string fcols3_not_status).
Qed.

(** Rewriting the cells a mask reads, from one row to a row that agrees
    with it. *)
Ltac same_cells Hr :=
  unfold text;
  rewrite ?(Hr inn_name_col fcols3_not_inn), ?(Hr trade_name_col fcols3_not_trade),
    ?(Hr common_name_col fcols3_not_common), ?(Hr admin_method_col fcols3_not_admin),
    ?(Hr key fcols3_not_key);
  reflexivity.

Lemma keys_where_agree (mask : Row -> bool) (df df' : DataFrame) :
  agree fcols3 df df' ->
  (forall r r', same_off fcols3 r r' -> mask r = mask r') ->
  keys_where mask df = keys_where mask df'.
Proof.
  intros [_ Hrows] Hm. unfold keys_where. apply (agree_map fcols3).
  - now apply agree_filter.
  - intros r r' Hr. apply (Hr key fcols3_not_key).
Qed.

Lemma keyword_patients_agree (info : Medication) (df df' : DataFrame) :
  agree fcols3 df df' ->
  keyword_patients float_str re_search info df
  = keyword_patients float_str re_search info df'.
Proof.
  intros Hag. pose proof Hag as [Hcols _]. unfold keyword_patients.
  rewrite <- (Hcols inn_name_col fcols3_not_inn).
  apply flat_map_ext. intros keyword.
  destruct (has_column df inn_name_col); [|reflexivity].
  apply keys_where_agree; [exact Hag|]. intros r r' Hr. same_cells Hr.
Qed.

Lemma special_matched_set_agree (df df' : DataFrame) :
  agree fcols3 df df' ->
  special_matched_set float_str re_search df = special_matched_set float_str re_search df'.
Proof.
  intros Hag. pose proof Hag as [Hcols _]. unfold special_matched_set.
  rewrite <- (Hcols trade_name_col fcols3_not_trade),
          <- (Hcols common_name_col fcols3_not_common).
  f_equal.
  - destruct (has_column df trade_name_col); [|reflexivity].
    apply keys_where_agree; [exact Hag|]. intros r r' Hr. same_cells Hr.
  - destruct (has_column df common_name_col); [|reflexivity].
    apply keys_where_agree; [exact Hag|]. intros r r' Hr. same_cells Hr.
Qed.

Lemma oral_patients_agree (info : Medication) (df df' : DataFrame) :
  agree fcols3 df df' ->
  oral_patients float_str re_search info df = oral_patients float_str re_search info df'.
Proof.
  intros Hag. unfold oral_patients.
  rewrite (keyword_patients_agree info df df' Hag),
    (special_matched_set_agree df df' Hag). reflexivity.
Qed.

Lemma rapid_patients_agree (df df' : DataFrame) :
  agree fcols3 df df' ->
  rapid_patients float_str re_search df = rapid_patients float_str re_search df'.
Proof.
  intros Hag. pose proof Hag as [Hcols _]. unfold rapid_patients.
  rewrite <- (Hcols inn_name_col fcols3_not_inn),
          <- (Hcols common_name_col fcols3_not_common),
          <- (Hcols admin_method_col fcols3_not_admin).
  f_equal.
  - apply flat_map_ext. intros keyword.
    destruct (has_column df inn_name_col); [|reflexivity].
    apply keys_where_agree; [exact Hag|]. intros r r' Hr. same_cells Hr.
  - destruct (has_column df inn_name_col && has_column df common_name_col
              && has_column df admin_method_col); [|reflexivity].
    apply keys_where_agree; [exact Hag|]. intros r r' Hr. same_cells Hr.
Qed.

Lemma dual_patients_agree (df df' : DataFrame) :
  agree fcols3 df df' ->
  dual_patients float_str re_search df = dual_patients float_str re_search df'.
Proof.
  intros Hag. pose proof Hag as [Hcols _]. unfold dual_patients.
  rewrite <- (Hcols inn_name_col fcols3_not_inn),
          <- (Hcols common_name_col fcols3_not_common).
  destruct (has_column df inn_name_col && has_column df common_name_col); [|reflexivity].
  apply keys_where_agree; [exact Hag|]. intros r r' Hr. same_cells Hr.
Qed.

Lemma items3_agree (file file' : DataFrame) :
  agree fcols3 file file' -> items3 file = items3 file'.
Proof.
  intros Hag. apply valid_of_agree in Hag. unfold items3.
  rewrite (rapid_patients_agree _ _ Hag), (dual_patients_agree _ _ Hag),
    (keyword_patients_agree Basal_insulin _ _ Hag),
    (keyword_patients_agree Premixed_insulin _ _ Hag).
  f_equal. apply map_ext. intros info. now rewrite (oral_patients_agree info _ _ Hag).
Qed.
End Medications.

Section MedicationRuns.
Import Step3.
Variable float_str : Q -> string.
Variable py_int : string -> option Z.
Variable re_search : string -> string -> bool.

(** [extract_medication_features] in terms of the feature frame. *)
Lemma extract_medication_features_char (file : DataFrame) :
  extract_medication_features float_str re_search file
  = if negb (has_column file key) then None
    else match patients3 float_str file with
         | [] => None
         | _ => if negb (special_report_ok float_str re_search (valid_of float_str file))
                then None
                else Some (feature_frame (items3 float_str re_search file)
                                         (patients3 float_str file))
         end.
Proof.
  unfold extract_medication_features, patients3.
  destruct (negb (has_column file key)); [reflexivity|].
  destruct (unique _) as [|p ps]; [reflexivity|].
  fold (valid_of float_str file).
  destruct (negb (special_report_ok float_str re_search (valid_of float_str file)));
    reflexivity.
Qed.

Lemma special_report_ok_agree (df df' : DataFrame) :
  agree fcols3 df df' ->
  special_report_ok float_str re_search df = special_report_ok float_str re_search df'.
Proof.
  intros Hag. pose proof Hag as [Hcols _]. unfold special_report_ok.
  rewrite (special_matched_set_agree float_str re_search df df' Hag).
  rewrite <- (Hcols inn_name_col fcols3_not_inn),
          <- (Hcols common_name_col fcols3_not_common),
          <- (Hcols admin_method_col fcols3_not_admin),
          <- (Hcols trade_name_col fcols3_not_trade).
  reflexivity.
Qed.

Lemma patients3_agree (file file' : DataFrame) :
  agree fcols3 file file' -> patients3 float_str file = patients3 float_str file'.
Proof.
  intros Hag. rewrite !patients3_column. f_equal.
  apply (agree_column fcols3); [exact Hag | apply fcols3_not_key].
Qed.

(** The pass reads nothing of the feature columns. *)
Lemma extract_medication_features_agree (file file' : DataFrame) :
  agree fcols3 file file' ->
  extract_medication_features float_str re_search file'
  = extract_medication_features float_str re_search file.
Proof.
  intros Hag. pose proof Hag as [Hcols _].
  rewrite !extract_medication_features_char.
  rewrite <- (Hcols key fcols3_not_key).
  rewrite <- (patients3_agree file file' Hag).
  rewrite <- (items3_agree float_str re_search file file' Hag).
  rewrite <- (special_report_ok_agree _ _ (valid_of_agree float_str file file' Hag)).
  reflexivity.
Qed.

Lemma extract_medication_features_frame (file features : DataFrame) :
  extract_medication_features float_str re_search file = Some features ->
  has_column file key = true
  /\ features = feature_frame (items3 float_str re_search file) (patients3 float_str file).
Proof.
  rewrite extract_medication_features_char.
  destruct (has_column file key); [|discriminate]. simpl.
  destruct (patients3 float_str file) as [|p ps]; [discriminate|].
  destruct (negb _); [discriminate|]. intros [= <-]. auto.
Qed.

(** The file after one run. *)
Lemma run3_closed (file features : DataFrame) :
  wf file ->
  extract_medication_features float_str re_search file = Some features ->
  run float_str py_int re_search file
  = Some (merged_frame (items3 float_str re_search file) (patients3 float_str file) file).
Proof.
  intros Hwf Hex. unfold run, add_features_to_original. rewrite Hex.
  destruct (extract_medication_features_frame file features Hex) as [Hk ->].
  apply add_columns_closed.
  - exact Hwf.
  - exact Hk.
  - apply fcols3_NoDup.
  - apply fcols3_not_key.
  - intros l Hl. rewrite patients3_column. now apply one_match_of_unique.
Qed.

(** Running the pass on the file it wrote gives that file again. *)
Lemma run3_rerun (file file1 : DataFrame) :
  wf file ->
  run float_str py_int re_search file = Some file1 ->
  run float_str py_int re_search file1 = Some file1.
Proof.
  intros Hwf Hrun.
  destruct (extract_medication_features float_str re_search file) as [features|] eqn:Hex.
  2:{ unfold run in Hrun. rewrite Hex in Hrun. discriminate. }
  rewrite (run3_closed file features Hwf Hex) in Hrun. injection Hrun as <-.
  set (file1 := merged_frame (items3 float_str re_search file) (patients3 float_str file) file).
  assert (Hag : agree fcols3 file file1)
    by (apply (agree_merged (items3 float_str re_search file))).
  assert (Hex1 : extract_medication_features float_str re_search file1 = Some features)
    by (now rewrite (extract_medication_features_agree file file1 Hag)).
  assert (Hwf1 : wf file1) by (apply merged_frame_wf; [exact Hwf | apply fcols3_NoDup]).
  rewrite (run3_closed file1 features Hwf1 Hex1).
  rewrite <- (items3_agree float_str re_search file file1 Hag).
  rewrite <- (patients3_agree file file1 Hag).
  f_equal. apply merged_frame_idem. apply fcols3_not_key.
Qed.
End MedicationRuns.

Lemma feature_cells_bit (items : list (string * list cell)) (p : cell) (c : string) :
  In c (map fst items) ->
  get (feature_cells items p) c = Int 0 \/ get (feature_cells items p) c = Int 1.
Proof.
  unfold feature_cells. induction items as [|it items IH]; intros H; [destruct H|].
  simpl. destruct (String.eqb (fst it) c) eqn:E.
  - unfold flag. destruct (isin (snd it) p); auto.
  - apply IH. destruct H as [H | H]; [|exact H]. apply String.eqb_neq in E. congruence.
Qed.

(** Every feature cell of the written table is 0 or 1: no missing value
    is left. *)
Lemma merged_frame_bits (items : list (string * list cell)) (patients : list cell)
      (file : DataFrame) (r : Row) (c : string) :
  In r (rows (merged_frame items patients file)) -> In c (map fst items) ->
  get r c = Int 0 \/ get r c = Int 1.
Proof.
  intros Hr Hc. cbn [rows merged_frame] in Hr. apply in_map_iff in Hr.
  destruct Hr as [l [<- _]]. unfold merged_row. rewrite get_app.
  assert (Hm : mem c (map fst (keep_other (map fst items) l)) = false).
  { apply mem_false. intros Hin. apply keep_other_names in Hin. tauto. }
  rewrite Hm. now apply feature_cells_bit.
Qed.

(** What a completed run of a pass with the feature columns [fcols]
    guarantees for the file [file1] it wrote from [file]: the columns are
    those of [file] that are not features, then the features, once each;
    every feature cell is 0 or 1. *)
Definition written (fcols : list string) (file file1 : DataFrame) : Prop :=
  wf file1
  /\ columns file1 = filter (fun c => negb (mem c fcols)) (columns file) ++ fcols
  /\ List.length (rows file1) = List.length (rows file)
  /\ forall r c, In r (rows file1) -> In c fcols -> get r c = Int 0 \/ get r c = Int 1.

Lemma merged_frame_written (items : list (string * list cell)) (patients : list cell)
      (file : DataFrame) :
  wf file -> NoDup (map fst items) ->
  written (map fst items) file (merged_frame items patients file).
Proof.
  intros Hwf Hnd. split; [now apply merged_frame_wf|]. split; [reflexivity|].
  split; [cbn [rows merged_frame]; apply length_map|].
  intros r c. apply merged_frame_bits.
Qed.

(** A medication table with the feature column DPP4i left from an earlier
    run, and stand-ins for the three library functions. *)
Definition example_orders : DataFrame :=
  mkFrame ["admission_key"; "inn_name"; "order_status"; "DPP4i"]%string
    [ [("admission_key", Str "P1_1"); ("inn_name", Str "二甲双胍"); ("order_status", Str "已撤销");
       ("DPP4i", Int 7)];
      [("admission_key", Str "P2_1"); ("inn_name", Str " 二甲双胍 "); ("order_status", Str "已执行");
       ("DPP4i", Int 7)];
      [("admission_key", Str "P1_1"); ("inn_name", Str "甘精胰岛素"); ("order_status", Str "已撤销");
       ("DPP4i", Int 7)] ]%string.

Definition no_float_text (x : Q) : string := ""%string.
Definition no_int (s : string) : option Z := None.

Lemma example_orders_wf : wf example_orders.
Proof.
  split; [apply distinct_NoDup; reflexivity | repeat constructor].
Qed.

Lemma example_diagnoses_wf : wf Step4Facts.example_diagnoses.
Proof.
  split; [apply distinct_NoDup; reflexivity | repeat constructor].
Qed.

(** C7.  Both passes are idempotent on their own output.  When a run of
    步骤4 (comorbidities) or of 步骤3 (medication classes) on a well-formed
    file completes and writes [file1], then a second run on [file1]
    completes and writes [file1] again: the same columns and the same
    values.  [file1] has the columns of the file that are not feature
    columns followed by the feature columns, each once (feature columns
    the file already had are replaced), as many rows as the file, and 0 or
    1 in every feature cell.  A file with the columns admission_key and
    disease_name and at least one record is one on which 步骤4 completes. *)
Theorem C7_extraction_rerun :
  forall (float_str : Q -> string) (py_int : string -> option Z)
         (re_search : string -> string -> bool) (file : DataFrame),
    wf file ->
    (forall file1,
        Step4.run float_str py_int file = Some file1 ->
        Step4.run float_str py_int file1 = Some file1 /\ written fcols4 file file1)
    /\ (forall file1,
          Step3.run float_str py_int re_search file = Some file1 ->
          Step3.run float_str py_int re_search file1 = Some file1
          /\ written fcols3 file file1)
    /\ (has_column file "admission_key" = true ->
        has_column file "disease_name" = true ->
        rows file <> [] ->
        exists file1, Step4.run float_str py_int file = Some file1).
Proof.
  intros float_str py_int re_search file Hwf. split; [|split].
  - intros file1 Hrun. split; [now apply (run4_rerun float_str py_int file)|].
    destruct (Step4.extract_comorbidities float_str file) as [features|] eqn:Hex.
    2:{ unfold Step4.run in Hrun. rewrite Hex in Hrun. discriminate. }
    rewrite (run4_closed float_str py_int file features Hwf Hex) in Hrun.
    injection Hrun as <-. rewrite <- (items4_names float_str file).
    apply merged_frame_written; [exact Hwf|].
    rewrite items4_names. apply fcols4_NoDup.
  - intros file1 Hrun. split; [now apply (run3_rerun float_str py_int re_search file)|].
    destruct (Step3.extract_medication_features float_str re_search file)
      as [features|] eqn:Hex.
    2:{ unfold Step3.run in Hrun. rewrite Hex in Hrun. discriminate. }
    rewrite (run3_closed float_str py_int re_search file features Hwf Hex) in Hrun.
    injection Hrun as <-.
    apply (merged_frame_written (items3 float_str re_search file)); [exact Hwf|].
    apply fcols3_NoDup.
  - intros Hk Hd Hne.
    destruct (extract_comorbidities_defined float_str file Hk Hd Hne) as [features Hex].
    eexists. apply (run4_closed float_str py_int file features Hwf Hex).
Qed.

(** Both passes on the examples: the first run completes, and the second
    run writes the same file. *)
Lemma C7_extraction_rerun_witness :
  (exists file1,
      Step4.run no_float_text no_int Step4Facts.example_diagnoses = Some file1
      /\ Step4.run no_float_text no_int file1 = Some file1)
  /\ (exists file1,
        Step3.run no_float_text no_int Text.contains_ci example_orders = Some file1
        /\ Step3.run no_float_text no_int Text.contains_ci file1 = Some file1
        /\ columns file1
           = ["admission_key"; "inn_name"; "order_status"]%string ++ fcols3).
Proof.
  split.
  - destruct (C7_extraction_rerun no_float_text no_int Text.contains_ci
                Step4Facts.example_diagnoses example_diagnoses_wf) as [H4 [_ Hdef]].
    destruct (Hdef eq_refl eq_refl) as [file1 Hrun]; [discriminate|].
    exists file1. split; [exact Hrun|]. now apply H4.
  - destruct (C7_extraction_rerun no_float_text no_int Text.contains_ci
                example_orders example_orders_wf) as [_ [H3 _]].
    destruct (Step3.run no_float_text no_int Text.contains_ci example_orders)
      as [file1|] eqn:Hrun; [|vm_compute in Hrun; discriminate].
    exists file1. destruct (H3 file1 eq_refl) as [Hre [_ [Hcols _]]].
    split; [reflexivity|]. split; [exact Hre|]. rewrite Hcols. reflexivity.
Defined.

(** *** The population and the values of the medication features *)

Section MedicationFeatures.
Import Step3.
Variable float_str : Q -> string.
Variable re_search : string -> string -> bool.

Lemma keys_where_in (mask : Row -> bool) (df : DataFrame) (x : cell) :
  In x (keys_where mask df) -> exists r, In r (rows df) /\ x = get r key.
Proof.
  unfold keys_where. intros H. apply in_map_iff in H. destruct H as [r [<- Hr]].
  apply filter_In in Hr. exists r. tauto.
Qed.

Lemma keyword_patients_in (info : Medication) (df : DataFrame) (x : cell) :
  In x (keyword_patients float_str re_search info df) ->
  exists r, In r (rows df) /\ x = get r key.
Proof.
  unfold keyword_patients. intros H. apply in_flat_map in H. destruct H as [k [_ H]].
  destruct (has_column df inn_name_col); [|destruct H]. now apply keys_where_in in H.
Qed.

Lemma special_matched_set_in (df : DataFrame) (x : cell) :
  In x (special_matched_set float_str re_search df) ->
  exists r, In r (rows df) /\ x = get r key.
Proof.
  unfold special_matched_set. intros H. apply in_app_iff in H. destruct H as [H | H].
  - destruct (has_column df trade_name_col); [|destruct H]. now apply keys_where_in in H.
  - destruct (has_column df common_name_col); [|destruct H]. now apply keys_where_in in H.
Qed.

Lemma oral_patients_in (info : Medication) (df : DataFrame) (x : cell) :
  In x (oral_patients float_str re_search info df) ->
  exists r, In r (rows df) /\ x = get r key.
Proof.
  unfold oral_patients. intros H. apply in_app_iff in H. destruct H as [H | H].
  - now apply keyword_patients_in in H.
  - destruct (is_sglt2i info); [|destruct H]. now apply special_matched_set_in in H.
Qed.

Lemma rapid_patients_in (df : DataFrame) (x : cell) :
  In x (rapid_patients float_str re_search df) ->
  exists r, In r (rows df) /\ x = get r key.
Proof.
  unfold rapid_patients. intros H. apply in_app_iff in H. destruct H as [H | H].
  - apply in_flat_map in H. destruct H as [k [_ H]].
    destruct (has_column df inn_name_col); [|destruct H]. now apply keys_where_in in H.
  - destruct (_ && _); [|destruct H]. now apply keys_where_in in H.
Qed.

Lemma dual_patients_in (df : DataFrame) (x : cell) :
  In x (dual_patients float_str re_search df) ->
  exists r, In r (rows df) /\ x = get r key.
Proof.
  unfold dual_patients. intros H.
  destruct (_ && _); [|destruct H]. now apply keys_where_in in H.
Qed.

(** Every admission an item marks has a valid order. *)
Lemma items3_in (file : DataFrame) (it : string * list cell) (x : cell) :
  In it (items3 float_str re_search file) -> In x (snd it) ->
  exists r, In r (rows (valid_of float_str file)) /\ x = get r key.
Proof.
  unfold items3. intros Hit Hx. apply in_app_iff in Hit. destruct Hit as [Hit | Hit].
  - apply in_map_iff in Hit. destruct Hit as [info [<- _]]. now apply oral_patients_in in Hx.
  - destruct Hit as [<- | [<- | [<- | [<- | []]]]]; simpl in Hx.
    + now apply rapid_patients_in in Hx.
    + now apply keyword_patients_in in Hx.
    + now apply dual_patients_in in Hx.
    + now apply keyword_patients_in in Hx.
Qed.

Lemma clean_one_rows (df : DataFrame) (col : string) (r' : Row) :
  In r' (rows (clean_one float_str df col)) ->
  exists r, In r (rows df) /\ forall c, c <> col -> get r' c = get r c.
Proof.
  unfold clean_one. destruct (has_column df col).
  - unfold assign. cbn [rows]. intros H. apply in_map_iff in H. destruct H as [r [<- Hr]].
    exists r. split; [exact Hr|]. intros c Hc. now apply get_set_other.
  - intros H. now exists r'.
Qed.

Lemma clean_one_has_column (df : DataFrame) (col c : string) :
  has_column (clean_one float_str df col) c = has_column df c.
Proof.
  unfold clean_one. destruct (has_column df col) eqn:E; [|reflexivity].
  unfold has_column at 1. unfold assign. cbn [columns]. rewrite E. reflexivity.
Qed.

Lemma clean_names_rows (file : DataFrame) (r' : Row) :
  In r' (rows (clean_names float_str file)) ->
  exists r, In r (rows file)
            /\ get r' key = get r key
            /\ get r' "order_status" = get r "order_status".
Proof.
  rewrite clean_names_unfold. intros H.
  apply clean_one_rows in H. destruct H as [r3 [H H3]].
  apply clean_one_rows in H. destruct H as [r2 [H H2]].
  apply clean_one_rows in H. destruct H as [r1 [H H1]].
  apply clean_one_rows in H. destruct H as [r [H H0]].
  exists r. split; [exact H|].
  split; (rewrite H3, H2, H1, H0; [reflexivity | discriminate ..]).
Qed.

Lemma clean_names_has_column (file : DataFrame) (c : string) :
  has_column (clean_names float_str file) c = has_column file c.
Proof.
  rewrite clean_names_unfold. now rewrite !clean_one_has_column.
Qed.

(** A valid order is a record of the file that is not cancelled. *)
Lemma valid_of_rows (file : DataFrame) (r' : Row) :
  has_column file "order_status" = true ->
  In r' (rows (valid_of float_str file)) ->
  exists r, In r (rows file) /\ get r' key = get r key
            /\ get r "order_status" <> Str "已撤销".
Proof.
  intros Hs. unfold valid_of, valid_orders. rewrite clean_names_has_column, Hs.
  unfold select. cbn [rows]. intros H. apply filter_In in H. destruct H as [H Hp].
  apply clean_names_rows in H. destruct H as [r [Hr [Hk Hst]]].
  exists r. split; [exact Hr|]. split; [exact Hk|].
  intros Heq. rewrite Hst, Heq in Hp. unfold cell_eqb in Hp.
  rewrite String.eqb_refl in Hp. discriminate.
Qed.

Lemma feature_cells_zero (items : list (string * list cell)) (p : cell) (c : string) :
  (forall it, In it items -> isin (snd it) p = false) ->
  In c (map fst items) -> get (feature_cells items p) c = Int 0.
Proof.
  unfold feature_cells. induction items as [|it items IH]; intros Hz H; [destruct H|].
  simpl. destruct (String.eqb (fst it) c) eqn:E.
  - unfold flag. now rewrite (Hz it (or_introl eq_refl)).
  - apply IH; [intros it' Hit'; apply Hz; now right|].
    destruct H as [H | H]; [|exact H]. apply String.eqb_neq in E. congruence.
Qed.

Lemma unique_aux_covers (l : list cell) :
  forall seen v, In v l ->
    (exists s, In s seen /\ cell_eqb v s = true)
    \/ exists p, In p (unique_aux seen l) /\ cell_eqb p v = true.
Proof.
  induction l as [|x l IH]; intros seen v Hv; [destruct Hv|].
  simpl. destruct (existsb (cell_eqb x) seen) eqn:E.
  - destruct Hv as [-> | Hv]; [|now apply IH].
    left. now apply existsb_exists in E.
  - destruct Hv as [-> | Hv].
    + right. exists v. split; [now left | apply cell_eqb_refl].
    + destruct (IH (x :: seen) v Hv) as [[s [[<- | Hs] He]] | [p [Hp He]]].
      * right. exists x. split; [now left | now rewrite cell_eqb_sym].
      * left. now exists s.
      * right. exists p. split; [now right | exact He].
Qed.

(** C8.  When [extract_medication_features] returns a feature table for a
    file: the table has one row per admission_key of the whole file, in
    order of first appearance, cancelled orders included, so that every
    record of the file finds its admission in the table; every feature
    value is 0 or 1; and, the file having an order_status column, an
    admission all of whose orders are cancelled (已撤销) has 0 in every
    feature column. *)
Theorem C8_medication_population :
  forall (file features : DataFrame),
    extract_medication_features float_str re_search file = Some features ->
    column features "admission_key" = unique (column file "admission_key")
    /\ (forall r, In r (rows file) ->
          exists frow, In frow (rows features)
                       /\ cell_eqb (get frow "admission_key") (get r "admission_key") = true)
    /\ (forall frow c, In frow (rows features) -> In c fcols3 ->
          get frow c = Int 0 \/ get frow c = Int 1)
    /\ (has_column file "order_status" = true ->
        forall frow, In frow (rows features) ->
          (forall r, In r (rows file) ->
             cell_eqb (get frow "admission_key") (get r "admission_key") = true ->
             get r "order_status" = Str "已撤销") ->
          forall c, In c fcols3 -> get frow c = Int 0).
Proof.
  intros file features Hex.
  destruct (extract_medication_features_frame float_str re_search file features Hex)
    as [Hk ->].
  set (items := items3 float_str re_search file).
  assert (Hcol : column (feature_frame items (patients3 float_str file)) key
                 = unique (column file key)).
  { unfold column, feature_frame. cbn [rows]. rewrite map_map. cbn [get].
    rewrite String.eqb_refl. rewrite map_id. apply patients3_column. }
  assert (Hget : forall p c, In c fcols3 ->
            get ((key, p) :: feature_cells items p) c = get (feature_cells items p) c).
  { intros p c Hc. cbn [get]. destruct (String.eqb key c) eqn:E; [|reflexivity].
    apply String.eqb_eq in E. subst c. exfalso. now apply fcols3_not_key. }
  split; [exact Hcol|]. split; [|split].
  - intros r Hr.
    destruct (unique_aux_covers (column file key) [] (get r key)) as [[s [[] _]] | [p [Hp He]]].
    { unfold column. apply in_map_iff. now exists r. }
    exists ((key, p) :: feature_cells items p). split; [|exact He].
    unfold feature_frame. cbn [rows]. apply in_map_iff. exists p. split; [reflexivity|].
    rewrite patients3_column. exact Hp.
  - intros frow c Hf Hc. unfold feature_frame in Hf. cbn [rows] in Hf.
    apply in_map_iff in Hf. destruct Hf as [p [<- _]]. rewrite (Hget p c Hc).
    now apply feature_cells_bit.
  - intros Hs frow Hf Hvoid c Hc. unfold feature_frame in Hf. cbn [rows] in Hf.
    apply in_map_iff in Hf. destruct Hf as [p [<- _]]. rewrite (Hget p c Hc).
    apply feature_cells_zero; [|exact Hc].
    intros it Hit. destruct (isin (snd it) p) eqn:E; [|reflexivity]. exfalso.
    apply existsb_exists in E. destruct E as [x [Hx He]].
    destruct (items3_in file it x Hit Hx) as [r' [Hr' ->]].
    destruct (valid_of_rows file r' Hs Hr') as [r [Hr [Hkey Hst]]].
    apply Hst. apply (Hvoid r Hr). cbn [get]. rewrite String.eqb_refl.
    now rewrite <- Hkey.
Qed.
End MedicationFeatures.

(** On the example all orders of P1_1 are cancelled and P2_1 has a valid
    metformin order: the table lists both admissions, P1_1 with 0 in
    every column, P2_1 with Metformin 1. *)
Lemma C8_medication_population_witness :
  exists features,
    Step3.extract_medication_features no_float_text Text.contains_ci example_orders
    = Some features
    /\ column features "admission_key" = [Str "P1_1"; Str "P2_1"]
    /\ column features "Metformin" = [Int 0; Int 1]
    /\ forall c, In c fcols3 -> nth 0 (column features c) NaN = Int 0.
Proof.
  destruct (Step3.extract_medication_features no_float_text Text.contains_ci example_orders)
    as [features|] eqn:Hex; [|vm_compute in Hex; discriminate].
  exists features. split; [reflexivity|].
  destruct (C8_medication_population no_float_text Text.contains_ci example_orders
              features Hex) as [Hpop [_ [_ Hvoid]]].
  split; [rewrite Hpop; reflexivity|].
  assert (Hf : features = MergeFacts.feature_frame
                 (items3 no_float_text Text.contains_ci example_orders)
                 (patients3 no_float_text example_orders)).
  { now destruct (extract_medication_features_frame no_float_text Text.contains_ci
                    example_orders features Hex). }
  split; [rewrite Hf; vm_compute; reflexivity|].
  intros c Hc.
  assert (Hrow : exists frow, In frow (rows features) /\ get frow "admission_key" = Str "P1_1"
                              /\ nth 0 (column features c) NaN = get frow c).
  { rewrite Hf. eexists. split; [left; reflexivity|]. split; reflexivity. }
  destruct Hrow as [frow [Hin [Hk ->]]].
  apply (Hvoid eq_refl frow Hin); [|exact Hc].
  intros r Hr He. rewrite Hk in He.
  destruct Hr as [<- | [<- | [<- | []]]]; try reflexivity.
  vm_compute in He. discriminate.
Defined.

End RerunFacts.


(** ** Fasting and nutrition windows (步骤6) *)

Module Step6Facts.

Import Frame Clock Step6 FrameFacts.
Local Open Scope list_scope.

(** A difference counts at most 24 hours exactly when it is shorter than
    two days. *)
Lemma whole_days_le_24 (start stop : Timestamp) :
  (timedelta_days start stop * 24 <=? 24)%Z = true <-> (stop - start < 2 * NS_PER_DAY)%Z.
Proof.
  unfold timedelta_days.
  assert (HD : NS_PER_DAY = 86400000000000%Z) by reflexivity.
  rewrite HD, Z.leb_le.
  pose proof (Z.div_mod (stop - start) 86400000000000) as Hdm.
  pose proof (Z.mod_pos_bound (stop - start) 86400000000000) as Hb.
  lia.
Qed.

Lemma map_opt_inv {A B : Type} (f : A -> option B) (l : list A) :
  forall ys, map_opt f l = Some ys -> Forall2 (fun x y => f x = Some y) l ys.
Proof.
  induction l as [|x l IH]; simpl; intros ys H.
  - injection H as <-. constructor.
  - destruct (f x) as [y|] eqn:Ex; [|discriminate].
    destruct (map_opt f l) as [r|]; [|discriminate].
    injection H as <-. constructor; [exact Ex | now apply IH].
Qed.

Lemma Forall2_in_l {A B : Type} (R : A -> B -> Prop) (l : list A) (l' : list B) :
  Forall2 R l l' -> forall x, In x l -> exists y, In y l' /\ R x y.
Proof.
  induction 1 as [|a b l l' Hab _ IH]; intros x Hx; [destruct Hx|].
  destruct Hx as [<- | Hx].
  - exists b. split; [now left | exact Hab].
  - destruct (IH x Hx) as [y [Hy HR]]. exists y. split; [now right | exact HR].
Qed.

Lemma Forall2_in_r {A B : Type} (R : A -> B -> Prop) (l : list A) (l' : list B) :
  Forall2 R l l' -> forall y, In y l' -> exists x, In x l /\ R x y.
Proof.
  induction 1 as [|a b l l' Hab _ IH]; intros y Hy; [destruct Hy|].
  destruct Hy as [<- | Hy].
  - exists a. split; [now left | exact Hab].
  - destruct (IH y Hy) as [x [Hx HR]]. exists x. split; [now right | exact HR].
Qed.

Lemma has_any_one (periods : list string) : has_any periods = Int 1 <-> periods <> [].
Proof.
  destruct periods; simpl; split; intros H; try discriminate; try reflexivity.
  now elim H.
Qed.

Section Windows.
Variable float_str : Q -> string.
Variable to_datetime : cell -> option Timestamp.

(** The records that pass the duration filter. *)
Lemma duration_ok_spec (r : Row) :
  duration_ok to_datetime r = true <->
  exists start stop,
    isna (get r "start_time") = false /\ isna (get r "stop_time") = false
    /\ to_datetime (get r "start_time") = Some start
    /\ to_datetime (get r "stop_time") = Some stop
    /\ (stop - start < 2 * NS_PER_DAY)%Z.
Proof.
  unfold duration_ok, calculate_time_diff_hours.
  destruct (isna (get r "start_time")) eqn:E1; simpl.
  { split; [discriminate | intros [a [b [H _]]]; discriminate]. }
  destruct (isna (get r "stop_time")) eqn:E2; simpl.
  { split; [discriminate | intros [a [b [_ [H _]]]]; discriminate]. }
  destruct (to_datetime (get r "start_time")) as [start|].
  2:{ split; [discriminate | intros [a [b [_ [_ [H _]]]]]; discriminate]. }
  destruct (to_datetime (get r "stop_time")) as [stop|].
  2:{ split; [discriminate | intros [a [b [_ [_ [_ [H _]]]]]]; discriminate]. }
  rewrite whole_days_le_24. split.
  - intros H. exists start, stop. repeat split; assumption.
  - intros [a [b [_ [_ [[= <-] [[= <-] H]]]]]]. exact H.
Qed.

(** A nutrition record always contributes its period to its admission. *)
Lemma nutrition_record_kept (df : DataFrame) (r : Row) :
  In r (rows df) -> nutrition_mask float_str r = true ->
  In (nutrition_period float_str r)
     (nutrition_by_patient float_str df (get r "admission_key")).
Proof.
  intros Hr Hm. unfold nutrition_by_patient. apply in_map.
  apply filter_In. split; [|apply cell_eqb_refl].
  apply filter_In. now split.
Qed.
(** X9.  A record that matches the fasting keyword passes the duration
    filter exactly when both of its times are present and readable and
    stop minus start is shorter than two days. *)
Lemma valid_fasting_spec (df : DataFrame) (r : Row) :
  In r (rows df) -> fasting_mask float_str r = true ->
  (In r (valid_fasting float_str to_datetime df) <->
   exists start stop,
     isna (get r "start_time") = false /\ isna (get r "stop_time") = false
     /\ to_datetime (get r "start_time") = Some start
     /\ to_datetime (get r "stop_time") = Some stop
     /\ (stop - start < 48 * NS_PER_HOUR)%Z).
Proof.
  intros Hr Hm. unfold valid_fasting. rewrite !filter_In, duration_ok_spec.
  change (48 * NS_PER_HOUR)%Z with (2 * NS_PER_DAY)%Z. tauto.
Qed.

(** The nutrition columns of the result are those of all the nutrition
    records of the table. *)
Lemma nutrition_columns_spec (df res : DataFrame) :
  extract_fasting_nutrition float_str to_datetime df = Some res ->
  column res "admission_key" = unique (column df "admission_key")
  /\ column res "Nutrition_periods"
     = map (fun p => Str (join "; " (nutrition_by_patient float_str df p)))
           (unique (column df "admission_key"))
  /\ column res "Nutrition"
     = map (fun p => has_any (nutrition_by_patient float_str df p))
           (unique (column df "admission_key")).
Proof.
  unfold extract_fasting_nutrition.
  destruct (negb (forallb (has_column df) required_cols)); [discriminate|].
  destruct (map_opt _ (valid_fasting float_str to_datetime df)) as [windows|];
    [|discriminate].
  destruct (unique (column df "admission_key")) as [|p ps] eqn:Hu; [discriminate|].
  intros [= <-]. unfold column. cbn [rows].
  change (result_row float_str df windows p :: map (result_row float_str df windows) ps)
    with (map (result_row float_str df windows) (p :: ps)).
  rewrite !map_map.
  split; [apply map_id_in; intros; reflexivity|].
  split; apply map_ext; intros; reflexivity.
Qed.

(** X8.  The fasting columns of the result are computed from the records
    that pass the duration filter, and from no other: an admission has
    Fasting = 1 exactly when one of its fasting records passes it. *)
Lemma fasting_columns_spec (df res : DataFrame) :
  extract_fasting_nutrition float_str to_datetime df = Some res ->
  exists windows,
    Forall2 (fun r w => exists ts, to_datetime (get r "prescribed_time") = Some ts
                                   /\ w = (get r "admission_key", fasting_period ts))
            (valid_fasting float_str to_datetime df) windows
    /\ column res "Fasting"
       = map (fun p => has_any (fasting_by_patient windows p))
             (unique (column df "admission_key"))
    /\ column res "Fasting_periods"
       = map (fun p => Str (join "; " (fasting_by_patient windows p)))
             (unique (column df "admission_key"))
    /\ forall p, has_any (fasting_by_patient windows p) = Int 1 <->
                 exists r, In r (valid_fasting float_str to_datetime df)
                           /\ cell_eqb (get r "admission_key") p = true.
Proof.
  unfold extract_fasting_nutrition.
  destruct (negb (forallb (has_column df) required_cols)); [discriminate|].
  destruct (map_opt _ (valid_fasting float_str to_datetime df)) as [windows|] eqn:Ew;
    [|discriminate].
  destruct (unique (column df "admission_key")) as [|p0 ps] eqn:Hu; [discriminate|].
  intros [= <-]. exists windows.
  apply map_opt_inv in Ew.
  assert (HF : Forall2 (fun r w => exists ts, to_datetime (get r "prescribed_time") = Some ts
                                   /\ w = (get r "admission_key", fasting_period ts))
            (valid_fasting float_str to_datetime df) windows).
  { eapply Forall2_impl; [|exact Ew]. intros r w H. cbv beta in H.
    destruct (to_datetime (get r "prescribed_time")) as [ts|]; [|discriminate].
    exists ts. split; [reflexivity|]. simpl in H. now injection H. }
  split; [exact HF|].
  unfold column. cbn [rows].
  change (result_row float_str df windows p0 :: map (result_row float_str df windows) ps)
    with (map (result_row float_str df windows) (p0 :: ps)).
  rewrite !map_map.
  split; [apply map_ext; intros; reflexivity|].
  split; [apply map_ext; intros; reflexivity|].
  intros p. rewrite has_any_one. unfold fasting_by_patient. split.
  - intros Hne.
    destruct (filter (fun kp : cell * string => cell_eqb (fst kp) p) windows)
      as [|kp t] eqn:Ef; [now elim Hne|].
    assert (Hin : In kp (filter (fun kp : cell * string => cell_eqb (fst kp) p) windows))
      by (rewrite Ef; now left).
    apply filter_In in Hin. destruct Hin as [Hin Hp].
    destruct (Forall2_in_r _ _ _ HF kp Hin) as [r [Hr [ts [_ ->]]]].
    exists r. split; [exact Hr | exact Hp].
  - intros [r [Hr Hp]].
    destruct (Forall2_in_l _ _ _ HF r Hr) as [w [Hw [ts [_ ->]]]].
    assert (Hin : In (get r "admission_key", fasting_period ts)
                     (filter (fun kp : cell * string => cell_eqb (fst kp) p) windows))
      by (apply filter_In; split; [exact Hw | exact Hp]).
    intros Hnil. apply map_eq_nil in Hnil. rewrite Hnil in Hin. exact Hin.
Qed.
End Windows.

(** The scalar reader used on the examples: ISO texts only. *)
Definition read_iso (c : cell) : option Timestamp :=
  match c with
  | Str s => iso_datetime s
  | _ => None
  end.

Definition order (k item prescribed start stop : string) : Row :=
  [ ("admission_key", Str k); ("order_item_name", Str item);
    ("prescribed_time", Str prescribed); ("start_time", Str start);
    ("stop_time", Str stop) ]%string.

(** A fasting order that runs for exactly 25 hours (E1), a fasting order
    that runs for three days (E2), and an order for enteral nutrition
    that runs for six days (E3), as the hospital exports them. *)
Definition example_orders : DataFrame :=
  mkFrame required_cols
    [ order "E1" "禁食" "2023-07-23 09:21:56" "2023-07-23 08:00:00" "2023-07-24 09:00:00";
      order "E2" "禁食" "2023-07-23 09:21:56" "2023-07-23 08:00:00" "2023-07-26 08:00:00";
      order "E3" "肠内营养" "2023-07-23 09:30:00" "2023-07-23 10:00:00"
            "2023-07-29 10:00:00" ].

(** The same table as 步骤6 reads it, after the day-boundary rule of
    步骤1 has turned its three time columns into dates. *)
Definition example_orders_dates : DataFrame :=
  mkFrame required_cols
    [ order "E1" "禁食" "2023-07-23" "2023-07-23" "2023-07-24";
      order "E2" "禁食" "2023-07-23" "2023-07-23" "2023-07-26";
      order "E3" "肠内营养" "2023-07-23" "2023-07-23" "2023-07-29" ].

Definition result_columns (res : DataFrame) : list (list cell) :=
  map (column res)
      ["admission_key"; "Fasting"; "Fasting_periods"; "Nutrition"; "Nutrition_periods"]%string.

(** C5, the code against its own rule.  The rule of the script keeps a
    fasting record only when stop_time - start_time is at most 24 hours.
    The fasting order of E1 runs from 2023-07-23 08:00:00 to 2023-07-24
    09:00:00, exactly 25 hours.  步骤1 turns the two times into the dates
    2023-07-23 and 2023-07-24, [calculate_time_diff_hours] counts the
    difference in whole days as 24 hours, and the order passes the
    filter: E1 has Fasting = 1 and the window 2023-07-23 08:00 -
    2023-07-24 08:00.  So it does when the clock times are left in the
    table.  The three-day order of E2 does not pass, and E2 has
    Fasting = 0; the nutrition order of E3, six days long, keeps its
    period. *)
Theorem C5_fasting_25h_kept :
  (exists start stop,
      read_iso (Str "2023-07-23 08:00:00") = Some start
      /\ read_iso (Str "2023-07-24 09:00:00") = Some stop
      /\ (stop - start = 25 * NS_PER_HOUR)%Z)
  /\ fst (Step1._process_datetime_columns RerunFacts.no_float_text (map iso_datetime)
            example_orders)
     = example_orders_dates
  /\ map (fun r => calculate_time_diff_hours read_iso (get r "start_time")
                                             (get r "stop_time"))
         (rows example_orders_dates)
     = [Some 24; Some 72; Some 144]%Z
  /\ map (fun r => get r "admission_key")
         (valid_fasting RerunFacts.no_float_text read_iso example_orders_dates)
     = [Str "E1"]
  /\ option_map result_columns
       (extract_fasting_nutrition RerunFacts.no_float_text read_iso example_orders_dates)
     = Some [ [Str "E1"; Str "E2"; Str "E3"];
              [Int 1; Int 0; Int 0];
              [Str "2023-07-23 08:00 - 2023-07-24 08:00"; Str ""; Str ""];
              [Int 0; Int 0; Int 1];
              [Str ""; Str ""; Str "2023-07-23 - 2023-07-29"] ]
  /\ option_map result_columns
       (extract_fasting_nutrition RerunFacts.no_float_text read_iso example_orders)
     = Some [ [Str "E1"; Str "E2"; Str "E3"];
              [Int 1; Int 0; Int 0];
              [Str "2023-07-23 08:00 - 2023-07-24 08:00"; Str ""; Str ""];
              [Int 0; Int 0; Int 1];
              [Str ""; Str ""; Str "2023-07-23 10:00:00 - 2023-07-29 10:00:00"] ].
Proof.
  split.
  { eexists. eexists. split; [vm_compute; reflexivity|].
    split; [vm_compute; reflexivity|]. vm_compute. reflexivity. }
  repeat split; vm_compute; reflexivity.
Qed.

(** The fasting columns of the example: the flags are those of the
    windows of the records that pass the filter. *)
Lemma fasting_columns_spec_witness :
  exists res windows,
    extract_fasting_nutrition RerunFacts.no_float_text read_iso example_orders_dates
    = Some res
    /\ column res "Fasting"
       = map (fun p => has_any (fasting_by_patient windows p))
             [Str "E1"; Str "E2"; Str "E3"]
    /\ column res "Fasting" = [Int 1; Int 0; Int 0].
Proof.
  destruct (extract_fasting_nutrition RerunFacts.no_float_text read_iso example_orders_dates)
    as [res|] eqn:E; [|vm_compute in E; discriminate].
  destruct (fasting_columns_spec RerunFacts.no_float_text read_iso example_orders_dates
              res E) as [windows [_ [HF _]]].
  exists res, windows. split; [reflexivity|]. split; [exact HF|].
  vm_compute in E. injection E as <-. reflexivity.
Defined.

(** The three-day fasting order of the example does not pass the
    filter. *)
Lemma valid_fasting_spec_witness :
  In (order "E2" "禁食" "2023-07-23" "2023-07-23" "2023-07-26") (rows example_orders_dates)
  /\ ~ In (order "E2" "禁食" "2023-07-23" "2023-07-23" "2023-07-26")
          (valid_fasting RerunFacts.no_float_text read_iso example_orders_dates).
Proof.
  assert (Hin : In (order "E2" "禁食" "2023-07-23" "2023-07-23" "2023-07-26")
                   (rows example_orders_dates)) by (right; left; reflexivity).
  split; [exact Hin|]. intros H.
  destruct (proj1 (valid_fasting_spec RerunFacts.no_float_text read_iso
                     example_orders_dates _ Hin eq_refl) H)
    as [start [stop [_ [_ [Hs [Ht Hlt]]]]]].
  vm_compute in Hs. vm_compute in Ht.
  injection Hs as <-. injection Ht as <-.
  vm_compute in Hlt. discriminate Hlt.
Defined.

End Step6Facts.


(** ** The day-boundary rule (步骤1) *)

Module Step1Facts.

Import Frame Clock Step1 FrameFacts.
Local Open Scope list_scope.

Lemma combine_set_same (c : string) (rs : list Row) :
  forall vals, List.length vals = List.length rs ->
    map (fun r => get r c)
        (map (fun rv : Row * cell => set (fst rv) c (snd rv)) (combine rs vals))
    = vals.
Proof.
  induction rs as [|r rs IH]; intros [|v vals] H; simpl in *; try discriminate;
    [reflexivity|].
  rewrite get_set_same. f_equal. apply IH. now injection H.
Qed.

Lemma combine_set_other (c c' : string) (rs : list Row) :
  c' <> c ->
  forall vals, List.length vals = List.length rs ->
    map (fun r => get r c')
        (map (fun rv : Row * cell => set (fst rv) c (snd rv)) (combine rs vals))
    = map (fun r => get r c') rs.
Proof.
  intros Hne. induction rs as [|r rs IH]; intros [|v vals] H; simpl in *;
    try discriminate; [reflexivity|].
  rewrite get_set_other by exact Hne. f_equal. apply IH. now injection H.
Qed.

(** The hour of a timestamp is an hour of the day, and a day earlier is
    the day before. *)
Lemma hour_range (ts : Timestamp) : (0 <= hour ts < 24)%Z.
Proof. unfold hour. apply Z.mod_pos_bound. reflexivity. Qed.

Lemma day_number_minus_one (ts : Timestamp) :
  day_number (minus_days ts 1) = (day_number ts - 1)%Z.
Proof.
  unfold day_number, minus_days.
  assert (HD : NS_PER_DAY = 86400000000000%Z) by reflexivity. rewrite HD.
  replace (ts - 1 * 86400000000000)%Z with (ts + (-1) * 86400000000000)%Z by lia.
  rewrite Z.div_add by discriminate. lia.
Qed.

Section Rule.
Variable float_str : Q -> string.
Variable to_datetime : list string -> list (option Timestamp).
Hypothesis to_datetime_length :
  forall texts, List.length (to_datetime texts) = List.length texts.

(** The result for one value: the date of the timestamp, or of the day
    before when the hour is in [0, 8). *)
Lemma normalize_some (ts : Timestamp) :
  normalize (Some ts)
  = Str (format_ymd (if (hour ts <? 8)%Z then day_number ts - 1 else day_number ts)%Z).
Proof.
  unfold normalize, shift_early, strftime_ymd.
  destruct (hour ts <? 8)%Z; [now rewrite day_number_minus_one | reflexivity].
Qed.

Definition converted (df : DataFrame) (col : string) : list cell :=
  map normalize (to_datetime (map (fun r => clean_text float_str (get r col)) (rows df))).

Lemma converted_length (df : DataFrame) (col : string) :
  List.length (converted df col) = List.length (rows df).
Proof. unfold converted. now rewrite length_map, to_datetime_length, length_map. Qed.

Lemma convert_column_same (df : DataFrame) (col : string) :
  column (convert_column float_str to_datetime df col) col = converted df col.
Proof.
  unfold convert_column, assign_values, column. cbn [rows].
  apply combine_set_same. apply converted_length.
Qed.

Lemma convert_column_other (df : DataFrame) (col c : string) :
  c <> col -> column (convert_column float_str to_datetime df col) c = column df c.
Proof.
  intros Hne. unfold convert_column, assign_values, column. cbn [rows].
  apply combine_set_other; [exact Hne | apply converted_length].
Qed.

Lemma fold_convert_other (cols : list string) (c : string) :
  ~ In c cols ->
  forall df, column (fold_left (convert_column float_str to_datetime) cols df) c
             = column df c.
Proof.
  induction cols as [|x cols IH]; intros Hc df; simpl; [reflexivity|].
  rewrite IH by (intros H; apply Hc; now right).
  apply convert_column_other. intros ->. apply Hc. now left.
Qed.

Lemma converted_column (df df' : DataFrame) (col : string) :
  column df' col = column df col -> converted df' col = converted df col.
Proof.
  unfold converted, column. intros H.
  rewrite <- !(map_map (fun r => get r col) (clean_text float_str)). now rewrite H.
Qed.

(** The column after the whole loop. *)
Lemma process_column (df : DataFrame) (col : string) :
  NoDup (columns df) -> In col (datetime_cols float_str df) ->
  column (fst (_process_datetime_columns float_str to_datetime df)) col = converted df col.
Proof.
  intros Hnd Hin. unfold _process_datetime_columns. cbn [fst].
  assert (Hnd' : NoDup (datetime_cols float_str df))
    by (apply MergeFacts.NoDup_filter; exact Hnd).
  destruct (in_split _ _ Hin) as [pre [post Hsplit]].
  rewrite Hsplit in Hnd' |- *.
  apply NoDup_remove_2 in Hnd'.
  rewrite fold_left_app. simpl.
  rewrite fold_convert_other by (intros H; apply Hnd', in_app_iff; now right).
  rewrite convert_column_same. apply converted_column.
  apply fold_convert_other. intros H. apply Hnd', in_app_iff. now left.
Qed.
End Rule.

(** The reader used on the examples: ISO texts, one by one. *)
Definition read_iso_series (texts : list string) : list (option Timestamp) :=
  map iso_datetime texts.

Definition example_glucose : DataFrame :=
  mkFrame ["admission_key"; "exam_time"; "blood_sugar"]%string
    [ [("admission_key", Str "E1"); ("exam_time", Str "2024-01-02 07:59:00");
       ("blood_sugar", Flt (52 # 10))];
      [("admission_key", Str "E1"); ("exam_time", Str "2024-01-02 08:00:00");
       ("blood_sugar", Flt (61 # 10))];
      [("admission_key", Str "E1"); ("exam_time", Str " 2024-03-01 00:30:00 ");
       ("blood_sugar", Flt (48 # 10))];
      [("admission_key", Str "E1"); ("exam_time", NaN); ("blood_sugar", Flt (50 # 10))] ]%string.

(** C2.  For every column that the rule treats as a column of timestamps
    (of a table without repeated column names), each value of the column
    becomes: the date, as text YYYY-MM-DD, of the day before the parsed
    timestamp when its hour is in [0, 8); the date of the timestamp itself
    at any other hour; and a missing value when the text is not a
    timestamp.  In the example, 2024-01-02 07:59:00 becomes 2024-01-01 and
    2024-01-02 08:00:00 becomes 2024-01-02. *)
Theorem C2_day_boundary :
  (forall (float_str : Q -> string) (to_datetime : list string -> list (option Timestamp))
          (df : DataFrame) (col : string),
      (forall texts, List.length (to_datetime texts) = List.length texts) ->
      NoDup (columns df) ->
      In col (datetime_cols float_str df) ->
      column (fst (_process_datetime_columns float_str to_datetime df)) col
      = map normalize (to_datetime (map (clean_text float_str) (column df col))))
  /\ (forall ts : Timestamp,
        (0 <= hour ts < 24)%Z
        /\ normalize (Some ts)
           = Str (format_ymd (if (hour ts <? 8)%Z then day_number ts - 1
                              else day_number ts)%Z))
  /\ normalize None = NaN
  /\ datetime_cols RerunFacts.no_float_text example_glucose = ["exam_time"%string]
  /\ column (fst (_process_datetime_columns RerunFacts.no_float_text read_iso_series
                    example_glucose)) "exam_time"
     = [Str "2024-01-01"; Str "2024-01-02"; Str "2024-02-29"; NaN].
Proof.
  split; [|split; [|split; [|split]]].
  - intros float_str to_datetime df col Hlen Hnd Hin.
    rewrite (process_column float_str to_datetime Hlen df col Hnd Hin).
    unfold converted, column. now rewrite map_map.
  - intros ts. split; [apply hour_range | apply normalize_some].
  - reflexivity.
  - vm_compute. reflexivity.
  - vm_compute. reflexivity.
Qed.

(** The theorem at the example table and its column exam_time. *)
Lemma C2_day_boundary_witness :
  column (fst (_process_datetime_columns RerunFacts.no_float_text read_iso_series
                 example_glucose)) "exam_time"
  = map normalize
        (read_iso_series (map (clean_text RerunFacts.no_float_text)
                              (column example_glucose "exam_time"))).
Proof.
  destruct C2_day_boundary as [H _].
  apply H.
  - intros texts. apply length_map.
  - apply RerunFacts.distinct_NoDup. reflexivity.
  - vm_compute. left. reflexivity.
Defined.

End Step1Facts.

(** ** 步骤1: the admission key and the column clean-up *)

Module ColumnsFacts.

Import Frame Columns FrameFacts MergeFacts.
Local Open Scope list_scope.

Lemma get_take (r : Row) (cols : list string) (c : string) :
  In c cols -> get (map (fun c => (c, get r c)) cols) c = get r c.
Proof.
  induction cols as [|x cols IH]; intros H; [destruct H|].
  simpl. destruct (String.eqb x c) eqn:E.
  - apply String.eqb_eq in E. now subst.
  - apply IH. destruct H as [H | H]; [|exact H]. apply String.eqb_neq in E. congruence.
Qed.

Lemma take_columns_wf (cols : list string) (df : DataFrame) :
  NoDup cols -> wf (take_columns cols df).
Proof.
  intros Hnd. split; [exact Hnd|]. cbn [rows take_columns columns].
  apply Forall_forall. intros r' Hr'. apply in_map_iff in Hr'.
  destruct Hr' as [r [<- _]]. rewrite map_map. simpl. apply map_id.
Qed.

Lemma take_columns_column (cols : list string) (df : DataFrame) (c : string) :
  In c cols -> column (take_columns cols df) c = column df c.
Proof.
  intros Hc. unfold column, take_columns. cbn [rows]. rewrite map_map.
  apply map_ext. intros r. now apply get_take.
Qed.

(** Dropping the columns of a list that a well-formed table has. *)
Lemma drop_present (fcols : list string) (file : DataFrame) :
  wf file ->
  drop_columns (filter (has_column file) fcols) file
  = mkFrame (filter (fun c => negb (mem c fcols)) (columns file))
            (map (keep_other fcols) (rows file)).
Proof.
  intros Hwf. pose proof (drop_existing fcols file Hwf) as H.
  destruct (filter (has_column file) fcols) eqn:E; [|exact H].
  rewrite drop_columns_nil. exact H.
Qed.

Lemma keep_other_wf (fcols : list string) (file : DataFrame) :
  wf file ->
  wf (mkFrame (filter (fun c => negb (mem c fcols)) (columns file))
              (map (keep_other fcols) (rows file))).
Proof.
  intros [Hnd Hrows]. split; [now apply NoDup_filter|]. cbn [rows columns].
  apply Forall_forall. intros r' Hr'. apply in_map_iff in Hr'.
  destruct Hr' as [r [<- Hr]]. unfold keep_other.
  rewrite (filter_names (fun c => negb (mem c fcols))).
  rewrite Forall_forall in Hrows. now rewrite (Hrows r Hr).
Qed.

Lemma keep_other_column (fcols : list string) (file : DataFrame) (c : string) :
  ~ In c fcols ->
  column (mkFrame (filter (fun c => negb (mem c fcols)) (columns file))
                  (map (keep_other fcols) (rows file))) c
  = column file c.
Proof.
  intros Hc. unfold column. cbn [rows]. rewrite map_map.
  apply map_ext. intros r. now apply get_keep_other.
Qed.

Lemma drop_if_any_present (fcols : list string) (file : DataFrame) :
  wf file ->
  drop_if_any (filter (has_column file) fcols) file
  = mkFrame (filter (fun c => negb (mem c fcols)) (columns file))
            (map (keep_other fcols) (rows file)).
Proof. intros Hwf. unfold drop_if_any. now apply drop_existing. Qed.

Lemma filter_has_column (df : DataFrame) (l : list string) :
  (forall c, In c l -> In c (columns df)) -> filter (has_column df) l = l.
Proof.
  intros H. apply filter_all. intros c Hc. apply mem_In. now apply H.
Qed.

(** *** admission_key first *)

Lemma key_first_NoDup (cols : list string) :
  NoDup cols ->
  NoDup ("admission_key"%string
           :: filter (fun col => negb (String.eqb col "admission_key")) cols).
Proof.
  intros Hnd. constructor; [|now apply NoDup_filter].
  intros H. apply filter_In in H. destruct H as [_ H].
  rewrite String.eqb_refl in H. discriminate.
Qed.

Lemma key_first_In (cols : list string) (c : string) :
  In "admission_key"%string cols ->
  (In c ("admission_key"%string
           :: filter (fun col => negb (String.eqb col "admission_key")) cols)
   <-> In c cols).
Proof.
  intros Hk. simpl. rewrite filter_In. split.
  - intros [<- | [H _]]; assumption.
  - intros H. destruct (String.eqb c "admission_key") eqn:E.
    + left. apply String.eqb_eq in E. now subst.
    + right. now split.
Qed.

Lemma admission_key_first_In (df : DataFrame) (c : string) :
  In c (columns (admission_key_first df)) <-> In c (columns df).
Proof.
  unfold admission_key_first.
  destruct (has_column df "admission_key") eqn:Hk; simpl andb; [|reflexivity].
  destruct (negb _); [|reflexivity].
  cbn [columns take_columns]. apply key_first_In. now apply mem_In.
Qed.

Lemma admission_key_first_column (df : DataFrame) (c : string) :
  In c (columns df) -> column (admission_key_first df) c = column df c.
Proof.
  intros Hc. unfold admission_key_first.
  destruct (has_column df "admission_key") eqn:Hk; simpl andb; [|reflexivity].
  destruct (negb _); [|reflexivity].
  apply take_columns_column. apply key_first_In; [now apply mem_In | exact Hc].
Qed.

Lemma admission_key_first_wf (df : DataFrame) : wf df -> wf (admission_key_first df).
Proof.
  intros Hwf. unfold admission_key_first.
  destruct (has_column df "admission_key" && negb _); [|exact Hwf].
  apply take_columns_wf. apply key_first_NoDup. apply Hwf.
Qed.

Lemma admission_key_first_len (df : DataFrame) :
  List.length (rows (admission_key_first df)) = List.length (rows df).
Proof.
  unfold admission_key_first.
  destruct (has_column df "admission_key" && negb _); [|reflexivity].
  cbn [rows take_columns]. apply length_map.
Qed.

Lemma admission_key_first_hd (df : DataFrame) :
  has_column df "admission_key" = true ->
  hd ""%string (columns (admission_key_first df)) = "admission_key"%string.
Proof.
  intros Hk. unfold admission_key_first. rewrite Hk. simpl andb.
  destruct (String.eqb (hd ""%string (columns df)) "admission_key") eqn:E; simpl negb; cbv iota.
  - now apply String.eqb_eq in E.
  - reflexivity.
Qed.

Lemma admission_key_first_idem (df : DataFrame) :
  admission_key_first (admission_key_first df) = admission_key_first df.
Proof.
  destruct (has_column df "admission_key") eqn:Hk.
  - unfold admission_key_first at 1.
    rewrite (admission_key_first_hd df Hk), String.eqb_refl.
    now rewrite andb_false_r.
  - unfold admission_key_first. rewrite Hk. simpl andb. cbv iota. now rewrite Hk.
Qed.

Lemma admission_key_first_length (df : DataFrame) :
  NoDup (columns df) ->
  List.length (columns (admission_key_first df)) = List.length (columns df).
Proof.
  intros Hnd. apply Permutation_length. apply NoDup_Permutation.
  - unfold admission_key_first.
    destruct (has_column df "admission_key" && negb _); [|exact Hnd].
    now apply key_first_NoDup.
  - exact Hnd.
  - intros c. apply admission_key_first_In.
Qed.

(** *** The admission key *)

Section AdmissionKeyFacts.
Variable float_str : Q -> string.

(** The key of a record: patient number, underscore, stay. *)
Definition admission_key_of (r : Row) : cell :=
  Str (astype_str float_str (get r "patient_sn") ++ "_"
         ++ astype_str float_str (get r "time_quantum")).

Definition replaced_cols : list string :=
  ["admission_key"; "patient_sn"; "time_quantum"; "group_name"]%string.

Lemma assign_wf (c : string) (f : Row -> cell) (df : DataFrame) :
  wf df -> wf (assign c f df).
Proof.
  intros [Hnd Hrows]. rewrite Forall_forall in Hrows.
  unfold assign, has_column. destruct (mem c (columns df)) eqn:E.
  - split; [exact Hnd|]. cbn [rows columns]. apply Forall_forall.
    intros r' Hr'. apply in_map_iff in Hr'. destruct Hr' as [r [<- Hr]].
    rewrite set_names_present; [now apply Hrows|].
    rewrite (Hrows r Hr). now apply mem_In.
  - apply mem_false in E. split.
    + cbn [columns]. apply NoDup_app; [exact Hnd | repeat constructor; intros [] |].
      intros x Hx [<- | []]. contradiction.
    + cbn [rows columns]. apply Forall_forall.
      intros r' Hr'. apply in_map_iff in Hr'. destruct Hr' as [r [<- Hr]].
      rewrite set_absent by (now rewrite (Hrows r Hr)).
      rewrite map_app, (Hrows r Hr). reflexivity.
Qed.

Lemma assign_column_same (c : string) (f : Row -> cell) (df : DataFrame) :
  column (assign c f df) c = map f (rows df).
Proof.
  unfold column, assign. cbn [rows]. rewrite map_map.
  apply map_ext. intros r. apply get_set_same.
Qed.

Lemma mem_cons (c x : string) (l : list string) :
  mem c (x :: l) = String.eqb c x || mem c l.
Proof. reflexivity. Qed.

Lemma filter_filter {A : Type} (p q : A -> bool) (l : list A) :
  filter p (filter q l) = filter (fun x => q x && p x) l.
Proof.
  induction l as [|y l IH]; [reflexivity|]. simpl.
  destruct (q y); simpl; [destruct (p y)|]; now rewrite IH.
Qed.

Lemma filter_replaced (l : list string) :
  filter (fun col => negb (String.eqb col "admission_key"))
    (filter (fun c => negb (mem c ["patient_sn"; "time_quantum"; "group_name"]%string)) l)
  = filter (fun c => negb (mem c replaced_cols)) l.
Proof.
  rewrite filter_filter. apply filter_ext. intros c.
  unfold replaced_cols. rewrite (mem_cons c "admission_key").
  rewrite negb_orb. apply andb_comm.
Qed.

Lemma process_admission_key_closed (df : DataFrame) :
  wf df ->
  has_column df "patient_sn" = true -> has_column df "time_quantum" = true ->
  process_admission_key float_str df
  = Some (take_columns
            ("admission_key"%string
               :: filter (fun c => negb (mem c replaced_cols)) (columns df))
            (mkFrame
               (filter (fun c => negb (mem c ["patient_sn"; "time_quantum"; "group_name"]%string))
                       (columns (assign "admission_key" admission_key_of df)))
               (map (keep_other ["patient_sn"; "time_quantum"; "group_name"]%string)
                    (rows (assign "admission_key" admission_key_of df))))).
Proof.
  intros Hwf Hsn Htq. unfold process_admission_key. rewrite Hsn, Htq. simpl orb. cbv iota.
  fold admission_key_of.
  rewrite (drop_present _ _ (assign_wf "admission_key" admission_key_of df Hwf)).
  f_equal. cbn [columns take_columns]. unfold take_columns. f_equal.
  - f_equal. rewrite filter_replaced. unfold assign, has_column. cbn [columns].
    destruct (mem "admission_key" (columns df)); [reflexivity|].
    rewrite filter_app. simpl. apply app_nil_r.
  - cbn [rows]. apply map_ext. intros r. f_equal. f_equal.
    rewrite filter_replaced. unfold assign, has_column. cbn [columns].
    destruct (mem "admission_key" (columns df)); [reflexivity|].
    rewrite filter_app. simpl. apply app_nil_r.
Qed.
Lemma process_admission_key_none (df : DataFrame) :
  has_column df "patient_sn" = false -> process_admission_key float_str df = None.
Proof. intros H. unfold process_admission_key. now rewrite H. Qed.
End AdmissionKeyFacts.

Definition example_raw : DataFrame :=
  mkFrame ["patient_sn"; "group_name"; "blood_sugar"; "time_quantum"]%string
    [ [("patient_sn", Str "P1"); ("group_name", Str "正常血糖"); ("blood_sugar", Flt (52 # 10));
       ("time_quantum", Int 1)];
      [("patient_sn", Str "P1"); ("group_name", Str "正常血糖"); ("blood_sugar", Flt (61 # 10));
       ("time_quantum", Int 2)] ]%string.

Lemma example_raw_wf : wf example_raw.
Proof.
  split; [apply RerunFacts.distinct_NoDup; reflexivity | repeat constructor].
Qed.

(** X3.  [process_admission_key] on a well-formed table.  It writes
    nothing exactly when patient_sn or time_quantum is missing.
    Otherwise the table it writes has admission_key as first column,
    followed by the other columns in their order without patient_sn,
    time_quantum and group_name; it has the same records; the key of a
    record is the text of its patient_sn, an underscore and the text of
    its time_quantum (a column admission_key that was already there is
    overwritten); every other column keeps its values.  A second call on
    the written table writes nothing, because patient_sn is gone. *)
Theorem process_admission_key_result :
  forall (float_str : Q -> string) (df : DataFrame),
    wf df ->
    (process_admission_key float_str df = None <->
     has_column df "patient_sn" = false \/ has_column df "time_quantum" = false)
    /\ (forall out,
          process_admission_key float_str df = Some out ->
          wf out
          /\ columns out
             = "admission_key"%string
                 :: filter (fun c => negb (mem c replaced_cols)) (columns df)
          /\ column out "admission_key" = map (admission_key_of float_str) (rows df)
          /\ (forall c, In c (columns out) -> c <> "admission_key"%string ->
                        column out c = column df c)
          /\ process_admission_key float_str out = None).
Proof.
  intros float_str df Hwf. split.
  - unfold process_admission_key.
    destruct (has_column df "patient_sn"), (has_column df "time_quantum"); simpl;
      split; intros H; try discriminate; try reflexivity; auto;
      destruct H; discriminate.
  - intros out Hrun.
    destruct (has_column df "patient_sn") eqn:Hsn.
    2:{ unfold process_admission_key in Hrun. rewrite Hsn in Hrun. discriminate. }
    destruct (has_column df "time_quantum") eqn:Htq.
    2:{ unfold process_admission_key in Hrun. rewrite Hsn, Htq in Hrun. discriminate. }
    rewrite (process_admission_key_closed float_str df Hwf Hsn Htq) in Hrun.
    injection Hrun as <-.
    set (cols := "admission_key"%string
                   :: filter (fun c => negb (mem c replaced_cols)) (columns df)).
    assert (Hnd : NoDup cols).
    { constructor; [|apply NoDup_filter; apply Hwf].
      intros H. apply filter_In in H. destruct H as [_ H]. discriminate. }
    assert (Hget : forall r c, ~ In c ["patient_sn"; "time_quantum"; "group_name"]%string ->
              get (map (fun c => (c, get (keep_other ["patient_sn"; "time_quantum"; "group_name"]%string
                                                     (set r "admission_key"
                                                          (admission_key_of float_str r))) c)) cols) c
              = if mem c cols
                then get (set r "admission_key" (admission_key_of float_str r)) c
                else NaN).
    { intros r c Hc. destruct (mem c cols) eqn:E.
      - rewrite get_take by (now apply mem_In). now apply get_keep_other.
      - apply get_absent. rewrite map_map. cbn [fst]. rewrite map_id.
        exact (proj1 (mem_false c cols) E). }
    split; [now apply take_columns_wf|]. split; [reflexivity|]. split; [|split].
    + unfold column, take_columns, assign. cbn [rows]. rewrite !map_map.
      apply map_ext. intros r.
      etransitivity; [apply (Hget r "admission_key"%string); apply mem_false; reflexivity|].
      change (mem "admission_key" cols) with true. cbv iota. apply get_set_same.
    + intros c Hc Hne. cbn [columns take_columns] in Hc.
      unfold column, take_columns, assign. cbn [rows]. rewrite !map_map.
      apply map_ext. intros r.
      assert (Hc' : ~ In c ["patient_sn"; "time_quantum"; "group_name"]%string).
      { destruct Hc as [Hc | Hc]; [congruence|]. apply filter_In in Hc.
        destruct Hc as [_ Hc].
        assert (Hm : mem c replaced_cols = false) by (apply negb_true_iff; exact Hc).
        apply mem_false in Hm. intros H. apply Hm. now right. }
      etransitivity; [exact (Hget r c Hc')|].
      rewrite (proj2 (mem_In c cols) Hc). now apply get_set_other.
    + apply process_admission_key_none.
      unfold has_column. cbn [columns take_columns]. apply mem_false.
      intros [H | H]; [discriminate|]. apply filter_In in H. destruct H as [_ H].
      discriminate.
Qed.

(** On the example: the keys P1_1 and P1_2, and the value column kept. *)
Lemma process_admission_key_result_witness :
  exists out,
    process_admission_key RerunFacts.no_float_text example_raw = Some out
    /\ columns out = ["admission_key"; "blood_sugar"]%string
    /\ column out "admission_key" = [Str "P1_1"; Str "P1_2"]
    /\ process_admission_key RerunFacts.no_float_text out = None.
Proof.
  destruct (process_admission_key RerunFacts.no_float_text example_raw) as [out|] eqn:Hrun;
    [|vm_compute in Hrun; discriminate].
  exists out. split; [reflexivity|].
  destruct (process_admission_key_result RerunFacts.no_float_text example_raw example_raw_wf)
    as [_ H].
  destruct (H out Hrun) as [_ [Hcols [Hkey [_ Hagain]]]].
  split; [rewrite Hcols; reflexivity|]. split; [rewrite Hkey; reflexivity | exact Hagain].
Defined.

(** *** The column clean-up *)

Lemma forallb_isna_false (l : list cell) :
  forallb isna l = false <-> exists v, In v l /\ isna v = false.
Proof.
  induction l as [|x l IH]; simpl.
  - split; [discriminate | intros [v [[] _]]].
  - rewrite andb_false_iff, IH. split.
    + intros [H | [v [Hv H]]]; [exists x | exists v]; auto.
    + intros [v [[<- | Hv] H]]; [now left | right; now exists v].
Qed.

(** The table after the two [drop] steps of the plain branch. *)
Definition without_redundant (df : DataFrame) : DataFrame :=
  let df1 := drop_if_any (filter (has_column df) COLUMNS_TO_DROP) df in
  drop_if_any (filter (all_na df1) (columns df1)) df1.

Lemma clean_columns_plain_full (name : string) (df : DataFrame) :
  is_drug_file name = false ->
  clean_columns name df
  = (admission_key_first (without_redundant df),
     (List.length (columns df),
      List.length (columns (admission_key_first (without_redundant df))),
      (List.length (columns df)
       - List.length (columns (admission_key_first (without_redundant df))))%nat)).
Proof.
  intros H. unfold clean_columns, without_redundant. rewrite H. cbv zeta. reflexivity.
Qed.

Lemma clean_columns_plain (name : string) (df : DataFrame) :
  is_drug_file name = false ->
  fst (clean_columns name df) = admission_key_first (without_redundant df).
Proof. intros H. now rewrite clean_columns_plain_full. Qed.

Lemma without_redundant_spec (df : DataFrame) :
  wf df ->
  wf (without_redundant df)
  /\ List.length (rows (without_redundant df)) = List.length (rows df)
  /\ (forall c, In c (columns (without_redundant df)) <->
                In c (columns df) /\ ~ In c COLUMNS_TO_DROP
                /\ exists v, In v (column df c) /\ isna v = false)
  /\ (forall c, In c (columns (without_redundant df)) ->
                column (without_redundant df) c = column df c).
Proof.
  intros Hwf. unfold without_redundant.
  rewrite (drop_if_any_present COLUMNS_TO_DROP df Hwf).
  set (df1 := mkFrame (filter (fun c => negb (mem c COLUMNS_TO_DROP)) (columns df))
                      (map (keep_other COLUMNS_TO_DROP) (rows df))).
  assert (Hwf1 : wf df1) by (now apply keep_other_wf).
  assert (Hcol1 : forall c, ~ In c COLUMNS_TO_DROP -> column df1 c = column df c)
    by (intros c Hc; now apply keep_other_column).
  set (E := filter (all_na df1) (columns df1)).
  assert (HE : filter (has_column df1) E = E).
  { apply filter_has_column. intros c Hc. apply filter_In in Hc. tauto. }
  rewrite <- HE. rewrite (drop_if_any_present E df1 Hwf1).
  assert (Hin : forall c,
            In c (filter (fun c => negb (mem c E)) (columns df1)) <->
            In c (columns df) /\ ~ In c COLUMNS_TO_DROP
            /\ exists v, In v (column df c) /\ isna v = false).
  { intros c. rewrite filter_In, negb_true_iff, mem_false.
    unfold E. rewrite filter_In. unfold df1 at 1 2. cbn [columns].
    rewrite filter_In, negb_true_iff, mem_false. split.
    - intros [[Hc Hd] Hne]. split; [exact Hc|]. split; [exact Hd|].
      apply forallb_isna_false. rewrite <- (Hcol1 c Hd).
      destruct (forallb isna (column df1 c)) eqn:Ea; [|reflexivity].
      exfalso. apply Hne. split; [now split|]. exact Ea.
    - intros [Hc [Hd Hv]]. split; [now split|].
      intros [_ Ha]. unfold all_na in Ha. rewrite (Hcol1 c Hd) in Ha.
      apply forallb_isna_false in Hv. congruence. }
  split; [now apply keep_other_wf|].
  split; [cbn [rows]; unfold df1; cbn [rows]; now rewrite !length_map|].
  split; [exact Hin|].
  intros c Hc. cbn [columns] in Hc.
  assert (HcE : ~ In c E).
  { apply filter_In in Hc. destruct Hc as [_ Hc].
    now apply negb_true_iff, mem_false in Hc. }
  rewrite (keep_other_column E df1 c HcE). apply Hcol1. now apply Hin in Hc.
Qed.

(** The plain branch finds nothing to do on its own result. *)
Lemma without_redundant_fixed (df : DataFrame) :
  wf df ->
  (forall c, In c (columns df) ->
             ~ In c COLUMNS_TO_DROP /\ exists v, In v (column df c) /\ isna v = false) ->
  without_redundant df = df.
Proof.
  intros Hwf Hall. unfold without_redundant.
  assert (H1 : filter (has_column df) COLUMNS_TO_DROP = []).
  { apply filter_none. intros c Hc. apply mem_false. intros Hin.
    now apply (Hall c Hin). }
  rewrite H1. cbn [drop_if_any].
  assert (H2 : filter (all_na df) (columns df) = []).
  { apply filter_none. intros c Hc. apply forallb_isna_false. now apply (Hall c Hc). }
  rewrite H2. reflexivity.
Qed.

Definition example_vitals : DataFrame :=
  mkFrame ["height"; "分组名称"; "admission_key"; "remark"]%string
    [ [("height", Flt (170 # 1)); ("分组名称", Str "正常血糖"); ("admission_key", Str "P1_1");
       ("remark", NaN)];
      [("height", NaN); ("分组名称", Str "正常血糖"); ("admission_key", Str "P2_1");
       ("remark", NaN)] ]%string.

Lemma example_vitals_wf : wf example_vitals.
Proof.
  split; [apply RerunFacts.distinct_NoDup; reflexivity | repeat constructor].
Qed.

(** X4.  What [clean_columns] keeps.  For a file that is not a drug-order
    file, a column of the table stays exactly when it is not one of
    COLUMNS_TO_DROP and holds at least one value that is not missing (so
    a table without records loses every column); the rows and the values
    of the columns that stay are untouched, and admission_key, when it
    stays, is the first column.  For a file whose name contains 药品 -
    the drug orders, and the non-drug orders 非药品医嘱.csv as well -
    no column is dropped. *)
Theorem clean_columns_keeps :
  forall (name : string) (df : DataFrame),
    wf df ->
    let out := fst (clean_columns name df) in
    wf out
    /\ List.length (rows out) = List.length (rows df)
    /\ (forall c, In c (columns out) -> column out c = column df c)
    /\ (has_column out "admission_key" = true ->
        hd ""%string (columns out) = "admission_key"%string)
    /\ (is_drug_file name = false ->
        forall c, In c (columns out) <->
                  In c (columns df) /\ ~ In c COLUMNS_TO_DROP
                  /\ exists v, In v (column df c) /\ isna v = false)
    /\ (is_drug_file name = true -> forall c, In c (columns out) <-> In c (columns df))
    /\ is_drug_file "药品医嘱.csv" = true
    /\ is_drug_file "非药品医嘱.csv" = true
    /\ is_drug_file "生命体征.csv" = false.
Proof.
  intros name df Hwf out.
  assert (Hhd : forall d, has_column (admission_key_first d) "admission_key" = true ->
                  hd ""%string (columns (admission_key_first d)) = "admission_key"%string).
  { intros d H. apply admission_key_first_hd. apply mem_In.
    apply admission_key_first_In. now apply mem_In. }
  destruct (is_drug_file name) eqn:Hdrug.
  - assert (Hout : out = admission_key_first df)
      by (unfold out, clean_columns; rewrite Hdrug; reflexivity).
    rewrite Hout.
    split; [now apply admission_key_first_wf|].
    split; [apply admission_key_first_len|].
    split; [intros c Hc; apply admission_key_first_column;
            exact (proj1 (admission_key_first_In df c) Hc)|].
    split; [apply Hhd|].
    split; [discriminate|].
    split; [intros _ c; apply admission_key_first_In|].
    repeat split; vm_compute; reflexivity.
  - assert (Hout : out = admission_key_first (without_redundant df))
      by (now apply clean_columns_plain).
    rewrite Hout.
    destruct (without_redundant_spec df Hwf) as [Hwf2 [Hlen [Hin Hcol]]].
    split; [now apply admission_key_first_wf|].
    split; [now rewrite admission_key_first_len|].
    split.
    { intros c Hc. apply (proj1 (admission_key_first_In _ c)) in Hc.
      rewrite (admission_key_first_column _ c Hc). now apply Hcol. }
    split; [apply Hhd|].
    split; [intros _ c; rewrite admission_key_first_In; apply Hin|].
    split; [discriminate|].
    repeat split; vm_compute; reflexivity.
Qed.

(** In the example the column 分组名称 (redundant) and the column remark
    (all values missing) go, and admission_key moves to the front. *)
Lemma clean_columns_keeps_witness :
  columns (fst (clean_columns "生命体征.csv" example_vitals))
  = ["admission_key"; "height"]%string
  /\ column (fst (clean_columns "生命体征.csv" example_vitals)) "height"
     = column example_vitals "height".
Proof.
  destruct (clean_columns_keeps "生命体征.csv" example_vitals example_vitals_wf)
    as [_ [_ [Hcol _]]].
  split; [vm_compute; reflexivity|].
  apply Hcol. vm_compute. right. left. reflexivity.
Defined.

(** X5.  [clean_columns] is idempotent: applied to the table it left, it
    leaves the same table and reports that it deleted no column. *)
Theorem clean_columns_rerun :
  forall (name : string) (df : DataFrame),
    wf df ->
    let out := fst (clean_columns name df) in
    clean_columns name out
    = (out, (List.length (columns out), List.length (columns out), 0%nat)).
Proof.
  intros name df Hwf out.
  destruct (is_drug_file name) eqn:Hdrug.
  - assert (Hout : out = admission_key_first df)
      by (unfold out, clean_columns; rewrite Hdrug; reflexivity).
    rewrite Hout. unfold clean_columns. rewrite Hdrug.
    now rewrite admission_key_first_idem.
  - assert (Hout : out = admission_key_first (without_redundant df))
      by (now apply clean_columns_plain).
    destruct (without_redundant_spec df Hwf) as [Hwf2 [_ [Hin Hcol]]].
    assert (Hfix : without_redundant out = out).
    { apply without_redundant_fixed.
      - rewrite Hout. now apply admission_key_first_wf.
      - intros c Hc. rewrite Hout in Hc |- *.
        pose proof (proj1 (admission_key_first_In _ c) Hc) as Hc2.
        rewrite (admission_key_first_column _ c Hc2), (Hcol c Hc2).
        now apply Hin in Hc2. }
    assert (Hk : admission_key_first out = out)
      by (rewrite Hout; apply admission_key_first_idem).
    rewrite (clean_columns_plain_full name out Hdrug), Hfix, Hk.
    now rewrite Nat.sub_diag.
Qed.

Lemma clean_columns_rerun_witness :
  clean_columns "生命体征.csv" (fst (clean_columns "生命体征.csv" example_vitals))
  = (fst (clean_columns "生命体征.csv" example_vitals), (2%nat, 2%nat, 0%nat)).
Proof.
  exact (clean_columns_rerun "生命体征.csv" example_vitals example_vitals_wf).
Defined.

End ColumnsFacts.

(** ** 步骤1: the campus of a department *)

Module CampusFacts.

Import Frame Campus FrameFacts.
Local Open Scope list_scope.

Lemma append_assoc (a b c : string) :
  ((a ++ b) ++ c)%string = (a ++ b ++ c)%string.
Proof. induction a as [|x a IH]; simpl; [reflexivity | now rewrite IH]. Qed.

Lemma append_nil_r (a : string) : (a ++ "")%string = a.
Proof. induction a as [|x a IH]; simpl; [reflexivity | now rewrite IH]. Qed.

Lemma drop_append (a b : string) : drop (String.length a) (a ++ b)%string = b.
Proof.
  induction a as [|x a IH]; simpl; [destruct b; reflexivity | exact IH].
Qed.

Lemma class_prefix_zero (class : list string) (s : string) :
  (forall w, In w class -> w <> ""%string) ->
  (class_prefix class s = 0%nat <-> forall w, In w class -> prefix w s = false).
Proof.
  intros Hne. unfold class_prefix.
  destruct (List.find (fun w => prefix w s) class) as [w|] eqn:E.
  - apply find_some in E. destruct E as [Hw Hp]. split.
    + intros H. exfalso. apply (Hne w Hw). now destruct w.
    + intros H. rewrite (H w Hw) in Hp. discriminate.
  - split; [|reflexivity]. intros _ w Hw.
    exact (find_none _ _ E w Hw).
Qed.

Lemma class_prefix_some (class : list string) (s : string) (n : nat) :
  class_prefix class s = S n ->
  exists w rest, In w class /\ s = (w ++ rest)%string /\ String.length w = S n.
Proof.
  unfold class_prefix.
  destruct (List.find (fun w => prefix w s) class) as [w|] eqn:E; [|discriminate].
  apply find_some in E. destruct E as [Hw Hp]. intros Hn.
  apply TextFacts.prefix_append in Hp. destruct Hp as [rest ->].
  now exists w, rest.
Qed.

Lemma prefix_self (w x : string) : prefix w (w ++ x)%string = true.
Proof. apply TextFacts.prefix_append. now exists x. Qed.

(** The two brackets of a class start with different bytes. *)
Lemma class_prefix_at (class : list string) (w x : string) :
  In w class ->
  (forall w', In w' class -> w' <> w -> prefix w' (w ++ x)%string = false) ->
  class_prefix class (w ++ x)%string = String.length w.
Proof.
  intros Hw Hother. unfold class_prefix.
  destruct (List.find (fun w' => prefix w' (w ++ x)%string) class) as [w'|] eqn:E.
  - apply find_some in E. destruct E as [Hw' Hp].
    destruct (string_dec w' w) as [-> | Hne]; [reflexivity|].
    rewrite (Hother w' Hw' Hne) in Hp. discriminate.
  - pose proof (find_none _ _ E w Hw) as H. cbv beta in H.
    rewrite prefix_self in H. discriminate.
Qed.

Lemma prefix_other (a b : ascii) (w x y : string) :
  a <> b -> prefix (String a w) (String b x ++ y)%string = false.
Proof. intros H. simpl. destruct (ascii_dec a b); [contradiction | reflexivity]. Qed.

Lemma class_prefix_bracket (class : list string) (w x : string) :
  class = OPENING \/ class = CLOSING -> In w class ->
  class_prefix class (w ++ x)%string = String.length w.
Proof.
  intros Hclass Hw. apply class_prefix_at; [exact Hw|].
  intros w' Hw' Hne.
  destruct Hclass as [-> | ->];
    destruct Hw as [<- | [<- | []]]; destruct Hw' as [<- | [<- | []]];
    try contradiction; apply prefix_other; discriminate.
Qed.

Lemma OPENING_nonempty (w : string) : In w OPENING -> w <> ""%string.
Proof. intros [<- | [<- | []]]; discriminate. Qed.

Lemma CLOSING_nonempty (w : string) : In w CLOSING -> w <> ""%string.
Proof. intros [<- | [<- | []]]; discriminate. Qed.

(** A bracket that starts inside a text and is followed by a bracket
    lies inside the text: the bytes of two brackets do not overlap. *)
Lemma bracket_inside (w r x rest : string) :
  In w (OPENING ++ CLOSING) -> In r (OPENING ++ CLOSING) ->
  x <> ""%string -> prefix w (x ++ r ++ rest)%string = true ->
  exists x', x = (w ++ x')%string.
Proof.
  intros Hw Hr Hx Hp. apply TextFacts.prefix_append in Hp. destruct Hp as [post Hp].
  destruct x as [|a1 x]; [contradiction|].
  simpl in Hw, Hr.
  destruct Hw as [<- | [<- | [<- | [<- | []]]]];
    destruct Hr as [<- | [<- | [<- | [<- | []]]]];
    simpl in Hp;
    repeat match goal with
           | H : String _ _ = String _ _ |- _ => injection H as -> H
           end;
    try (eexists; reflexivity);
    (destruct x as [|a2 x]; simpl in Hp; [discriminate Hp|]; injection Hp as -> Hp);
    (destruct x as [|a3 x]; simpl in Hp; [discriminate Hp|]; injection Hp as -> Hp);
    eexists; reflexivity.
Qed.

(** No bracket of [class] occurs in [x]. *)
Definition free (class : list string) (x : string) : Prop :=
  forall w, In w class -> ~ Text.occurs w x.

(** No bracket of [class] starts at a position of [x], [x] standing
    before [rest]. *)
Definition clear_before (class : list string) (x rest : string) : Prop :=
  forall x1 x2, x = (x1 ++ x2)%string -> x2 <> ""%string ->
                class_prefix class (x2 ++ rest)%string = 0%nat.

Lemma free_clear (class : list string) (x r rest : string) :
  (forall w, In w class -> In w (OPENING ++ CLOSING)) ->
  free class x -> In r (OPENING ++ CLOSING) ->
  clear_before class x (r ++ rest)%string.
Proof.
  intros Hsub Hfree Hr x1 x2 -> Hx2.
  apply class_prefix_zero.
  { intros w Hw. specialize (Hsub w Hw). apply in_app_iff in Hsub.
    destruct Hsub; [now apply OPENING_nonempty | now apply CLOSING_nonempty]. }
  intros w Hw. destruct (prefix w (x2 ++ r ++ rest)%string) eqn:E; [|reflexivity].
  exfalso. destruct (bracket_inside w r x2 rest (Hsub w Hw) Hr Hx2 E) as [x' ->].
  apply (Hfree w Hw). now exists x1, x'.
Qed.

Lemma clear_free (class : list string) (x rest : string) :
  (forall w, In w class -> w <> ""%string) ->
  clear_before class x rest -> free class x.
Proof.
  intros Hne Hclear w Hw [pre [post ->]].
  assert (Hx2 : (w ++ post)%string <> ""%string).
  { intros H. apply (Hne w Hw). destruct w; [reflexivity | discriminate]. }
  pose proof (Hclear pre (w ++ post)%string eq_refl Hx2) as H0.
  pose proof (proj1 (class_prefix_zero class _ Hne) H0 w Hw) as H2.
  assert (H1 : prefix w ((w ++ post) ++ rest)%string = true).
  { apply TextFacts.prefix_append. exists (post ++ rest)%string. apply append_assoc. }
  congruence.
Qed.

Lemma clear_before_tail (class : list string) (a : ascii) (x rest : string) :
  clear_before class (String a x) rest -> clear_before class x rest.
Proof.
  intros H x1 x2 -> Hx2. apply (H (String a x1) x2); [reflexivity | exact Hx2].
Qed.

Lemma clear_before_head (class : list string) (a : ascii) (x rest : string) :
  clear_before class (String a x) rest ->
  class_prefix class (String a (x ++ rest))%string = 0%nat.
Proof.
  intros H. apply (H ""%string (String a x)); [reflexivity | discriminate].
Qed.

(** *** The group *)

Lemma before_closing_found (g rest : string) :
  clear_before CLOSING g rest -> class_prefix CLOSING rest <> 0%nat ->
  before_closing (g ++ rest)%string = Some g.
Proof.
  intros Hclear Hrest. induction g as [|a g IH].
  - simpl. destruct rest as [|c rest]; [now contradict Hrest|].
    simpl. destruct (class_prefix CLOSING (String c rest)); [contradiction | reflexivity].
  - change (String a g ++ rest)%string with (String a (g ++ rest)%string).
    cbn [before_closing].
    rewrite (clear_before_head CLOSING a g rest Hclear).
    rewrite IH; [reflexivity|]. now apply (clear_before_tail CLOSING a).
Qed.

Lemma before_closing_sound (s g : string) :
  before_closing s = Some g ->
  exists rest, s = (g ++ rest)%string /\ class_prefix CLOSING rest <> 0%nat
               /\ clear_before CLOSING g rest.
Proof.
  revert g. induction s as [|c s IH]; intros g H; [discriminate|].
  cbn [before_closing] in H.
  destruct (class_prefix CLOSING (String c s)) eqn:E.
  - destruct (before_closing s) as [g'|] eqn:Eg; [|discriminate].
    injection H as <-. destruct (IH g' eq_refl) as [rest [-> [Hr Hc]]].
    exists rest. split; [reflexivity|]. split; [exact Hr|].
    intros x1 x2 Hx Hx2. destruct x1 as [|a x1].
    + simpl in Hx. subst x2. exact E.
    + simpl in Hx. injection Hx as -> ->. now apply (Hc x1 x2).
  - injection H as <-. exists (String c s). split; [reflexivity|].
    split; [now rewrite E|].
    intros x1 x2 Hx Hx2. destruct x1; [simpl in Hx; now subst | discriminate].
Qed.

(** *** The leftmost match *)

Lemma match_at_found (o g c post : string) :
  In o OPENING -> In c CLOSING -> g <> ""%string -> free CLOSING g ->
  match_at (o ++ g ++ c ++ post)%string = Some g.
Proof.
  intros Ho Hc Hg Hfree. unfold match_at.
  rewrite (class_prefix_bracket OPENING o _ (or_introl eq_refl) Ho).
  assert (Hg' : before_closing (g ++ c ++ post)%string = Some g).
  { apply before_closing_found.
    - apply free_clear; [intros w Hw; apply in_app_iff; now right | exact Hfree |].
      apply in_app_iff. now right.
    - rewrite (class_prefix_bracket CLOSING c _ (or_intror eq_refl) Hc).
      intros H. apply (CLOSING_nonempty c Hc). now destruct c. }
  destruct (String.length o) as [|n] eqn:En.
  { exfalso. apply (OPENING_nonempty o Ho). now destruct o. }
  rewrite <- En, drop_append, Hg'. destruct g; [contradiction | reflexivity].
Qed.

Lemma match_at_sound (s g : string) :
  match_at s = Some g ->
  exists o c post, s = (o ++ g ++ c ++ post)%string /\ In o OPENING /\ In c CLOSING
                   /\ g <> ""%string /\ free CLOSING g.
Proof.
  unfold match_at. destruct (class_prefix OPENING s) as [|n] eqn:E; [discriminate|].
  destruct (class_prefix_some OPENING s n E) as [o [x [Ho [-> Hlen]]]].
  rewrite <- Hlen, drop_append.
  destruct (before_closing x) as [[|a g']|] eqn:Eg; try discriminate.
  intros [= <-].
  destruct (before_closing_sound x _ Eg) as [rest [-> [Hr Hclear]]].
  destruct (class_prefix CLOSING rest) as [|m] eqn:Er; [contradiction|].
  destruct (class_prefix_some CLOSING rest m Er) as [c [post [Hc [-> _]]]].
  exists o, c, post. split; [reflexivity|]. split; [exact Ho|]. split; [exact Hc|].
  split; [discriminate|].
  apply (clear_free CLOSING _ (c ++ post)%string); [apply CLOSING_nonempty | exact Hclear].
Qed.

Lemma search_skip (pre rest : string) :
  clear_before OPENING pre rest -> search (pre ++ rest)%string = search rest.
Proof.
  intros Hclear. induction pre as [|a pre IH]; [reflexivity|].
  change (String a pre ++ rest)%string with (String a (pre ++ rest)%string).
  cbn [search]. unfold match_at at 1.
  rewrite (clear_before_head OPENING a pre rest Hclear).
  apply IH. now apply (clear_before_tail OPENING a).
Qed.

Lemma search_found (s g : string) : match_at s = Some g -> search s = Some g.
Proof. intros H. destruct s; cbn [search]; now rewrite H. Qed.

Lemma search_sound (s g : string) :
  search s = Some g ->
  exists pre o c post, s = (pre ++ o ++ g ++ c ++ post)%string /\ In o OPENING
                       /\ In c CLOSING /\ g <> ""%string /\ free CLOSING g.
Proof.
  induction s as [|a s IH]; cbn [search].
  - destruct (match_at ""%string) eqn:E; [|discriminate]. intros [= <-].
    destruct (match_at_sound _ _ E) as [o [c [post H]]]. now exists ""%string, o, c, post.
  - destruct (match_at (String a s)) eqn:E.
    + intros [= <-]. destruct (match_at_sound _ _ E) as [o [c [post H]]].
      now exists ""%string, o, c, post.
    + intros H. destruct (IH H) as [pre [o [c [post [-> Hrest]]]]].
      now exists (String a pre), o, c, post.
Qed.

(** The text the pattern is searched in: the text of the value,
    stripped, without tabs. *)
Definition department_text (float_str : Q -> string) (dept_str : cell) : string :=
  Text.remove_char Text.TAB (Text.strip (astype_str float_str dept_str)).

(** X6.  [_extract_campus] returns the content of the first pair of
    brackets.  A missing value gives None.  When the department text is
    [pre], an opening bracket (full-width or ASCII), a non-empty [g]
    without closing bracket, a closing bracket, and a rest, and [pre]
    holds no opening bracket, the result is [g] stripped.  Conversely
    every result is the stripped content [g] of such a pair, never empty
    before stripping and never holding a closing bracket.  So a
    department with two bracket pairs gives the first content:
    内分泌科（外滩） gives 外滩, and CCU病房（心血管内科）（外滩） gives
    心血管内科. *)
Theorem extract_campus_first_pair :
  forall float_str : Q -> string,
    _extract_campus float_str NaN = None
    /\ (forall dept_str pre o g c post,
          isna dept_str = false ->
          department_text float_str dept_str = (pre ++ o ++ g ++ c ++ post)%string ->
          In o OPENING -> In c CLOSING -> g <> ""%string ->
          free OPENING pre -> free CLOSING g ->
          _extract_campus float_str dept_str = Some (Text.strip g))
    /\ (forall dept_str campus,
          _extract_campus float_str dept_str = Some campus ->
          exists pre o g c post,
            department_text float_str dept_str = (pre ++ o ++ g ++ c ++ post)%string
            /\ In o OPENING /\ In c CLOSING /\ g <> ""%string /\ free CLOSING g
            /\ campus = Text.strip g)
    /\ _extract_campus float_str (Str "内分泌科（外滩）") = Some "外滩"%string
    /\ _extract_campus float_str (Str "CCU病房（心血管内科）（外滩）")
       = Some "心血管内科"%string
    /\ _extract_campus float_str (Str "内分泌科 (月湖 )") = Some "月湖"%string
    /\ _extract_campus float_str (Str "内分泌科") = None.
Proof.
  intros float_str. split; [reflexivity|]. split; [|split].
  - intros dept_str pre o g c post Hna Htext Ho Hc Hg Hpre Hfree.
    unfold _extract_campus. rewrite Hna. fold (department_text float_str dept_str).
    rewrite Htext, search_skip.
    + rewrite (search_found _ g); [reflexivity|]. now apply match_at_found.
    + apply free_clear; [intros w Hw; apply in_app_iff; now left | exact Hpre |].
      apply in_app_iff. now left.
  - intros dept_str campus. unfold _extract_campus.
    destruct (isna dept_str); [discriminate|].
    fold (department_text float_str dept_str).
    destruct (search (department_text float_str dept_str)) as [g|] eqn:E; [|discriminate].
    intros [= <-].
    destruct (search_sound _ g E) as [pre [o [c [post [Hs [Ho [Hc [Hg Hfree]]]]]]]].
    exists pre, o, g, c, post. repeat split; assumption.
  - repeat split; vm_compute; reflexivity.
Qed.

(** The first clause at the department 重症医学科（外滩）. *)
Lemma extract_campus_first_pair_witness :
  _extract_campus RerunFacts.no_float_text (Str "重症医学科（外滩）") = Some "外滩"%string.
Proof.
  destruct (extract_campus_first_pair RerunFacts.no_float_text) as [_ [H _]].
  apply (H (Str "重症医学科（外滩）") "重症医学科"%string "（"%string "外滩"%string "）"%string
           ""%string).
  - reflexivity.
  - vm_compute. reflexivity.
  - left. reflexivity.
  - right. left. reflexivity.
  - discriminate.
  - intros w Hw Hocc. apply TextFacts.find_occurs in Hocc.
    destruct Hw as [<- | [<- | []]]; vm_compute in Hocc; discriminate.
  - intros w Hw Hocc. apply TextFacts.find_occurs in Hocc.
    destruct Hw as [<- | [<- | []]]; vm_compute in Hocc; discriminate.
Defined.

Lemma assign_new_column (c : string) (f : Row -> cell) (df : DataFrame) :
  has_column (assign c f df) c = true.
Proof.
  unfold assign. unfold has_column. cbn [columns].
  destruct (mem c (columns df)) eqn:E; [exact E|].
  apply (proj2 (mem_In c (columns df ++ [c]))). apply in_app_iff. right. now left.
Qed.

(** X7.  The campus column of 住院.csv is computed once.  Without a
    visit_department column, or with a Campus column already there, the
    table is left as it is; otherwise Campus is added as the last column,
    holding for every record the campus of its visit_department (missing
    where there is none), and no other value changes.  Running the step
    on its own result changes nothing. *)
Theorem add_campus_once :
  forall (float_str : Q -> string) (df : DataFrame),
    (has_column df "visit_department" = false \/ has_column df "Campus" = true ->
     add_campus float_str df = df)
    /\ (has_column df "visit_department" = true -> has_column df "Campus" = false ->
        columns (add_campus float_str df) = columns df ++ ["Campus"%string]
        /\ column (add_campus float_str df) "Campus"
           = map (fun v => match _extract_campus float_str v with
                           | Some campus => Str campus
                           | None => NaN
                           end) (column df "visit_department")
        /\ forall c, c <> "Campus"%string ->
                     column (add_campus float_str df) c = column df c)
    /\ add_campus float_str (add_campus float_str df) = add_campus float_str df.
Proof.
  intros float_str df. split; [|split].
  - intros [H | H]; unfold add_campus; rewrite H; [reflexivity|].
    now destruct (negb (has_column df "visit_department")).
  - intros Hv Hc. unfold add_campus. rewrite Hv, Hc. simpl negb. cbv iota.
    split; [unfold assign; now rewrite Hc|]. split.
    + unfold column, assign. cbn [rows]. rewrite !map_map.
      apply map_ext. intros r. apply get_set_same.
    + intros c Hne. now apply RerunFacts.column_assign_other.
  - destruct (has_column df "visit_department") eqn:Hv.
    2:{ unfold add_campus. rewrite Hv. simpl negb. cbv iota. now rewrite Hv. }
    destruct (has_column df "Campus") eqn:Hc.
    { unfold add_campus. rewrite Hv, Hc. simpl negb. cbv iota. now rewrite Hv, Hc. }
    assert (Hadd : add_campus float_str df
                   = assign "Campus"
                       (fun r => match _extract_campus float_str (get r "visit_department") with
                                 | Some campus => Str campus
                                 | None => NaN
                                 end) df)
      by (unfold add_campus; now rewrite Hv, Hc).
    rewrite Hadd. unfold add_campus. rewrite assign_new_column.
    destruct (negb _); reflexivity.
Qed.

Definition example_stays : DataFrame :=
  mkFrame ["admission_key"; "visit_department"]%string
    [ [("admission_key", Str "P1_1"); ("visit_department", Str "内分泌科（外滩）")];
      [("admission_key", Str "P2_1"); ("visit_department", NaN)];
      [("admission_key", Str "P3_1"); ("visit_department", Str (String Text.TAB "急诊科(月湖) "))] ]%string.

Lemma add_campus_once_witness :
  column (add_campus RerunFacts.no_float_text example_stays) "Campus"
  = [Str "外滩"; NaN; Str "月湖"]
  /\ add_campus RerunFacts.no_float_text (add_campus RerunFacts.no_float_text example_stays)
     = add_campus RerunFacts.no_float_text example_stays.
Proof.
  destruct (add_campus_once RerunFacts.no_float_text example_stays) as [_ [H Hagain]].
  destruct (H eq_refl eq_refl) as [_ [Hcol _]].
  split; [rewrite Hcol; vm_compute; reflexivity | exact Hagain].
Defined.

End CampusFacts.

(** ** 步骤2: the cohort after the filter *)

Module CohortFacts.

Import Frame Step2 Cohort FrameFacts.
Local Open Scope list_scope.

Lemma exclude_all_files_fst (files : Files) (excluded : list cell) :
  fst (exclude_patients_from_all_files files excluded)
  = map (fun nd => (fst nd, fst (exclude_from_file excluded (snd nd)))) files.
Proof.
  induction files as [|[name df] rest IH]; [reflexivity|].
  simpl. destruct (exclude_from_file excluded df) as [df' deleted] eqn:E1.
  destruct (exclude_patients_from_all_files rest excluded) as [rest' total] eqn:E2.
  simpl in *. now rewrite IH.
Qed.

Lemma lookup_map (f : DataFrame -> DataFrame) (files : Files) (name : string) :
  lookup name (map (fun nd => (fst nd, f (snd nd))) files) = option_map f (lookup name files).
Proof.
  induction files as [|[n df] rest IH]; [reflexivity|].
  simpl. destruct (String.eqb n name); [reflexivity | exact IH].
Qed.

Lemma exclude_from_file_columns (excluded : list cell) (df : DataFrame) :
  columns (fst (exclude_from_file excluded df)) = columns df.
Proof.
  unfold exclude_from_file. destruct (has_column df "admission_key"); reflexivity.
Qed.

Lemma exclude_from_file_has_column (excluded : list cell) (df : DataFrame) (c : string) :
  has_column (fst (exclude_from_file excluded df)) c = has_column df c.
Proof. unfold has_column. now rewrite exclude_from_file_columns. Qed.

Lemma exclude_nobody (df : DataFrame) : exclude_from_file [] df = (df, 0%nat).
Proof.
  unfold exclude_from_file. destruct (has_column df "admission_key"); [|reflexivity].
  unfold select, len. simpl.
  rewrite (filter_all _ (rows df)) by reflexivity.
  rewrite Nat.sub_diag. destruct df; reflexivity.
Qed.

Lemma exclude_nobody_all (files : Files) :
  exclude_patients_from_all_files files [] = (files, 0%nat).
Proof.
  induction files as [|[name df] rest IH]; [reflexivity|].
  simpl. rewrite exclude_nobody, IH. reflexivity.
Qed.

Lemma isin_app (a b : list cell) (v : cell) : isin (a ++ b) v = isin a v || isin b v.
Proof. unfold isin. apply existsb_app. Qed.

Lemma isin_In (values : list cell) (v : cell) : In v values -> isin values v = true.
Proof.
  intros H. unfold isin. apply existsb_exists. exists v. split; [exact H|].
  apply cell_eqb_refl.
Qed.

Lemma isin_flat_map {A : Type} (f : A -> list cell) (l : list A) (x : A) (v : cell) :
  In x l -> isin (f x) v = true -> isin (flat_map f l) v = true.
Proof.
  intros Hx Hv. unfold isin in *. apply existsb_exists in Hv.
  destruct Hv as [y [Hy He]]. apply existsb_exists. exists y. split; [|exact He].
  apply in_flat_map. now exists x.
Qed.

Lemma some_inj {A : Type} (x y : A) : Some x = Some y -> x = y.
Proof. now intros [= ->]. Qed.

Lemma flat_map_nil {A B : Type} (f : A -> list B) (l : list A) :
  (forall x, In x l -> f x = []) -> flat_map f l = [].
Proof.
  induction l as [|x l IH]; intros H; simpl; [reflexivity|].
  rewrite (H x (or_introl eq_refl)), IH; [reflexivity|].
  intros y Hy. apply H. now right.
Qed.

Section ExclusionFacts.
Variable float_str : Q -> string.
Variable re_search : string -> string -> bool.

Abbreviation contains := (contains float_str re_search).
Abbreviation matching_patients := (matching_patients float_str re_search).

(** The admission of a matching record is among the matching patients,
    under any key that compares equal to its own. *)
Lemma matching_patients_isin (df : DataFrame) (col keyword : string) (r : Row) (v : cell) :
  In r (rows df) -> contains col keyword r = true ->
  cell_eqb v (get r "admission_key") = true ->
  isin (matching_patients df col keyword) v = true.
Proof.
  intros Hr Hm He. unfold isin. apply existsb_exists.
  exists (get r "admission_key"). split; [|exact He].
  unfold Cohort.matching_patients. apply in_map_iff. exists r. split; [reflexivity|].
  apply filter_In. now split.
Qed.

(** After the rows of [excluded] are gone, a search whose matches were
    all in [excluded] finds nobody. *)
Lemma matching_patients_gone (excluded : list cell) (df : DataFrame) (col keyword : string) :
  has_column df "admission_key" = true ->
  (forall r, In r (rows df) -> contains col keyword r = true ->
             isin excluded (get r "admission_key") = true) ->
  matching_patients (fst (exclude_from_file excluded df)) col keyword = [].
Proof.
  intros Hk Hall. unfold Cohort.matching_patients.
  rewrite (filter_none _ (rows (fst (exclude_from_file excluded df)))); [reflexivity|].
  intros r Hr. apply Step2Facts.exclude_from_file_rows in Hr; [|exact Hk].
  destruct Hr as [Hr Hout].
  destruct (Cohort.contains float_str re_search col keyword r) eqn:E; [|reflexivity].
  rewrite (Hall r Hr E) in Hout. discriminate.
Qed.

Lemma find_excluded_patients_isin (df : DataFrame) (found : list cell) (keyword : string)
      (r : Row) (v : cell) :
  find_excluded_patients float_str re_search df = Some found ->
  has_column df "disease_name" = true ->
  In keyword DIAGNOSIS_EXCLUSION -> In r (rows df) ->
  contains "disease_name" keyword r = true ->
  cell_eqb v (get r "admission_key") = true ->
  isin found v = true.
Proof.
  unfold find_excluded_patients. destruct (has_column df "admission_key"); [|discriminate].
  intros Hf Hd Hkw Hr Hm He. apply some_inj in Hf. subst found.
  apply (isin_flat_map _ _ keyword); [exact Hkw|]. rewrite Hd.
  now apply (matching_patients_isin df _ _ r).
Qed.

Lemma find_excluded_patients_gone (excluded found : list cell) (df : DataFrame) :
  find_excluded_patients float_str re_search df = Some found ->
  (forall v, isin found v = true -> isin excluded v = true) ->
  find_excluded_patients float_str re_search (fst (exclude_from_file excluded df)) = Some [].
Proof.
  intros Hf Hsub. pose proof Hf as Hf'. unfold find_excluded_patients in Hf' |- *.
  rewrite !exclude_from_file_has_column.
  destruct (has_column df "admission_key") eqn:Hk; [|discriminate].
  f_equal. apply flat_map_nil. intros keyword Hkw.
  destruct (has_column df "disease_name") eqn:Hd; [|reflexivity].
  apply matching_patients_gone; [exact Hk|].
  intros r Hr Hm. apply Hsub.
  apply (find_excluded_patients_isin df found keyword r); try assumption.
  apply cell_eqb_refl.
Qed.

Lemma file_icu_patients_isin (df : DataFrame) (cols : list string) (found : list cell)
      (c d : string) (r : Row) (v : cell) :
  file_icu_patients float_str re_search df cols = Some found ->
  In c cols -> has_column df c = true -> In d DEPARTMENT_EXCLUSION ->
  In r (rows df) -> contains c d r = true ->
  cell_eqb v (get r "admission_key") = true ->
  isin found v = true.
Proof.
  unfold file_icu_patients. intros Hf Hc Hhas Hd Hr Hm He.
  assert (Hin : In c (filter (has_column df) cols)) by (apply filter_In; now split).
  destruct (filter (has_column df) cols) as [|c0 cs] eqn:E; [destruct Hin|].
  destruct (has_column df "admission_key"); [|discriminate].
  apply some_inj in Hf. subst found.
  apply (isin_flat_map _ _ c); [exact Hin|].
  apply (isin_flat_map _ _ d); [exact Hd|].
  now apply (matching_patients_isin df _ _ r).
Qed.

Lemma file_icu_patients_gone (excluded found : list cell) (df : DataFrame) (cols : list string) :
  file_icu_patients float_str re_search df cols = Some found ->
  (forall v, isin found v = true -> isin excluded v = true) ->
  file_icu_patients float_str re_search (fst (exclude_from_file excluded df)) cols = Some [].
Proof.
  intros Hf Hsub. pose proof Hf as Hf'. unfold file_icu_patients in Hf' |- *.
  assert (Hcols : filter (has_column (fst (exclude_from_file excluded df))) cols
                  = filter (has_column df) cols).
  { apply filter_ext. intros c. apply exclude_from_file_has_column. }
  rewrite Hcols, exclude_from_file_has_column.
  destruct (filter (has_column df) cols) as [|c0 cs] eqn:E; [reflexivity|].
  destruct (has_column df "admission_key") eqn:Hk; [|discriminate].
  f_equal. apply flat_map_nil. intros c Hc. apply flat_map_nil. intros d Hd.
  apply matching_patients_gone; [exact Hk|].
  intros r Hr Hm. apply Hsub.
  assert (Hc' : In c (filter (has_column df) cols)) by (rewrite E; exact Hc).
  apply filter_In in Hc'. destruct Hc' as [Hc1 Hc2].
  apply (file_icu_patients_isin df cols found c d r); try assumption.
  apply cell_eqb_refl.
Qed.

Lemma icu_patients_of_isin (files : Files) (checks : list (string * list string))
      (found : list cell) (name : string) (cols : list string) (df : DataFrame) (v : cell)
      (file_icu : list cell) :
  icu_patients_of float_str re_search files checks = Some found ->
  In (name, cols) checks -> lookup name files = Some df ->
  file_icu_patients float_str re_search df cols = Some file_icu ->
  isin file_icu v = true -> isin found v = true.
Proof.
  revert found. induction checks as [|[n cs] rest IH]; intros found Hf Hin Hl Hfile Hv;
    [destruct Hin|].
  simpl in Hf. destruct Hin as [Heq | Hin].
  - injection Heq as -> ->. rewrite Hl, Hfile in Hf.
    destruct (icu_patients_of float_str re_search files rest) as [icu|]; [|discriminate].
    injection Hf as <-. rewrite isin_app, Hv. reflexivity.
  - destruct (lookup n files) as [df0|]; [|now apply IH].
    destruct (file_icu_patients float_str re_search df0 cs) as [a|]; [|discriminate].
    destruct (icu_patients_of float_str re_search files rest) as [icu|] eqn:E; [|discriminate].
    injection Hf as <-. rewrite isin_app, (IH icu eq_refl Hin Hl Hfile Hv).
    apply orb_true_r.
Qed.

Lemma icu_patients_of_gone (excluded : list cell) (files : Files)
      (checks : list (string * list string)) (found : list cell) :
  icu_patients_of float_str re_search files checks = Some found ->
  (forall v, isin found v = true -> isin excluded v = true) ->
  icu_patients_of float_str re_search
    (map (fun nd => (fst nd, fst (exclude_from_file excluded (snd nd)))) files) checks
  = Some [].
Proof.
  revert found. induction checks as [|[n cs] rest IH]; intros found Hf Hsub; [reflexivity|].
  simpl in Hf |- *.
  rewrite (lookup_map (fun df => fst (exclude_from_file excluded df))).
  destruct (lookup n files) as [df|]; simpl; [|now apply (IH found)].
  destruct (file_icu_patients float_str re_search df cs) as [a|] eqn:Ea; [|discriminate].
  destruct (icu_patients_of float_str re_search files rest) as [icu|] eqn:Ei; [|discriminate].
  injection Hf as <-.
  rewrite (file_icu_patients_gone excluded a df cs Ea).
  - rewrite (IH icu eq_refl); [reflexivity|].
    intros v Hv. apply Hsub. rewrite isin_app, Hv. apply orb_true_r.
  - intros v Hv. apply Hsub. rewrite isin_app, Hv. reflexivity.
Qed.

(** What a completed run decided and wrote. *)
Lemma cohort_filter_done (files files' : Files) (diagnosis : DataFrame) :
  lookup "诊断.csv" files = Some diagnosis ->
  cohort_filter float_str re_search files = Some files' ->
  exists excluded_diagnosis excluded_icu,
    find_excluded_patients float_str re_search diagnosis = Some excluded_diagnosis
    /\ find_icu_patients float_str re_search files = Some excluded_icu
    /\ files' = map (fun nd => (fst nd,
                                fst (exclude_from_file (excluded_diagnosis ++ excluded_icu)
                                                       (snd nd)))) files.
Proof.
  intros Hl. unfold cohort_filter. rewrite Hl.
  destruct (find_excluded_patients float_str re_search diagnosis) as [d|]; [|discriminate].
  destruct (find_icu_patients float_str re_search files) as [i|]; [|discriminate].
  intros [= <-]. exists d, i. repeat split. apply exclude_all_files_fst.
Qed.
End ExclusionFacts.

(** A cohort of three admissions: P1_1 has an excluded diagnosis, P2_1
    was in an intensive-care department, P3_1 neither. *)
Definition example_cohort : Files :=
  [ ("住院.csv"%string,
     mkFrame ["admission_key"; "visit_department"]%string
       [ [("admission_key", Str "P1_1"); ("visit_department", Str "内分泌科（外滩）")];
         [("admission_key", Str "P2_1"); ("visit_department", Str "重症医学科（外滩）")];
         [("admission_key", Str "P3_1"); ("visit_department", Str "内分泌科（月湖）")] ]%string);
    ("血糖.csv"%string,
     mkFrame ["admission_key"; "blood_sugar"]%string
       [ [("admission_key", Str "P3_1"); ("blood_sugar", Flt (52 # 10))];
         [("admission_key", Str "P1_1"); ("blood_sugar", Flt (41 # 10))];
         [("admission_key", Str "P2_1"); ("blood_sugar", Flt (67 # 10))];
         [("admission_key", Str "P3_1"); ("blood_sugar", Flt (48 # 10))] ]%string);
    ("诊断.csv"%string,
     mkFrame ["admission_key"; "disease_name"]%string
       [ [("admission_key", Str "P1_1"); ("disease_name", Str "妊娠糖尿病")];
         [("admission_key", Str "P2_1"); ("disease_name", Str "高血压")];
         [("admission_key", Str "P3_1"); ("disease_name", Str "2型糖尿病")];
         [("admission_key", Str "P1_1"); ("disease_name", Str "高血压")] ]%string) ].

(** X1.  After a completed run of the cohort filter on a directory that
    has 诊断.csv, no table with an admission_key column keeps a record of
    an admission that has a diagnosis record matching an exclusion
    keyword, or a record of 非药品医嘱.csv or 住院.csv whose department
    column matches an excluded department: the exclusion is by admission
    and reaches every table, not only the record that matched. *)
Theorem cohort_filter_excludes :
  forall (float_str : Q -> string) (re_search : string -> string -> bool)
         (files files' : Files) (diagnosis : DataFrame),
    lookup "诊断.csv" files = Some diagnosis ->
    cohort_filter float_str re_search files = Some files' ->
    forall name df' r',
      In (name, df') files' -> has_column df' "admission_key" = true -> In r' (rows df') ->
      (forall keyword r,
          has_column diagnosis "disease_name" = true ->
          In keyword DIAGNOSIS_EXCLUSION -> In r (rows diagnosis) ->
          contains float_str re_search "disease_name" keyword r = true ->
          cell_eqb (get r' "admission_key") (get r "admission_key") = false)
      /\ (forall file_name cols df c d r,
            In (file_name, cols) files_to_check -> lookup file_name files = Some df ->
            In c cols -> has_column df c = true -> In d DEPARTMENT_EXCLUSION ->
            In r (rows df) -> contains float_str re_search c d r = true ->
            cell_eqb (get r' "admission_key") (get r "admission_key") = false).
Proof.
  intros float_str re_search files files' diagnosis Hl Hrun name df' r' Hin Hk Hr'.
  destruct (cohort_filter_done float_str re_search files files' diagnosis Hl Hrun)
    as [d [i [Hd [Hi ->]]]].
  apply in_map_iff in Hin. destruct Hin as [[n df] [Heq Hin]]. simpl in Heq.
  injection Heq as -> <-.
  rewrite exclude_from_file_has_column in Hk.
  apply Step2Facts.exclude_from_file_rows in Hr'; [|exact Hk].
  destruct Hr' as [_ Hout]. rewrite isin_app in Hout.
  apply orb_false_iff in Hout. destruct Hout as [Hout_d Hout_i].
  split.
  - intros keyword r Hdn Hkw Hr Hm.
    destruct (cell_eqb (get r' "admission_key") (get r "admission_key")) eqn:E; [|reflexivity].
    rewrite (find_excluded_patients_isin float_str re_search diagnosis d keyword r _
               Hd Hdn Hkw Hr Hm E) in Hout_d.
    discriminate.
  - intros file_name cols df0 c dept r Hcheck Hl0 Hc Hhas Hdept Hr Hm.
    destruct (cell_eqb (get r' "admission_key") (get r "admission_key")) eqn:E; [|reflexivity].
    destruct (file_icu_patients float_str re_search df0 cols) as [file_icu|] eqn:Ef.
    + rewrite (icu_patients_of_isin float_str re_search files files_to_check i file_name cols
                 df0 _ file_icu Hi Hcheck Hl0 Ef) in Hout_i; [discriminate|].
      now apply (file_icu_patients_isin float_str re_search df0 cols file_icu c dept r).
    + exfalso. clear - Hi Hcheck Hl0 Ef.
      unfold find_icu_patients in Hi. revert i Hi.
      induction files_to_check as [|[n0 cs] rest IH]; intros i Hi; [destruct Hcheck|].
      simpl in Hi. destruct Hcheck as [Heq | Hcheck].
      * injection Heq as -> ->. rewrite Hl0, Ef in Hi. discriminate.
      * destruct (lookup n0 files) as [df1|]; [|now apply (IH Hcheck i)].
        destruct (file_icu_patients float_str re_search df1 cs); [|discriminate].
        destruct (icu_patients_of float_str re_search files rest) as [icu|] eqn:E;
          [|discriminate].
        now apply (IH Hcheck icu).
Qed.

(** On the example the run completes and leaves no record of P1_1
    (excluded diagnosis) in any table. *)
Lemma cohort_filter_excludes_witness :
  exists files',
    cohort_filter RerunFacts.no_float_text Text.contains_ci example_cohort = Some files'
    /\ forall name df' r',
         In (name, df') files' -> has_column df' "admission_key" = true -> In r' (rows df') ->
         cell_eqb (get r' "admission_key") (Str "P1_1") = false.
Proof.
  destruct (cohort_filter RerunFacts.no_float_text Text.contains_ci example_cohort)
    as [files'|] eqn:Hrun; [|vm_compute in Hrun; discriminate].
  exists files'. split; [reflexivity|].
  intros name df' r' Hin Hk Hr'.
  destruct (cohort_filter_excludes RerunFacts.no_float_text Text.contains_ci example_cohort
              files' _ eq_refl Hrun name df' r' Hin Hk Hr') as [Hdiag _].
  apply (Hdiag "妊娠糖尿病"%string
               [("admission_key"%string, Str "P1_1"); ("disease_name"%string, Str "妊娠糖尿病")]).
  - reflexivity.
  - left. reflexivity.
  - left. reflexivity.
  - vm_compute. reflexivity.
Defined.

(** X2.  The cohort filter is idempotent as a whole: when a run on a
    directory completes, a second run on the tables it wrote finds nobody
    to exclude, neither by diagnosis nor by department, and writes the
    same tables again. *)
Theorem cohort_filter_rerun :
  forall (float_str : Q -> string) (re_search : string -> string -> bool)
         (files files' : Files),
    cohort_filter float_str re_search files = Some files' ->
    cohort_filter float_str re_search files' = Some files'
    /\ (forall diagnosis', lookup "诊断.csv" files' = Some diagnosis' ->
          find_excluded_patients float_str re_search diagnosis' = Some []
          /\ find_icu_patients float_str re_search files' = Some []).
Proof.
  intros float_str re_search files files' Hrun.
  destruct (lookup "诊断.csv" files) as [diagnosis|] eqn:Hl.
  2:{ unfold cohort_filter in Hrun. rewrite Hl in Hrun. injection Hrun as <-.
      split; [unfold cohort_filter; now rewrite Hl|].
      intros diagnosis' H. rewrite Hl in H. discriminate. }
  destruct (cohort_filter_done float_str re_search files files' diagnosis Hl Hrun)
    as [d [i [Hd [Hi ->]]]].
  set (ex := d ++ i).
  assert (Hl' : lookup "诊断.csv"
                  (map (fun nd => (fst nd, fst (exclude_from_file ex (snd nd)))) files)
                = Some (fst (exclude_from_file ex diagnosis))).
  { rewrite (lookup_map (fun df => fst (exclude_from_file ex df))), Hl. reflexivity. }
  assert (Hd' : find_excluded_patients float_str re_search (fst (exclude_from_file ex diagnosis))
                = Some []).
  { apply (find_excluded_patients_gone float_str re_search ex d); [exact Hd|].
    intros v Hv. unfold ex. rewrite isin_app, Hv. reflexivity. }
  assert (Hi' : find_icu_patients float_str re_search
                  (map (fun nd => (fst nd, fst (exclude_from_file ex (snd nd)))) files)
                = Some []).
  { apply (icu_patients_of_gone float_str re_search ex files files_to_check i); [exact Hi|].
    intros v Hv. unfold ex. rewrite isin_app, Hv. apply orb_true_r. }
  split.
  - unfold cohort_filter. rewrite Hl', Hd', Hi'. simpl app.
    now rewrite exclude_nobody_all.
  - intros diagnosis' H. rewrite Hl' in H. injection H as <-. now split.
Qed.

(** The second run on the example. *)
Lemma cohort_filter_rerun_witness :
  exists files',
    cohort_filter RerunFacts.no_float_text Text.contains_ci example_cohort = Some files'
    /\ cohort_filter RerunFacts.no_float_text Text.contains_ci files' = Some files'
    /\ map (fun nd => (fst nd, column (snd nd) "admission_key")) files'
       = [ ("住院.csv"%string, [Str "P3_1"]);
           ("血糖.csv"%string, [Str "P3_1"; Str "P3_1"]);
           ("诊断.csv"%string, [Str "P3_1"]) ].
Proof.
  destruct (cohort_filter RerunFacts.no_float_text Text.contains_ci example_cohort)
    as [files'|] eqn:Hrun; [|vm_compute in Hrun; discriminate].
  exists files'. split; [reflexivity|].
  split; [apply (cohort_filter_rerun _ _ _ _ Hrun)|].
  vm_compute in Hrun. injection Hrun as <-. reflexivity.
Defined.

End CohortFacts.
